(** * k9s tunnel manager: port allocation, tunnel state store, liveness,
      lifecycle and network validation

    Shallow embedding of [k9sSetup/src/tunnel.py],
    [k9sSetup/src/network_validator.py], [k9sSetup/src/multi_status.py], of
    [connect_cluster], [set_current_context] and the connection batch of
    [main] from [k9sSetup/multi_connect.py], and of
    [extract_hosts_from_inventory] from [k9sSetup/src/inventory.py].

    Conventions.
    - A Python [str] is a [string] read as a sequence of code points below
      256; [bytes] are lists of integers in [0, 256).
    - Python integers are [Z].
    - Code that touches the file system, the process table or external
      commands runs in the monad [M] over [World]; an exception is the
      [Raised] outcome, a call that never returns is [Blocked].
    - The state directory holds only the files of the program; reading,
      writing and deleting a file that is there does not fail.
    - External commands answer as the world scripts them, so a property
      proved for every world holds whatever the commands answer.
    - Log lines and console output are not part of the model.
    - The library calls are embedded for what the program itself produces:
      context names that are plain file names, records of the positive
      identifier of one process (another than the program) written in
      fewer digits than [int] refuses, commands that exit, hang or are
      missing. The properties that need these bounds state them
      ([plain_name], [sane_record], [cut_short]). *)

From Stdlib Require Import ZArith List Ascii String Lia Bool.
From stdpp Require Import base option list gmap strings sorting.

Local Open Scope Z_scope.

(** ** MD5 ([hashlib.md5]) *)

Module Md5.

Definition mask32 : Z := 0xffffffff.

Definition add32 (x y : Z) : Z := Z.land (x + y) mask32.

Definition not32 (x : Z) : Z := Z.lxor x mask32.

Definition rotl32 (x n : Z) : Z :=
  Z.lor (Z.land (Z.shiftl x n) mask32) (Z.shiftr x (32 - n)).

Definition sines : list Z :=
  [ 0xd76aa478; 0xe8c7b756; 0x242070db; 0xc1bdceee;
    0xf57c0faf; 0x4787c62a; 0xa8304613; 0xfd469501;
    0x698098d8; 0x8b44f7af; 0xffff5bb1; 0x895cd7be;
    0x6b901122; 0xfd987193; 0xa679438e; 0x49b40821;
    0xf61e2562; 0xc040b340; 0x265e5a51; 0xe9b6c7aa;
    0xd62f105d; 0x02441453; 0xd8a1e681; 0xe7d3fbc8;
    0x21e1cde6; 0xc33707d6; 0xf4d50d87; 0x455a14ed;
    0xa9e3e905; 0xfcefa3f8; 0x676f02d9; 0x8d2a4c8a;
    0xfffa3942; 0x8771f681; 0x6d9d6122; 0xfde5380c;
    0xa4beea44; 0x4bdecfa9; 0xf6bb4b60; 0xbebfbc70;
    0x289b7ec6; 0xeaa127fa; 0xd4ef3085; 0x04881d05;
    0xd9d4d039; 0xe6db99e5; 0x1fa27cf8; 0xc4ac5665;
    0xf4292244; 0x432aff97; 0xab9423a7; 0xfc93a039;
    0x655b59c3; 0x8f0ccc92; 0xffeff47d; 0x85845dd1;
    0x6fa87e4f; 0xfe2ce6e0; 0xa3014314; 0x4e0811a1;
    0xf7537e82; 0xbd3af235; 0x2ad7d2bb; 0xeb86d391 ].

Definition shifts : list Z :=
  [ 7; 12; 17; 22; 7; 12; 17; 22; 7; 12; 17; 22; 7; 12; 17; 22;
    5; 9; 14; 20; 5; 9; 14; 20; 5; 9; 14; 20; 5; 9; 14; 20;
    4; 11; 16; 23; 4; 11; 16; 23; 4; 11; 16; 23; 4; 11; 16; 23;
    6; 10; 15; 21; 6; 10; 15; 21; 6; 10; 15; 21; 6; 10; 15; 21 ].

Record state := State { sa : Z; sb : Z; sc : Z; sd : Z }.

Definition init : state :=
  State 0x67452301 0xefcdab89 0x98badcfe 0x10325476.

(** The mixing function and the message word index of operation [i]. *)
Definition mix (i b c d : Z) : Z * Z :=
  if i <? 16 then (Z.lor (Z.land b c) (Z.land (not32 b) d), i)
  else if i <? 32 then
    (Z.lor (Z.land d b) (Z.land (not32 d) c), (5 * i + 1) mod 16)
  else if i <? 48 then (Z.lxor (Z.lxor b c) d, (3 * i + 5) mod 16)
  else (Z.lxor c (Z.lor b (not32 d)), (7 * i) mod 16).

Definition operation (words : list Z) (st : state) (i : nat) : state :=
  let '(f, g) := mix (Z.of_nat i) (sb st) (sc st) (sd st) in
  let f' := add32 (add32 (add32 f (sa st)) (nth i sines 0))
                  (nth (Z.to_nat g) words 0) in
  State (sd st) (add32 (sb st) (rotl32 f' (nth i shifts 0))) (sb st) (sc st).

Definition compress (st : state) (words : list Z) : state :=
  let st' := fold_left (operation words) (seq 0 64) st in
  State (add32 (sa st) (sa st')) (add32 (sb st) (sb st'))
        (add32 (sc st) (sc st')) (add32 (sd st) (sd st')).

(** Little-endian encodings. *)
Fixpoint le_bytes (n : nat) (x : Z) : list Z :=
  match n with
  | O => []
  | S n' => x mod 256 :: le_bytes n' (x / 256)
  end.

Fixpoint le_word (bs : list Z) : Z :=
  match bs with
  | [] => 0
  | b :: bs' => b + 256 * le_word bs'
  end.

(** Split a byte list into groups of [n] bytes. *)
Fixpoint groups (fuel n : nat) (bs : list Z) : list (list Z) :=
  match fuel with
  | O => []
  | S fuel' =>
      match bs with
      | [] => []
      | _ => firstn n bs :: groups fuel' n (skipn n bs)
      end
  end.

Definition pad (msg : list Z) : list Z :=
  let len := Z.of_nat (length msg) in
  let zeros := Z.to_nat ((55 - len) mod 64) in
  msg ++ 0x80 :: repeat 0 zeros ++ le_bytes 8 ((8 * len) mod 2 ^ 64).

Definition blocks (msg : list Z) : list (list Z) :=
  let padded := pad msg in
  map (fun block => map le_word (groups 16 4 block))
      (groups (length padded) 64 padded).

(** [hashlib.md5(msg).digest()] *)
Definition digest (msg : list Z) : list Z :=
  let st := fold_left compress (blocks msg) init in
  le_bytes 4 (sa st) ++ le_bytes 4 (sb st) ++
  le_bytes 4 (sc st) ++ le_bytes 4 (sd st).

Definition hex_char (d : Z) : ascii :=
  ascii_of_nat (Z.to_nat (if d <? 10 then 48 + d else 87 + d)).

Fixpoint hex_string (bs : list Z) : string :=
  match bs with
  | [] => EmptyString
  | b :: bs' => String (hex_char (b / 16)) (String (hex_char (b mod 16)) (hex_string bs'))
  end.

(** [hashlib.md5(msg).hexdigest()] *)
Definition hexdigest (msg : list Z) : string := hex_string (digest msg).

End Md5.

(** ** Python text primitives *)

Definition code (c : ascii) : Z := Z.of_nat (nat_of_ascii c).

(** [str.encode()]: UTF-8 of code points below 256. *)
Fixpoint encode (s : string) : list Z :=
  match s with
  | EmptyString => []
  | String c s' =>
      let n := code c in
      if n <? 128 then n :: encode s'
      else Z.lor 0xC0 (Z.shiftr n 6) :: Z.lor 0x80 (Z.land n 0x3F) :: encode s'
  end.

(** [str.isspace] on code points below 256; the characters [str.strip] and
    [str.split] treat as blank. *)
Definition is_space (c : ascii) : bool :=
  let n := code c in
  ((9 <=? n) && (n <=? 13)) || ((28 <=? n) && (n <=? 32))
  || (n =? 133) || (n =? 160).

(** The blanks [int] skips at both ends of its argument. *)
Definition is_int_space (c : ascii) : bool :=
  let n := code c in
  ((9 <=? n) && (n <=? 13)) || (n =? 32) || (n =? 133) || (n =? 160).

Fixpoint ltrim (blank : ascii -> bool) (s : string) : string :=
  match s with
  | EmptyString => EmptyString
  | String c s' => if blank c then ltrim blank s' else s
  end.

Fixpoint rtrim (blank : ascii -> bool) (s : string) : string :=
  match s with
  | EmptyString => EmptyString
  | String c s' =>
      match rtrim blank s' with
      | EmptyString => if blank c then EmptyString else String c EmptyString
      | r => String c r
      end
  end.

(** [s.strip()] *)
Definition strip (s : string) : string := rtrim is_space (ltrim is_space s).

Fixpoint split_from (tok : string) (s : string) : list string :=
  match s with
  | EmptyString => match tok with EmptyString => [] | _ => [tok] end
  | String c s' =>
      if is_space c then
        match tok with
        | EmptyString => split_from EmptyString s'
        | _ => tok :: split_from EmptyString s'
        end
      else split_from (tok +:+ String c EmptyString) s'
  end.

(** [s.split()] *)
Definition split (s : string) : list string := split_from EmptyString s.

(** Value of a digit or letter in [int]'s numerals. *)
Definition digit_value (c : ascii) : option Z :=
  let n := code c in
  if (48 <=? n) && (n <=? 57) then Some (n - 48)
  else if (97 <=? n) && (n <=? 122) then Some (n - 87)
  else if (65 <=? n) && (n <=? 90) then Some (n - 55)
  else None.

Definition underscore : ascii := "_"%char.

(** Digits in [base], single underscores allowed between two digits.
    [after_digit] tells whether the previous character was a digit. *)
Fixpoint numeral (base acc : Z) (after_digit : bool) (s : string) : option Z :=
  match s with
  | EmptyString => if after_digit then Some acc else None
  | String c s' =>
      if Ascii.eqb c underscore then
        if after_digit then numeral base acc false s' else None
      else
        match digit_value c with
        | Some d => if d <? base then numeral base (acc * base + d) true s' else None
        | None => None
        end
  end.

Definition unprefixed (base : Z) (s : string) : string :=
  match s with
  | String z (String x s') =>
      if (base =? 16) && Ascii.eqb z "0"%char
         && (Ascii.eqb x "x"%char || Ascii.eqb x "X"%char)
      then match s' with
           | String u s'' => if Ascii.eqb u underscore then s'' else s'
           | EmptyString => s'
           end
      else s
  | _ => s
  end.

(** [int(s, base)] for base 10 and 16; [None] is [ValueError]. The limit on
    the number of digits (4300 by default) is not modelled. *)
Definition py_int (base : Z) (s : string) : option Z :=
  match rtrim is_int_space (ltrim is_int_space s) with
  | String sign s' =>
      if Ascii.eqb sign "-"%char then Z.opp <$> numeral base 0 false (unprefixed base s')
      else if Ascii.eqb sign "+"%char then numeral base 0 false (unprefixed base s')
      else numeral base 0 false (unprefixed base (String sign s'))
  | EmptyString => None
  end.

Definition digit_char (d : Z) : ascii := ascii_of_nat (Z.to_nat (48 + d)).

(** Decimal digits of [n], least significant first. *)
Fixpoint digits_le (fuel : nat) (n : Z) : list Z :=
  match fuel with
  | O => []
  | S fuel' => n mod 10 :: (if n <? 10 then [] else digits_le fuel' (n / 10))
  end.

Definition decimal (n : Z) : string :=
  string_of_list_ascii
    (map digit_char (rev (digits_le (S (Z.to_nat (Z.log2 n))) n))).

(** [str(n)] for an integer. *)
Definition py_str (n : Z) : string :=
  if n <? 0 then String "-"%char (decimal (- n)) else decimal n.

(** ** Exceptions and outcomes *)

Inductive exception :=
  | ValueError
  | OverflowError
  | ZeroDivisionError
  | IndexError
  | AttributeError
  | RuntimeError (msg : string)
  | ProcessLookupError
  | PermissionError
  | FileNotFoundError
  | TimeoutExpired
  | YAMLError
  | CollaboratorError (msg : string).

(** [isinstance(e, OSError)] *)
Definition is_OSError (e : exception) : bool :=
  match e with
  | ProcessLookupError | PermissionError | FileNotFoundError => true
  | _ => false
  end.

Inductive outcome (A : Type) :=
  | Returned (a : A)
  | Raised (e : exception)
  | Blocked.
Arguments Returned {A} a.
Arguments Raised {A} e.
Arguments Blocked {A}.

(** ** Port allocator ([tunnel.py]) *)

Definition get_unique_port (context_name : string)
    (port_range_start port_range_size : Z) : outcome Z :=
  match py_int 16 (substring 0 4 (Md5.hexdigest (encode context_name))) with
  | None => Raised ValueError
  | Some hash_int =>
      if port_range_size =? 0 then Raised ZeroDivisionError
      else Returned (port_range_start + hash_int mod port_range_size)
  end.

Definition DEFAULT_RANGE_START : Z := 16443.
Definition DEFAULT_RANGE_SIZE : Z := 10000.

(** ** The world the program runs in *)

(** Values [yaml.safe_load] hands back for the entries of a metadata file.
    [PyOpaque] stands for any value that is not [None], a boolean, an
    integer or a string (a float, a list, a nested mapping); only its
    rendering by [str] and its truth value matter here. *)
Inductive pyvalue :=
  | PyNone
  | PyBool (b : bool)
  | PyInt (n : Z)
  | PyStr (s : string)
  | PyOpaque (shown : string) (truthy : bool).

(** A YAML document: a mapping (looked up by string keys here) or anything
    else. The empty document is [Plain PyNone]. *)
Inductive document :=
  | Mapping (m : gmap string pyvalue)
  | Plain (v : pyvalue).

(** A [{context}.network] file is represented by what [yaml.safe_load]
    makes of it. *)
Inductive network_file :=
  | Loads (d : document)
  | Unloadable.

(** The tunnel state directory: [{context}.pid] files by the text read from
    them, [{context}.network] files as above, both keyed by context name. *)
Record StateDir := {
  pid_files : gmap string string;
  network_files : gmap string network_file
}.

Definition empty_dir : StateDir := {| pid_files := ∅; network_files := ∅ |}.

(** [subprocess.CompletedProcess] *)
Record completed := {
  returncode : Z;
  stdout : string;
  stderr : string
}.

(** How an external command behaves when it is run: it exits after some
    seconds, possibly leaving a background process behind (as [ssh -f]
    does); it never exits; or the executable does not exist. *)
Inductive behaviour :=
  | Exits (seconds : Z) (result : completed) (leaves : option Z)
  | Hangs
  | Missing.

Record World := {
  state_dir : option StateDir;
  (** the processes beside the program, under the identifier [kill] resolves
      to them, with whether the caller may signal them *)
  processes : gmap Z bool;
  (** behaviour of the external commands still to be run, in order *)
  script : list behaviour;
  (** commands run so far with their timeout, most recent first *)
  invocations : list (list string * option Z)
}.

Definition with_dir (d : option StateDir) (w : World) : World :=
  {| state_dir := d; processes := processes w; script := script w;
     invocations := invocations w |}.

Definition with_processes (p : gmap Z bool) (w : World) : World :=
  {| state_dir := state_dir w; processes := p; script := script w;
     invocations := invocations w |}.

Definition the_dir (w : World) : StateDir := default empty_dir (state_dir w).

Definition with_pid_files (f : gmap string string) (w : World) : World :=
  with_dir (Some {| pid_files := f; network_files := network_files (the_dir w) |}) w.

Definition with_network_files (f : gmap string network_file) (w : World) : World :=
  with_dir (Some {| pid_files := pid_files (the_dir w); network_files := f |}) w.

(** ** The monad of effectful code *)

Definition M (A : Type) : Type := World -> outcome A * World.

Definition ret {A} (a : A) : M A := fun w => (Returned a, w).

Definition raise {A} (e : exception) : M A := fun w => (Raised e, w).

Definition bind {A B} (c : M A) (k : A -> M B) : M B := fun w =>
  match c w with
  | (Returned a, w') => k a w'
  | (Raised e, w') => (Raised e, w')
  | (Blocked, w') => (Blocked, w')
  end.

Declare Scope py_scope.
Delimit Scope py_scope with py.
Notation "x <- c ;; k" := (bind c (fun x => k))
  (at level 100, c at next level, right associativity) : py_scope.
Notation "c ;; k" := (bind c (fun _ => k))
  (at level 100, right associativity) : py_scope.
Local Open Scope py_scope.

(** A pure call that may raise. *)
Definition lift {A} (o : outcome A) : M A := fun w => (o, w).

(** [try: body except <classes>: handler] *)
Definition try_except {A} (body : M A) (catches : exception -> bool)
    (handler : M A) : M A := fun w =>
  match body w with
  | (Raised e, w') => if catches e then handler w' else (Raised e, w')
  | r => r
  end.

(** [try: body finally: cleanup] *)
Definition try_finally {A} (body : M A) (cleanup : M unit) : M A := fun w =>
  match body w with
  | (Blocked, w') => (Blocked, w')
  | (r, w') =>
      match cleanup w' with
      | (Returned _, w'') => (r, w'')
      | (Raised e, w'') => (Raised e, w'')
      | (Blocked, w'') => (Blocked, w'')
      end
  end.

(** *** File system *)

(** [state_dir.mkdir(parents=True, exist_ok=True)] *)
Definition mkdir : M unit := fun w =>
  (Returned tt, with_dir (Some (the_dir w)) w).

Definition pid_file_exists (context_name : string) : M bool := fun w =>
  (Returned (bool_decide (is_Some (pid_files (the_dir w) !! context_name))), w).

(** [open(pid_file).read()] *)
Definition read_pid_file (context_name : string) : M string := fun w =>
  match pid_files (the_dir w) !! context_name with
  | Some text => (Returned text, w)
  | None => (Raised FileNotFoundError, w)
  end.

(** [pid_file.unlink(missing_ok=True)] *)
Definition unlink_pid_file (context_name : string) : M unit := fun w =>
  match state_dir w with
  | Some _ => (Returned tt, with_pid_files (delete context_name (pid_files (the_dir w))) w)
  | None => (Returned tt, w)
  end.

(** [open(pid_file, 'w')]: the file is created, or emptied, at once. The
    embedding is exact for names that are file names (no path separator);
    likewise for [open_network_file_w]. *)
Definition open_pid_file_w (context_name : string) : M unit := fun w =>
  match state_dir w with
  | Some _ =>
      (Returned tt, with_pid_files (<[context_name := EmptyString]> (pid_files (the_dir w))) w)
  | None => (Raised FileNotFoundError, w)
  end.

(** [f.write(text)] reaching the file. *)
Definition write_pid_file (context_name text : string) : M unit := fun w =>
  let old := default EmptyString (pid_files (the_dir w) !! context_name) in
  (Returned tt, with_pid_files (<[context_name := old +:+ text]> (pid_files (the_dir w))) w).

Definition network_file_exists (context_name : string) : M bool := fun w =>
  (Returned (bool_decide (is_Some (network_files (the_dir w) !! context_name))), w).

(** [network_file.unlink(missing_ok=True)] *)
Definition unlink_network_file (context_name : string) : M unit := fun w =>
  match state_dir w with
  | Some _ =>
      (Returned tt, with_network_files (delete context_name (network_files (the_dir w))) w)
  | None => (Returned tt, w)
  end.

(** [open(network_file, 'w')]: an empty file, which loads as [None]. *)
Definition open_network_file_w (context_name : string) : M unit := fun w =>
  match state_dir w with
  | Some _ =>
      (Returned tt,
       with_network_files
         (<[context_name := Loads (Plain PyNone)]> (network_files (the_dir w))) w)
  | None => (Raised FileNotFoundError, w)
  end.

(** [yaml.safe_dump(metadata, f)] reaching the file: it then loads as
    [metadata]. *)
Definition yaml_safe_dump (context_name : string) (metadata : gmap string pyvalue) : M unit :=
  fun w =>
  (Returned tt,
   with_network_files (<[context_name := Loads (Mapping metadata)]> (network_files (the_dir w))) w).

(** [yaml.safe_load(open(network_file))] *)
Definition yaml_safe_load (context_name : string) : M document := fun w =>
  match network_files (the_dir w) !! context_name with
  | Some (Loads d) => (Returned d, w)
  | Some Unloadable => (Raised YAMLError, w)
  | None => (Raised FileNotFoundError, w)
  end.

(** [state_dir.glob("*.pid")], each path already reduced to its stem; the
    order is that of the directory listing, which the code does not rely
    on. The stem of [{name}.pid] is [name] for every name but the empty
    one, whose file [.pid] is its own stem: the embedding is exact for
    non-empty names. *)
Definition glob_pid (d : StateDir) : list string :=
  (map_to_list (pid_files d)).*1.

(** A [for] loop that collects what its body returns. *)
Fixpoint for_each {A B} (body : A -> M B) (items : list A) : M (list B) :=
  match items with
  | [] => ret []
  | x :: rest =>
      y <- body x ;;
      ys <- for_each body rest ;;
      ret (y :: ys)
  end.

(** *** Processes *)

Definition INT_MIN : Z := - 2 ^ 31.
Definition INT_MAX : Z := 2 ^ 31 - 1.

(** [os.kill(pid, sig)]. A number that does not fit the C type of process
    identifiers is refused before the system is asked. Signal 0 only
    probes; a delivered signal 15 ends its target. The identifier is looked
    up as that of one process: the embedding is exact for positive
    identifiers of processes other than the program, and does not tell
    zero and negative identifiers, which address process groups, from
    identifiers of no process. *)
Definition os_kill (pid sig : Z) : M unit := fun w =>
  if negb ((INT_MIN <=? pid) && (pid <=? INT_MAX)) then (Raised OverflowError, w)
  else
    match processes w !! pid with
    | None => (Raised ProcessLookupError, w)
    | Some false => (Raised PermissionError, w)
    | Some true =>
        if sig =? 0 then (Returned tt, w)
        else (Returned tt, with_processes (delete pid (processes w)) w)
    end.

Definition started (leaves : option Z) (p : gmap Z bool) : gmap Z bool :=
  match leaves with
  | Some pid => <[pid := true]> p
  | None => p
  end.

(** [subprocess.run(cmd, capture_output=True, text=True, timeout=timeout)].
    The next scripted behaviour is consumed; with nothing scripted the
    executable is taken to be absent. A command exits, hangs or is
    missing: an executable that may not be run, an argument that cannot be
    passed and an output that cannot be decoded are not among the
    behaviours. *)
Definition subprocess_run (cmd : list string) (timeout : option Z) : M completed := fun w =>
  let log := (cmd, timeout) :: invocations w in
  let after (p : gmap Z bool) :=
    {| state_dir := state_dir w; processes := p; script := tail (script w);
       invocations := log |} in
  match script w with
  | [] | Missing :: _ => (Raised FileNotFoundError, after (processes w))
  | Hangs :: _ =>
      match timeout with
      | Some _ => (Raised TimeoutExpired, after (processes w))
      | None => (Blocked, after (processes w))
      end
  | Exits seconds result leaves :: _ =>
      match timeout with
      | Some t =>
          if t <? seconds then (Raised TimeoutExpired, after (processes w))
          else (Returned result, after (started leaves (processes w)))
      | None => (Returned result, after (started leaves (processes w)))
      end
  end.

(** [time.sleep] *)
Definition sleep : M unit := ret tt.

(** [int(text)], raising [ValueError] when the text is no decimal integer. *)
Definition int_of (text : string) : M Z :=
  match py_int 10 text with
  | Some n => ret n
  | None => raise ValueError
  end.

(** ** Tunnel management ([tunnel.py]) *)

(** [except (ValueError, ProcessLookupError, OSError)] *)
Definition pid_errors (e : exception) : bool :=
  match e with
  | ValueError | ProcessLookupError => true
  | _ => is_OSError e
  end.

(** The returned path is identified with the context name it is built from. *)
Definition get_tunnel_pid_file (context_name : string) : M string :=
  mkdir ;; ret context_name.

Definition is_tunnel_running (context_name : string) : M bool :=
  pid_file <- get_tunnel_pid_file context_name ;;
  present <- pid_file_exists pid_file ;;
  if negb present then ret false
  else
    try_except
      (text <- read_pid_file pid_file ;;
       pid <- int_of (strip text) ;;
       os_kill pid 0 ;;
       ret true)
      pid_errors
      (unlink_pid_file pid_file ;; ret false).

Definition kill_tunnel (context_name : string) : M unit :=
  pid_file <- get_tunnel_pid_file context_name ;;
  present <- pid_file_exists pid_file ;;
  if negb present then ret tt
  else
    try_finally
      (try_except
         (text <- read_pid_file pid_file ;;
          pid <- int_of (strip text) ;;
          os_kill pid 15)
         pid_errors
         (ret tt))
      (unlink_pid_file pid_file).

Definition kill_all_tunnels : M unit := fun w =>
  match state_dir w with
  | None => (Returned tt, w)
  | Some d => (for_each kill_tunnel (glob_pid d) ;; ret tt) w
  end.

Definition nonempty (s : string) : bool :=
  match s with
  | EmptyString => false
  | _ => true
  end.

Definition forward_spec (local_port : Z) (internal_ip : string) (remote_port : Z) : string :=
  py_str local_port +:+ ":" +:+ internal_ip +:+ ":" +:+ py_str remote_port.

Definition create_tunnel (ssh_host internal_ip : string) (local_port remote_port : Z)
    : M (option Z) :=
  let cmd := ["ssh"; "-f"; "-N";
              "-o"; "ExitOnForwardFailure=yes";
              "-o"; "ServerAliveInterval=60";
              "-L"; forward_spec local_port internal_ip remote_port;
              ssh_host] in
  result <- subprocess_run cmd None ;;
  if negb (returncode result =? 0) then
    raise (RuntimeError ("Failed to create SSH tunnel: " +:+ stderr result))
  else
    sleep ;;
    find_pid <- subprocess_run
                  ["pgrep"; "-f"; "ssh.*" +:+ forward_spec local_port internal_ip remote_port]
                  None ;;
    if (returncode find_pid =? 0) && nonempty (strip (stdout find_pid)) then
      match split (strip (stdout find_pid)) with
      | first :: _ => pid <- int_of first ;; ret (Some pid)
      | [] => raise IndexError
      end
    else ret None.

Definition save_tunnel_pid (context_name : string) (pid : option Z) : M unit :=
  match pid with
  | Some p =>
      if p =? 0 then ret tt
      else
        pid_file <- get_tunnel_pid_file context_name ;;
        open_pid_file_w pid_file ;;
        write_pid_file pid_file (py_str p)
  | None => ret tt
  end.

Definition get_network_metadata_file (context_name : string) : M string :=
  mkdir ;; ret context_name.

Definition str_truthy (s : option string) : bool :=
  match s with
  | Some t => nonempty t
  | None => false
  end.

Definition set_item (key : string) (value : option pyvalue)
    (d : gmap string pyvalue) : gmap string pyvalue :=
  match value with
  | Some v => <[key := v]> d
  | None => d
  end.

(** The dictionary [save_network_metadata] builds, entries with value
    [None] removed. *)
Definition metadata_of (network_type network_range sshuttle_command : option string)
    (needs_vpn : bool) (internal_ip : option string) : gmap string pyvalue :=
  set_item "network_type" (PyStr <$> network_type)
    (set_item "network_range" (PyStr <$> network_range)
      (set_item "sshuttle_command" (PyStr <$> sshuttle_command)
        (set_item "needs_vpn" (Some (PyBool needs_vpn))
          (set_item "internal_ip" (PyStr <$> internal_ip) ∅)))).

Definition save_network_metadata (context_name : string)
    (network_type network_range sshuttle_command : option string)
    (needs_vpn : bool) (internal_ip : option string) : M unit :=
  if negb (str_truthy network_type) && negb needs_vpn then ret tt
  else
    let metadata :=
      metadata_of network_type network_range sshuttle_command needs_vpn internal_ip in
    network_file <- get_network_metadata_file context_name ;;
    try_except
      (open_network_file_w network_file ;;
       yaml_safe_dump network_file metadata)
      (fun _ => true)
      (ret tt).


(** ** Network validation ([network_validator.py]) *)

(** How an f-string renders a value. *)
Definition format (v : pyvalue) : string :=
  match v with
  | PyNone => "None"
  | PyBool true => "True"
  | PyBool false => "False"
  | PyInt n => py_str n
  | PyStr s => s
  | PyOpaque shown _ => shown
  end.

(** Truth value of a Python object. *)
Definition truthy (v : pyvalue) : bool :=
  match v with
  | PyNone => false
  | PyBool b => b
  | PyInt n => negb (n =? 0)
  | PyStr s => nonempty s
  | PyOpaque _ t => t
  end.

Definition doc_truthy (d : document) : bool :=
  match d with
  | Mapping m => negb (bool_decide (m = ∅))
  | Plain v => truthy v
  end.

(** [d.get(key)] and [d.get(key, fallback)] *)
Definition dict_get (d : gmap string pyvalue) (key : string) : pyvalue :=
  default PyNone (d !! key).

Definition dict_get_or (d : gmap string pyvalue) (key : string) (fallback : pyvalue) : pyvalue :=
  default fallback (d !! key).

(** [v == text] for a string literal [text] *)
Definition equals_str (v : pyvalue) (text : string) : bool :=
  match v with
  | PyStr s => String.eqb s text
  | _ => false
  end.

(** [except (subprocess.TimeoutExpired, FileNotFoundError)] *)
Definition probe_errors (e : exception) : bool :=
  match e with
  | TimeoutExpired | FileNotFoundError => true
  | _ => false
  end.

Definition found (result : completed) : bool :=
  (returncode result =? 0) && nonempty (strip (stdout result)).

Definition check_sshuttle_active (network_range : pyvalue) : M bool :=
  try_except
    (result <- subprocess_run ["pgrep"; "-f"; "sshuttle.*" +:+ format network_range] (Some 2) ;;
     if found result then ret true
     else
       result <- subprocess_run ["pgrep"; "-f"; "sshuttle"] (Some 2) ;;
       if found result then ret true
       else ret false)
    probe_errors
    (ret false).

(** The result is the loaded document; Python's [None] is [Plain PyNone]. *)
Definition get_network_metadata (context_name : string) : M document :=
  present <- network_file_exists context_name ;;
  if negb present then ret (Plain PyNone)
  else
    try_except
      (yaml_safe_load context_name)
      (fun _ => true)
      (ret (Plain PyNone)).

Definition newline : string := String (ascii_of_nat 10) EmptyString.

Definition validate_context_network (context_name : string) : M (bool * option string) :=
  metadata <- get_network_metadata context_name ;;
  if negb (doc_truthy metadata) then ret (true, None)
  else
    match metadata with
    | Plain _ => raise AttributeError
    | Mapping metadata =>
        let network_type := dict_get metadata "network_type" in
        if truthy (dict_get metadata "needs_vpn") then
          ret (false, Some "This cluster requires VPN connection")
        else if equals_str network_type "sshuttle" then
          let network_range := dict_get metadata "network_range" in
          let sshuttle_cmd :=
            dict_get_or metadata "sshuttle_command"
              (PyStr ("sshuttle -v -r <gateway> " +:+ format network_range)) in
          active <- check_sshuttle_active network_range ;;
          if negb active then
            ret (false,
                 Some ("This cluster requires sshuttle for " +:+ format network_range
                       +:+ newline +:+ "  Run: " +:+ format sshuttle_cmd))
          else ret (true, None)
        else ret (true, None)
    end.

(** ** Status ([multi_status.py]) *)

Definition get_current_context : M (option string) :=
  try_except
    (result <- subprocess_run ["kubectl"; "config"; "current-context"] (Some 5) ;;
     if returncode result =? 0 then ret (Some (strip (stdout result)))
     else ret None)
    probe_errors
    (ret None).

Definition get_tunnel_pid (context_name : string) : M (option Z) :=
  pid_file <- get_tunnel_pid_file context_name ;;
  present <- pid_file_exists pid_file ;;
  if negb present then ret None
  else
    try_except
      (text <- read_pid_file pid_file ;;
       pid <- int_of (strip text) ;;
       os_kill pid 0 ;;
       ret (Some pid))
      pid_errors
      (ret None).

Definition get_tunnel_port (context_name : string) : M Z :=
  lift (get_unique_port context_name DEFAULT_RANGE_START DEFAULT_RANGE_SIZE).

(** An entry of the list [list_all_contexts] returns. *)
Record context_info := {
  ctx_name : string;
  ctx_tunnel_running : bool;
  ctx_tunnel_pid : option Z;
  ctx_local_port : Z;
  ctx_network_metadata : document
}.

(** The body of the loop of [list_all_contexts]. *)
Definition describe_context (context_name : string) : M context_info :=
  tunnel_running <- is_tunnel_running context_name ;;
  pid <- (if tunnel_running then get_tunnel_pid context_name else ret None) ;;
  port <- get_tunnel_port context_name ;;
  network_meta <- get_network_metadata context_name ;;
  ret {| ctx_name := context_name; ctx_tunnel_running := tunnel_running;
         ctx_tunnel_pid := pid; ctx_local_port := port;
         ctx_network_metadata := network_meta |}.

Definition name_le (a b : context_info) : Prop :=
  String.leb (ctx_name a) (ctx_name b) = true.

#[local] Instance name_le_dec a b : Decision (name_le a b).
Proof. unfold name_le. apply _. Defined.

Definition list_all_contexts : M (list context_info) := fun w =>
  match state_dir w with
  | None => (Returned [], w)
  | Some d =>
      (contexts <- for_each describe_context (glob_pid d) ;;
       ret (merge_sort name_le contexts)) w
  end.

(** ** Connecting a cluster ([multi_connect.py]) *)

(** Module-level configuration of [multi_connect.py]. *)
Record Config := {
  TARGET_PORT : Z;
  PORT_RANGE_START : Z;
  PORT_RANGE_SIZE : Z
}.

Definition default_config : Config :=
  {| TARGET_PORT := 6443;
     PORT_RANGE_START := DEFAULT_RANGE_START;
     PORT_RANGE_SIZE := DEFAULT_RANGE_SIZE |}.

(** An entry of the list [build_cluster_list] makes, with the fields
    [connect_cluster] reads. *)
Record cluster := {
  company : string;
  host_alias : string;
  network_type : option string;
  network_range : option string;
  needs_vpn : bool
}.

(** What the collaborators outside these sources answer: the SSH
    configuration lookup ([src/ssh.py]) and the retrieval of the remote
    kubeconfig, which yields the internal address of the API server and
    whether a cached copy was used. Either may raise. *)
Record Collaborators := {
  load_ssh_config : string -> outcome unit;
  kubeconfig_of : string -> string -> outcome (string * bool)
}.

(** Modelled from the spec: [fetch_and_merge_kubeconfig] of
    [fetch_k3s_config.py], which is not among the sources. After sections 3
    and 4.4 of the specification the context is named
    [{company}-{host_alias}] and the local port is derived from that name
    by the port allocator with the configured range. *)
Definition fetch_and_merge_kubeconfig (env : Collaborators) (company host_alias : string)
    (port_range_start port_range_size : Z) : M (string * Z * string * bool) :=
  let context_name := company +:+ "-" +:+ host_alias in
  answer <- lift (kubeconfig_of env company host_alias) ;;
  local_port <- lift (get_unique_port context_name port_range_start port_range_size) ;;
  ret (context_name, local_port, fst answer, snd answer).

(** The dictionary [connect_cluster] returns; [error] keeps the exception
    whose message the code stores. *)
Record connection := {
  success : bool;
  context_name : string;
  local_port : option Z;
  internal_ip : option string;
  tunnel_pid : option Z;
  error : option exception
}.

(** The block of [connect_cluster] under "Save network metadata". *)
Definition save_cluster_metadata (c : cluster) (context_name internal_ip : string) : M unit :=
  if str_truthy (network_type c) || needs_vpn c then
    let sshuttle_cmd :=
      if bool_decide (network_type c = Some "sshuttle") then
        Some ("sshuttle -v -r helio@100.64.5.10 "
              +:+ format (from_option PyStr PyNone (network_range c)))
      else None in
    save_network_metadata context_name (network_type c) (network_range c)
      sshuttle_cmd (needs_vpn c) (Some internal_ip)
  else ret tt.

(** The part of [connect_cluster] that sets up the tunnel and the network
    metadata once the kubeconfig is merged; it yields the value stored
    under ['tunnel_pid']. *)
Definition setup_tunnel (cfg : Config) (c : cluster) (context_name : string)
    (local_port : Z) (internal_ip : string) : M (option Z) :=
  running <- is_tunnel_running context_name ;;
  tunnel_pid <-
    (if running then
       present <- pid_file_exists context_name ;;
       if present then
         text <- read_pid_file context_name ;;
         pid <- int_of (strip text) ;;
         ret (Some pid)
       else ret None
     else
       pid <- create_tunnel (host_alias c) internal_ip local_port (TARGET_PORT cfg) ;;
       save_tunnel_pid context_name pid ;;
       ret pid) ;;
  save_cluster_metadata c context_name internal_ip ;;
  ret tunnel_pid.

Definition connect_cluster (env : Collaborators) (cfg : Config) (c : cluster)
    : M connection := fun w =>
  let name := company c +:+ "-" +:+ host_alias c in
  let result :=
    {| success := false; context_name := name; local_port := None;
       internal_ip := None; tunnel_pid := None; error := None |} in
  let failed (r : connection) (e : exception) :=
    {| success := success r; context_name := context_name r;
       local_port := local_port r; internal_ip := internal_ip r;
       tunnel_pid := tunnel_pid r; error := Some e |} in
  match (lift (load_ssh_config env (host_alias c)) ;;
         fetch_and_merge_kubeconfig env (company c) (host_alias c)
           (PORT_RANGE_START cfg) (PORT_RANGE_SIZE cfg)) w with
  | (Blocked, w1) => (Blocked, w1)
  | (Raised e, w1) => (Returned (failed result e), w1)
  | (Returned (ctx, port, ip, _), w1) =>
      let result :=
        {| success := false; context_name := name; local_port := Some port;
           internal_ip := Some ip; tunnel_pid := None; error := None |} in
      match setup_tunnel cfg c ctx port ip w1 with
      | (Blocked, w2) => (Blocked, w2)
      | (Raised e, w2) => (Returned (failed result e), w2)
      | (Returned pid, w2) =>
          (Returned
             {| success := true; context_name := name; local_port := Some port;
                internal_ip := Some ip; tunnel_pid := pid; error := None |}, w2)
      end
  end.

(** ** The batch of [main] ([multi_connect.py]) *)

(** [subprocess.run(cmd, check=True, capture_output=True)]: with [check]
    a status other than zero raises [CalledProcessError], which carries
    the completed command. The only caller catches it on the spot, so it
    is kept as a value here and not among the exceptions that travel. *)
Inductive checked :=
  | Succeeded (result : completed)
  | CalledProcessError (result : completed).

Definition subprocess_run_check (cmd : list string) (timeout : option Z) : M checked :=
  result <- subprocess_run cmd timeout ;;
  if returncode result =? 0 then ret (Succeeded result)
  else ret (CalledProcessError result).

Definition set_current_context (context_name : string) : M bool :=
  answer <- subprocess_run_check ["kubectl"; "config"; "use-context"; context_name] None ;;
  match answer with
  | Succeeded _ => ret true
  | CalledProcessError _ => ret false
  end.

(** The loop of [main] over the selected clusters. A result is kept with
    the entry stored under its ['cluster'] key. *)
Definition connect_selected (env : Collaborators) (cfg : Config) (selected : list cluster)
    : M (list (cluster * connection)) :=
  for_each (fun c => result <- connect_cluster env cfg c ;; ret (c, result)) selected.

(** [[r for r in results if r['success']]] *)
Definition successful (results : list (cluster * connection)) : list (cluster * connection) :=
  List.filter (fun r => success (snd r)) results.

(** [[r for r in results if not r['success']]] *)
Definition failed (results : list (cluster * connection)) : list (cluster * connection) :=
  List.filter (fun r => negb (success (snd r))) results.

(** The command [main] reminds of for a cluster behind sshuttle. *)
Definition sshuttle_reminder (c : cluster) : string :=
  "sshuttle -v -r helio@100.64.5.10 " +:+ format (from_option PyStr PyNone (network_range c)).

(** The loop of [main] that collects the reminders. *)
Definition network_reminders (connected : list (cluster * connection)) : list string :=
  fold_left
    (fun reminders r =>
       if bool_decide (network_type (fst r) = Some "sshuttle") then
         let sshuttle_cmd := sshuttle_reminder (fst r) in
         if bool_decide (sshuttle_cmd ∈ reminders) then reminders
         else reminders ++ [sshuttle_cmd]
       else reminders)
    connected [].

(** How the batch ends: [sys.exit(status)], or the attempt to make a
    context the current one, with what [set_current_context] returned and
    the reminders shown after it. *)
Inductive batch_end :=
  | Exit (status : Z)
  | Activated (context_name : string) (ok : bool) (reminders : list string).

(** [main] from "Connect to each cluster" on, for the clusters selected
    and confirmed. *)
Definition connect_batch (env : Collaborators) (cfg : Config) (selected : list cluster)
    : M (list (cluster * connection) * batch_end) :=
  results <- connect_selected env cfg selected ;;
  match successful results with
  | [] => ret (results, Exit 1)
  | first :: _ =>
      let first_context := context_name (snd first) in
      ok <- set_current_context first_context ;;
      ret (results, Activated first_context ok (network_reminders (successful results)))
  end.


(** ** Inventory ([inventory.py]) *)

Module Inventory.

(** What the YAML loader hands back for an inventory file, as far as the
    documents are built from null, booleans, integers, strings, sequences
    and mappings with string keys. A mapping is the list of its items in
    the order of the file, as a Python dictionary keeps them. *)
#[local] Unset Elimination Schemes.
Inductive yaml :=
  | YNull
  | YBool (b : bool)
  | YInt (n : Z)
  | YStr (s : string)
  | YSeq (elements : list yaml)
  | YMap (items : list (string * yaml)).
#[local] Set Elimination Schemes.

(** The exceptions the extraction can run into. *)
Inductive failure :=
  | TypeError
  | AttributeError.

(** [d[key]] for a key of the dictionary, [None] for a key it lacks. *)
Fixpoint item (items : list (string * yaml)) (key : string) : option yaml :=
  match items with
  | [] => None
  | (k, v) :: rest => if String.eqb k key then Some v else item rest key
  end.

(** Truth value of a loaded value. *)
Definition truthy (v : yaml) : bool :=
  match v with
  | YNull => false
  | YBool b => b
  | YInt n => negb (n =? 0)
  | YStr s => nonempty s
  | YSeq elements => match elements with [] => false | _ => true end
  | YMap items => match items with [] => false | _ => true end
  end.

(** [key in v] for a string [key]: a key of a dictionary, an element of a
    list, a part of a string; the other values are not containers. *)
Definition contains_key (key : string) (v : yaml) : failure + bool :=
  match v with
  | YMap items => inr (bool_decide (is_Some (item items key)))
  | YSeq elements =>
      inr (existsb (fun x => match x with YStr s => String.eqb s key | _ => false end)
             elements)
  | YStr s => inr (bool_decide (is_Some (index 0 key s)))
  | _ => inl TypeError
  end.

(** An entry of the result: [{"group": ..., "config": ...}]. *)
Record host := {
  group : string;
  config : yaml
}.

(** The hosts one group contributes, in the order of its [hosts]
    mapping. *)
Definition group_hosts (group_name : string) (group_data : yaml) : list (string * host) :=
  match group_data with
  | YMap group_items =>
      match item group_items "hosts" with
      | Some (YMap hosts_data) =>
          map (fun entry =>
                 (fst entry,
                  {| group := group_name;
                     config := if truthy (snd entry) then snd entry else YMap [] |}))
            hosts_data
      | _ => []
      end
  | _ => []
  end.

(** The two nested loops: every assignment [hosts[host_name] = ...] in
    order. *)
Definition collect (children : list (string * yaml)) : gmap string host :=
  fold_left
    (fun hosts child =>
       fold_left (fun hosts entry => <[fst entry := snd entry]> hosts)
         (group_hosts (fst child) (snd child)) hosts)
    children ∅.

(** The result dictionary is kept as a finite map: its caller reads it
    through its sorted keys. *)
Definition extract_hosts_from_inventory (inv_data : yaml) : failure + gmap string host :=
  match inv_data with
  | YMap inv_items =>
      match item inv_items "all" with
      | None => inr ∅
      | Some all_data =>
          match contains_key "children" all_data with
          | inl e => inl e
          | inr false => inr ∅
          | inr true =>
              match all_data with
              | YMap all_items =>
                  match item all_items "children" with
                  | Some (YMap children) => inr (collect children)
                  | Some _ => inl AttributeError
                  | None => inr ∅
                  end
              | _ => inl TypeError
              end
          end
      end
  | _ => inr ∅
  end.

End Inventory.

(** * Vocabulary of the properties

    Readers of the store, predicates and sample worlds used to state the
    properties below. *)

(** ** Text *)

(** The characters of a text. *)
Fixpoint chars (s : string) : list ascii :=
  match s with
  | EmptyString => []
  | String c s' => c :: chars s'
  end.

(** A character that is a digit below [base]. *)
Definition digit_below (base : Z) (c : ascii) : Prop :=
  exists d, digit_value c = Some d /\ d < base.

(** The value of a digit character. *)
Definition digit_of (c : ascii) : Z := default 0 (digit_value c).

(** ** Port allocator *)

(** The hexadecimal digit of value [d] is read back as [d] and is neither
    blank, a sign nor the letter of a base prefix. *)
Definition plain_hex_digit (d : Z) : bool :=
  let c := Md5.hex_char d in
  negb (is_int_space c)
  && match digit_value c with Some v => v =? d | None => false end
  && negb (Ascii.eqb c "-"%char) && negb (Ascii.eqb c "+"%char)
  && negb (Ascii.eqb c "x"%char) && negb (Ascii.eqb c "X"%char).

(** ** Liveness *)

(** The record of a context, as a reader of the state store finds it. *)
Definition tunnel_record (context_name : string) (w : World) : option string :=
  pid_files (the_dir w) !! context_name.

(** The metadata file of a context. *)
Definition network_record (context_name : string) (w : World) : option network_file :=
  network_files (the_dir w) !! context_name.

(** The existence probe (signal 0) reports that no process has this id. *)
Definition no_such_process (pid : Z) (w : World) : Prop :=
  os_kill pid 0 w = (Raised ProcessLookupError, w).

(** The world once the record of a context is deleted. *)
Definition without_record (context_name : string) (w : World) : World :=
  with_pid_files (delete context_name (pid_files (the_dir w))) w.

(** A context whose recorded process 4242 is gone. *)
Definition stale_world : World :=
  {| state_dir := Some {| pid_files := {["acme-prod1" := "4242"]};
                          network_files := ∅ |};
     processes := ∅; script := []; invocations := [] |}.

(** A context whose record is no number. *)
Definition garbled_world : World :=
  {| state_dir := Some {| pid_files := {["acme-prod1" := "12a4"]};
                          network_files := ∅ |};
     processes := {[ 12 := true ]}; script := []; invocations := [] |}.

(** A context whose record holds a number beyond the C type of process
    identifiers. *)
Definition oversized_world : World :=
  {| state_dir := Some {| pid_files := {["acme-prod1" := "2147483648"]};
                          network_files := ∅ |};
     processes := ∅; script := []; invocations := [] |}.

(** ** Killing a tunnel *)

(** The record of a context, if it holds a number, holds one that fits the
    C type of process identifiers. *)
Definition record_fits (context_name : string) (w : World) : Prop :=
  forall text pid,
    tunnel_record context_name w = Some text ->
    py_int 10 (strip text) = Some pid ->
    INT_MIN <= pid <= INT_MAX.

(** A context whose tunnel process is gone and which requires a VPN. *)
Definition dead_vpn_world : World :=
  {| state_dir :=
       Some {| pid_files := {["acme-prod1" := "4242"]};
               network_files :=
                 {["acme-prod1" :=
                     Loads (Mapping (metadata_of None None None true (Some "10.0.5.20")))]} |};
     processes := ∅; script := []; invocations := [] |}.

(** ** Current context *)

(** The ways the current-context query can fail: the executable is
    missing, the command does not finish within the five seconds it is
    given (or never), or it exits with a status other than zero. *)
Inductive query_fails : list behaviour -> Prop :=
  | nothing_to_run : query_fails []
  | command_missing rest : query_fails (Missing :: rest)
  | command_hangs rest : query_fails (Hangs :: rest)
  | command_overruns seconds result leaves rest :
      5 < seconds -> query_fails (Exits seconds result leaves :: rest)
  | command_exits_nonzero seconds result leaves rest :
      returncode result <> 0 -> query_fails (Exits seconds result leaves :: rest).

(** The current-context query never answers. *)
Definition unreachable_cluster_world : World :=
  {| state_dir := None; processes := ∅; script := [Hangs]; invocations := [] |}.

(** ** Network validation *)

(** A probe of the process table that ends in time and reports no match. *)
Definition finds_nothing (b : behaviour) : bool :=
  match b with
  | Exits seconds result _ => (seconds <=? 2) && negb (found result)
  | _ => false
  end.

(** [part in text] *)
Definition contains (text part : string) : Prop :=
  exists before after, text = before +:+ part +:+ after.

(** The metadata [connect_cluster] stores for a host behind 192.168.90.0/24. *)
Definition sshuttle_metadata : gmap string pyvalue :=
  metadata_of (Some "sshuttle") (Some "192.168.90.0/24")
    (Some "sshuttle -v -r helio@100.64.5.10 192.168.90.0/24") false (Some "192.168.90.10").

(** [pgrep] exits with status 1 and prints nothing. *)
Definition pgrep_no_match : behaviour :=
  Exits 0 {| returncode := 1; stdout := ""; stderr := "" |} None.

(** A context that needs sshuttle for 192.168.90.0/24 while no sshuttle
    process runs. *)
Definition unrouted_world : World :=
  {| state_dir :=
       Some {| pid_files := {["acme-prod1" := "4242"]};
               network_files := {["acme-prod1" := Loads (Mapping sshuttle_metadata)]} |};
     processes := {[ 4242 := true ]};
     script := [pgrep_no_match; pgrep_no_match];
     invocations := [] |}.

(** ** Network metadata *)

(** What a metadata file holds when it records a requirement. *)
Definition records_requirement (f : network_file) : Prop :=
  exists m,
    f = Loads (Mapping m)
    /\ truthy (dict_get m "network_type") || truthy (dict_get m "needs_vpn") = true.

(** Every metadata file in the store records a requirement. *)
Definition metadata_invariant (w : World) : Prop :=
  forall context_name f,
    network_record context_name w = Some f -> records_requirement f.

(** What the store holds as metadata of a context, as
    [get_network_metadata] reads it. *)
Definition stored_metadata (context_name : string) (w : World) : document :=
  match network_record context_name w with
  | Some (Loads d) => d
  | _ => Plain PyNone
  end.

(** A context whose tunnel runs and which has no metadata file. *)
Definition direct_world : World :=
  {| state_dir := Some {| pid_files := {["acme-prod1" := "4242"]};
                          network_files := ∅ |};
     processes := {[ 4242 := true ]}; script := []; invocations := [] |}.

(** ** Writing a process id and reading it back *)

(** The decimal digit of value [d] is read back as [d] and is neither
    blank nor a sign. *)
Definition plain_digit (d : Z) : bool :=
  let c := digit_char d in
  negb (is_space c) && negb (is_int_space c)
  && match digit_value c with Some v => v =? d | None => false end
  && negb (Ascii.eqb c "-"%char) && negb (Ascii.eqb c "+"%char).

(** ** Connecting *)

(** What [create_tunnel] makes of the answer of the process-table search. *)
Definition discovered (r : completed) : outcome (option Z) :=
  if found r then
    match split (strip (stdout r)) with
    | first :: _ =>
        match py_int 10 first with
        | Some pid => Returned (Some pid)
        | None => Raised ValueError
        end
    | [] => Raised IndexError
    end
  else Returned None.

(** Two worlds that differ at most in the network metadata files. *)
Definition same_but_metadata (w w' : World) : Prop :=
  pid_files (the_dir w') = pid_files (the_dir w)
  /\ processes w' = processes w
  /\ script w' = script w
  /\ invocations w' = invocations w.

(** The context name [connect_cluster] derives for a cluster. *)
Definition context_of (c : cluster) : string := company c +:+ "-" +:+ host_alias c.

(** The record [save_tunnel_pid] leaves for a context that had none. *)
Definition recorded (pid : option Z) : option string :=
  match pid with
  | Some p => if p =? 0 then None else Some (py_str p)
  | None => None
  end.

(** The steps of [connect_cluster] before the tunnel is set up. *)
Definition preparation (env : Collaborators) (cfg : Config) (c : cluster)
    : outcome (Z * string) :=
  match load_ssh_config env (host_alias c) with
  | Returned _ =>
      match kubeconfig_of env (company c) (host_alias c) with
      | Returned answer =>
          match get_unique_port (context_of c) (PORT_RANGE_START cfg)
                  (PORT_RANGE_SIZE cfg) with
          | Returned port => Returned (port, fst answer)
          | Raised e => Raised e
          | Blocked => Blocked
          end
      | Raised e => Raised e
      | Blocked => Blocked
      end
  | Raised e => Raised e
  | Blocked => Blocked
  end.

(** Collaborators that answer: the host is known and its API server is at
    10.0.5.20. *)
Definition reachable : Collaborators :=
  {| load_ssh_config := fun _ => Returned tt;
     kubeconfig_of := fun _ _ => Returned ("10.0.5.20", false) |}.

(** Host [prod1] of company [acme], reachable directly. *)
Definition acme_prod1 : cluster :=
  {| company := "acme"; host_alias := "prod1"; network_type := None;
     network_range := None; needs_vpn := false |}.

(** [ssh -f] exits with status 0 and leaves the forwarding process. *)
Definition ssh_started (pid : Z) : behaviour :=
  Exits 1 {| returncode := 0; stdout := ""; stderr := "" |} (Some pid).

(** [pgrep] prints the process id. *)
Definition pgrep_finds (pid : Z) : behaviour :=
  Exits 0 {| returncode := 0; stdout := py_str pid +:+ newline; stderr := "" |} None.

(** A first connection in which the search sees the forwarding process. *)
Definition spawn_seen_world : World :=
  {| state_dir := None; processes := ∅;
     script := [ssh_started 4242; pgrep_finds 4242]; invocations := [] |}.


(** ** A crash during a write *)

(** Effects run one after the other. *)
Fixpoint run_steps (steps : list (M unit)) : M unit :=
  match steps with
  | [] => ret tt
  | step :: rest => step ;; run_steps rest
  end.

(** The effects of [save_tunnel_pid] on the store, in the order the code
    causes them: the directory is made, the file is opened for writing, the
    text is written. *)
Definition save_tunnel_pid_effects (context_name : string) (pid : option Z)
    : list (M unit) :=
  match pid with
  | Some p =>
      if p =? 0 then []
      else [ mkdir; open_pid_file_w context_name;
             write_pid_file context_name (py_str p) ]
  | None => []
  end.

(** The effects of [save_network_metadata], likewise. *)
Definition save_network_metadata_effects (context_name : string)
    (network_type network_range sshuttle_command : option string)
    (needs_vpn : bool) (internal_ip : option string) : list (M unit) :=
  if negb (str_truthy network_type) && negb needs_vpn then []
  else
    [ mkdir; open_network_file_w context_name;
      yaml_safe_dump context_name
        (metadata_of network_type network_range sshuttle_command needs_vpn internal_ip) ].

(** The world a crash leaves when only the first [k] effects took place. *)
Definition crash_after (k : nat) (effects : list (M unit)) (w : World) : World :=
  snd (run_steps (firstn k effects) w).

(** The forwarding process 4242 runs and nothing is stored yet. *)
Definition fresh_world : World :=
  {| state_dir := None; processes := {[ 4242 := true ]}; script := [];
     invocations := [] |}.

(** The reading of C7 as stated: a crash at any point of the write leaves
    the record as it was or the complete new record. *)
Definition atomic_record_write (context_name : string) (pid : option Z) (w : World) : Prop :=
  forall k,
    let wk := crash_after k (save_tunnel_pid_effects context_name pid) w in
    tunnel_record context_name wk = tunnel_record context_name w
    \/ tunnel_record context_name wk
       = tunnel_record context_name (snd (save_tunnel_pid context_name pid w)).

(** ** Further vocabulary *)

(** The record of a context names the process [pid], which answers the
    existence probe. *)
Definition live_as (context_name : string) (pid : Z) (w : World) : Prop :=
  exists text,
    tunnel_record context_name w = Some text
    /\ py_int 10 (strip text) = Some pid
    /\ INT_MIN <= pid <= INT_MAX
    /\ processes w !! pid = Some true.

Definition live (context_name : string) (w : World) : Prop :=
  exists pid, live_as context_name pid w.

(** ** Names and records the program itself produces

    The embedding of the library calls is exact on these, and the
    properties below that depend on it state them as hypotheses. *)

(** A printable ASCII character other than the path separator. *)
Definition plain_char (ch : ascii) : bool :=
  (32 <=? code ch) && (code ch <=? 126) && negb (code ch =? 47).

(** A name the state directory holds as the file [{name}.pid], lists again
    under that very stem and opens for writing: not empty, at most 200
    characters, each of them plain. *)
Definition plain_name (s : string) : bool :=
  nonempty s && (String.length s <=? 200)%nat && forallb plain_char (chars s).

(** A text that, where it is a number, is the identifier of one process
    (positive, within the C type) written with no more characters than
    [int] accepts digits. *)
Definition sane_text (text : string) : bool :=
  match py_int 10 (strip text) with
  | Some pid => (0 <? pid) && (pid <=? INT_MAX) && (String.length (strip text) <=? 4300)%nat
  | None => true
  end.

(** The record of a context, if there is one, is under a plain name and
    holds a sane text. *)
Definition sane_record (context_name : string) (w : World) : Prop :=
  forall text,
    tunnel_record context_name w = Some text ->
    plain_name context_name = true /\ sane_text text = true.

(** Every record of the store is sane. *)
Definition sane_store (w : World) : Prop := forall c, sane_record c w.

(** Every record of the store is under a plain name. *)
Definition plain_store (w : World) : Prop :=
  forall c, is_Some (tunnel_record c w) -> plain_name c = true.

(** A tunnel of another user: process 4242 runs but may not be signalled. *)
Definition foreign_world : World :=
  {| state_dir := Some {| pid_files := {["acme-prod1" := "4242"]};
                          network_files := ∅ |};
     processes := {[ 4242 := false ]}; script := []; invocations := [] |}.

(** Two recorded tunnels: the process of the first runs, that of the
    second is gone; the first context has metadata. *)
Definition two_tunnels_world : World :=
  {| state_dir :=
       Some {| pid_files := <["acme-prod1" := "4242"]> {["acme-prod2" := "4343"]};
               network_files := {["acme-prod1" := Loads (Mapping sshuttle_metadata)]} |};
     processes := {[ 4242 := true ]}; script := []; invocations := [] |}.

(** ** The batch *)

(** [ssh] cannot reach the host and exits with status 255. *)
Definition ssh_refused : behaviour :=
  Exits 1 {| returncode := 255; stdout := "";
             stderr := "ssh: connect to host lab port 22: Connection refused" |} None.

(** Host [lab] of company [acme], behind 192.168.90.0/24. *)
Definition acme_lab : cluster :=
  {| company := "acme"; host_alias := "lab"; network_type := Some "sshuttle";
     network_range := Some "192.168.90.0/24"; needs_vpn := false |}.

(** A first connection in which ssh fails. *)
Definition refused_world : World :=
  {| state_dir := None; processes := ∅; script := [ssh_refused]; invocations := [] |}.

(** No scripted command hangs. *)
Definition never_hangs (behaviours : list behaviour) : Prop :=
  Forall (fun b => b <> Hangs) behaviours.

(** The collaborators answer or raise for a cluster. *)
Definition answers (env : Collaborators) (c : cluster) : Prop :=
  load_ssh_config env (host_alias c) <> Blocked
  /\ kubeconfig_of env (company c) (host_alias c) <> Blocked.

(** [kubectl] exits with status 0. *)
Definition kubectl_ok : behaviour :=
  Exits 0 {| returncode := 0; stdout := "Switched to context."; stderr := "" |} None.

(** Two clusters are connected: ssh fails for the first and works for
    the second, then [kubectl] switches the context. *)
Definition batch_world : World :=
  {| state_dir := None; processes := ∅;
     script := [ssh_refused; ssh_started 4242; pgrep_finds 4242; kubectl_ok];
     invocations := [] |}.

(** A computation that, run where no scripted command hangs, comes to an
    end and leaves such a world. *)
Definition steady {A} (m : M A) : Prop :=
  forall w, never_hangs (script w) ->
    fst (m w) <> Blocked /\ never_hangs (script (snd (m w))).

(** One cluster is connected while [kubectl] is not installed. *)
Definition no_kubectl_world : World :=
  {| state_dir := None; processes := ∅;
     script := [ssh_started 4242; pgrep_finds 4242; Missing];
     invocations := [] |}.

(** ** Network validation, further *)

(** A probe of the process table that ends in time and reports a match. *)
Definition finds_some (b : behaviour) : bool :=
  match b with
  | Exits seconds result _ => (seconds <=? 2) && found result
  | _ => false
  end.

(** The context needs sshuttle for 192.168.90.0/24; no sshuttle process
    mentions that range, but process 777 is an sshuttle for some network. *)
Definition other_route_world : World :=
  {| state_dir :=
       Some {| pid_files := {["acme-prod1" := "4242"]};
               network_files := {["acme-prod1" := Loads (Mapping sshuttle_metadata)]} |};
     processes := {[ 4242 := true ]};
     script := [pgrep_no_match; pgrep_finds 777];
     invocations := [] |}.

(** Metadata files that hold no mapping: one that does not parse, an empty
    one, and one that holds a YAML list. *)
Definition malformed_world : World :=
  {| state_dir :=
       Some {| pid_files := ∅;
               network_files :=
                 {[ "acme-prod1" := Unloadable;
                    "acme-prod2" := Loads (Plain PyNone);
                    "acme-prod3" := Loads (Plain (PyOpaque "['sshuttle']" true)) ]} |};
     processes := ∅; script := []; invocations := [] |}.



(** ** The status listing *)

(** An entry of the listing tells the truth about its context in [w]:
    the tunnel is reported as running exactly when the context is live,
    the process id is the one of the live tunnel, and the port lies in
    the default range. *)
Definition entry_accurate (e : context_info) (w : World) : Prop :=
  (ctx_tunnel_running e = true <-> live (ctx_name e) w)
  /\ (forall pid, ctx_tunnel_pid e = Some pid <-> live_as (ctx_name e) pid w)
  /\ 16443 <= ctx_local_port e < 26443.

(** Three recorded tunnels, of which only the second runs. *)
Definition mixed_world : World :=
  {| state_dir :=
       Some {| pid_files :=
                 {[ "zeta-db" := "999"; "acme-prod1" := "4242"; "beta-lab" := "oops" ]};
               network_files := ∅ |};
     processes := {[ 4242 := true ]}; script := []; invocations := [] |}.

(** ** Names and ports *)

(** A text without a hyphen. *)
Definition no_hyphen (s : string) : Prop := "-"%char ∉ chars s.

(** Host [west-1] of company [acme] and host [1] of company [acme-west]. *)
Definition acme_west_1 : cluster :=
  {| company := "acme"; host_alias := "west-1"; network_type := None;
     network_range := None; needs_vpn := false |}.

Definition acme_west__1 : cluster :=
  {| company := "acme-west"; host_alias := "1"; network_type := None;
     network_range := None; needs_vpn := false |}.

(** ** Inventory *)

(** The assignments of the two loops of the extraction, in order. *)
Definition assignments (children : list (string * Inventory.yaml))
    : list (string * Inventory.host) :=
  concat (map (fun child => Inventory.group_hosts (fst child) (snd child)) children).

(** An inventory with two groups; the second lists no hosts. *)
Definition acme_inventory : Inventory.yaml :=
  Inventory.YMap
    [("all",
      Inventory.YMap
        [("vars", Inventory.YMap [("ansible_user", Inventory.YStr "helio")]);
         ("children",
          Inventory.YMap
            [("k3s",
              Inventory.YMap
                [("hosts",
                  Inventory.YMap
                    [("prod1", Inventory.YMap [("ansible_host", Inventory.YStr "10.0.5.20")]);
                     ("lab", Inventory.YNull)])]);
             ("spare", Inventory.YMap [("hosts", Inventory.YNull)])])])].

(** Inventories that end early: [all:] and [children:] with nothing
    under them. *)
Definition bare_all_inventory : Inventory.yaml :=
  Inventory.YMap [("all", Inventory.YNull)].

Definition bare_children_inventory : Inventory.yaml :=
  Inventory.YMap [("all", Inventory.YMap [("children", Inventory.YNull)])].

(** ** Records beyond the range of process identifiers *)

(** The record of a context holds a number, written with no more
    characters than [int] accepts digits, that does not fit the C type of
    process identifiers. *)
Definition oversized (context_name : string) (w : World) : Prop :=
  exists text pid,
    tunnel_record context_name w = Some text
    /\ (String.length (strip text) <= 4300)%nat
    /\ py_int 10 (strip text) = Some pid
    /\ ~ (INT_MIN <= pid <= INT_MAX).

(** A live context next to one whose record is oversized. *)
Definition oversized_neighbour_world : World :=
  {| state_dir :=
       Some {| pid_files := {[ "acme-lab" := "4242"; "acme-prod1" := "99999999999" ]};
               network_files := ∅ |};
     processes := {[ 4242 := true ]}; script := []; invocations := [] |}.


(** ** Connecting twice *)

(** What makes the first of two connections leave a record that names the
    running tunnel process [p]. The record of the context, if any, is
    sane, and either the context is live under its record of [p] already;
    or its tunnel is not running, ssh exits with status 0 and leaves the
    process [p], and the search for the process prints, in no more
    characters than [int] accepts digits, an identifier that reads as
    [p]. *)
Definition first_call_records (c : cluster) (p : Z) (w : World) : Prop :=
  sane_record (context_of c) w
  /\ (live_as (context_of c) p w
      \/ (fst (is_tunnel_running (context_of c) w) = Returned false
          /\ exists s1 r1 s2 r2 l2 rest,
               script w = Exits s1 r1 (Some p) :: Exits s2 r2 l2 :: rest
               /\ returncode r1 = 0
               /\ (String.length (stdout r2) <= 4300)%nat
               /\ discovered r2 = Returned (Some p))).

(** Two connections in a row in which no search sees the forwarding
    process: ssh starts 4242, then 4243. *)
Definition respawn_world : World :=
  {| state_dir := None; processes := ∅;
     script := [ssh_started 4242; pgrep_no_match; ssh_started 4243; pgrep_no_match];
     invocations := [] |}.

(** ** Probes that are cut short *)

(** The next command is missing, never ends, or runs for more than
    [limit] seconds. *)
Definition cut_short (limit : Z) (behaviours : list behaviour) : Prop :=
  match behaviours with
  | [] | Missing :: _ | Hangs :: _ => True
  | Exits seconds _ _ :: _ => limit < seconds
  end.

(** The probe for the range finds nothing and the probe for any sshuttle
    process never ends. *)
Definition stuck_probe_world : World :=
  {| state_dir := None; processes := ∅; script := [pgrep_no_match; Hangs];
     invocations := [] |}.

(** * Properties *)

Ltac run :=
  repeat (unfold bind, ret, raise, lift, try_except, try_finally, int_of,
            get_tunnel_pid_file, get_network_metadata_file, mkdir, sleep,
            pid_file_exists, read_pid_file, unlink_pid_file,
            network_file_exists, unlink_network_file; cbn).

(** ** The embedding runs: known digests, numerals, a listing *)

Example md5_empty : Md5.hexdigest (encode "") = "d41d8cd98f00b204e9800998ecf8427e"%string.
Proof. vm_compute. reflexivity. Qed.

Example md5_abc : Md5.hexdigest (encode "abc") = "900150983cd24fb0d6963f7d28e17f72"%string.
Proof. vm_compute. reflexivity. Qed.

Example md5_two_blocks :
  Md5.hexdigest (encode "aaaaaaaaaaaaaaaaaaaaaaaaaaaaaaaaaaaaaaaaaaaaaaaaaaaaaaaa")
  = "3b0c8ac703f828b04c6c197006d17218"%string.
Proof. vm_compute. reflexivity. Qed.

Example port_acme_prod1 :
  get_unique_port "acme-prod1" DEFAULT_RANGE_START DEFAULT_RANGE_SIZE = Returned 19107.
Proof. vm_compute. reflexivity. Qed.

Example port_latin1 :
  get_unique_port (String (ascii_of_nat 233) EmptyString) 16443 10000 = Returned 22776.
Proof. vm_compute. reflexivity. Qed.

Example int_examples :
  map (py_int 10) ["-0"; "+5"; "0_5"; "_5"; "5_"; "5__5"; "010"; "0x10"; "- 5"; " 5 "; ""; "+"]
  = [Some 0; Some 5; Some 5; None; None; None; Some 10; None; None; Some 5; None; None]
  /\ map (py_int 16) ["0x1f"; "0X_1f"; "0x"; "-0x1f"; "0b1"; "ff"; "0_x1f"]
  = [Some 31; Some 31; None; Some (-31); Some 177; Some 255; None].
Proof. vm_compute. split; reflexivity. Qed.

Example str_examples :
  map py_str [0; 7; 10; 4242; -5; 2147483648] = ["0"; "7"; "10"; "4242"; "-5"; "2147483648"]
  /\ split " a  b c " = ["a"; "b"; "c"] /\ strip "  12 3 " = "12 3".
Proof. vm_compute. repeat split; reflexivity. Qed.

Example validate_unrouted :
  fst (validate_context_network "acme-prod1" unrouted_world)
  = Returned (false,
      Some ("This cluster requires sshuttle for 192.168.90.0/24" +:+ newline +:+
            "  Run: sshuttle -v -r helio@100.64.5.10 192.168.90.0/24")).
Proof. vm_compute. reflexivity. Qed.

Example oversized_record :
  is_tunnel_running "acme-prod1" oversized_world = (Raised OverflowError, oversized_world)
  /\ fst (kill_tunnel "acme-prod1" oversized_world) = Raised OverflowError
  /\ tunnel_record "acme-prod1" (snd (kill_tunnel "acme-prod1" oversized_world)) = None.
Proof. vm_compute. repeat split; reflexivity. Qed.

Example listing_sorted :
  map ctx_name
    (match fst (list_all_contexts
                  {| state_dir :=
                       Some {| pid_files := {["b-h2" := "7"; "a-h1" := "x"; "c-h3" := "9"]};
                               network_files := ∅ |};
                     processes := {[ 7 := true ]}; script := []; invocations := [] |}) with
     | Returned l => l
     | _ => []
     end)
  = ["a-h1"; "b-h2"; "c-h3"].
Proof. vm_compute. reflexivity. Qed.

(** ** Text *)

Lemma ltrim_unchanged blank s :
  Forall (fun c => blank c = false) (chars s) -> ltrim blank s = s.
Proof.
  destruct s as [|c s]; simpl; [reflexivity|].
  intros H. inversion H as [|? ? Hc _]; subst. now rewrite Hc.
Qed.

Lemma rtrim_unchanged blank s :
  Forall (fun c => blank c = false) (chars s) -> rtrim blank s = s.
Proof.
  induction s as [|c s IH]; simpl; [reflexivity|].
  intros H. inversion H as [|? ? Hc Hs]; subst.
  rewrite (IH Hs), Hc. now destruct s.
Qed.

Lemma strip_unchanged s :
  Forall (fun c => is_space c = false) (chars s) -> strip s = s.
Proof.
  intros H. unfold strip. rewrite (ltrim_unchanged _ _ H). now apply rtrim_unchanged.
Qed.

Lemma digit_not_underscore c d : digit_value c = Some d -> Ascii.eqb c underscore = false.
Proof.
  intros H. destruct (Ascii.eqb c underscore) eqn:E; [|reflexivity].
  apply Ascii.eqb_eq in E. subst c. vm_compute in H. discriminate.
Qed.

Lemma numeral_digits base s :
  Forall (digit_below base) (chars s) ->
  forall acc after, s <> EmptyString \/ after = true ->
  numeral base acc after s
  = Some (fold_left (fun a c => a * base + digit_of c) (chars s) acc).
Proof.
  induction s as [|c s IH]; intros Hall acc after Hne; simpl.
  - destruct Hne as [Hne | ->]; [now destruct Hne | reflexivity].
  - inversion Hall as [|? ? [d [Hd Hlt]] Hs]; subst.
    rewrite (digit_not_underscore _ _ Hd), Hd.
    apply Z.ltb_lt in Hlt. rewrite Hlt.
    rewrite (IH Hs) by now right.
    replace (digit_of c) with d; [reflexivity|].
    unfold digit_of. now rewrite Hd.
Qed.

(** Checking a property of the numbers below a small bound by enumeration. *)
Lemma below_by_cases (n : nat) (P : Z -> bool) :
  forallb P (map Z.of_nat (seq 0 n)) = true ->
  forall d, 0 <= d < Z.of_nat n -> P d = true.
Proof.
  intros H d Hd. rewrite forallb_forall in H. apply H.
  apply in_map_iff. exists (Z.to_nat d). split; [lia|].
  apply in_seq. lia.
Qed.

(** ** Port allocator *)

Lemma hex_char_plain d : 0 <= d < 16 -> plain_hex_digit d = true.
Proof. apply (below_by_cases 16). vm_compute. reflexivity. Qed.

Lemma hex_char_digit d : 0 <= d < 16 -> digit_below 16 (Md5.hex_char d).
Proof.
  intros Hd. pose proof (hex_char_plain d Hd) as H. unfold plain_hex_digit in H.
  do 4 (apply andb_prop in H; destruct H as [H _]).
  apply andb_prop in H. destruct H as [_ H].
  destruct (digit_value (Md5.hex_char d)) as [v|] eqn:E; [|discriminate].
  exists v. split; [exact E|]. apply Z.eqb_eq in H. lia.
Qed.

Lemma py_int_hex4 a b c d :
  0 <= a < 16 -> 0 <= b < 16 -> 0 <= c < 16 -> 0 <= d < 16 ->
  exists n,
    py_int 16 (String (Md5.hex_char a) (String (Md5.hex_char b)
                (String (Md5.hex_char c) (String (Md5.hex_char d) EmptyString))))
    = Some n.
Proof.
  intros Ha Hb Hc Hd.
  pose proof (hex_char_plain a Ha) as Pa. pose proof (hex_char_plain b Hb) as Pb.
  pose proof (hex_char_plain c Hc) as Pc. pose proof (hex_char_plain d Hd) as Pd.
  unfold plain_hex_digit in Pa, Pb, Pc, Pd.
  repeat match goal with
         | H : _ && _ = true |- _ => apply andb_prop in H; destruct H
         | H : negb _ = true |- _ => apply negb_true_iff in H
         end.
  set (s := String (Md5.hex_char a) _).
  assert (Hblank : Forall (fun ch => is_int_space ch = false) (chars s))
    by (subst s; simpl; repeat constructor; assumption).
  unfold py_int.
  rewrite (ltrim_unchanged _ _ Hblank), (rtrim_unchanged _ _ Hblank).
  subst s. cbv beta iota.
  repeat match goal with
         | H : Ascii.eqb _ _ = false |- _ => rewrite H
         end.
  assert (Hpre : forall rest, unprefixed 16 (String (Md5.hex_char a)
                   (String (Md5.hex_char b) rest))
                 = String (Md5.hex_char a) (String (Md5.hex_char b) rest)).
  { intros rest. unfold unprefixed.
    repeat match goal with
           | H : Ascii.eqb _ _ = false |- _ => rewrite H
           end.
    now rewrite andb_false_r. }
  rewrite Hpre.
  rewrite numeral_digits.
  - eexists. reflexivity.
  - simpl. repeat constructor; now apply hex_char_digit.
  - now left.
Qed.

Lemma hexdigest_head msg :
  exists a b c d rest,
    0 <= a < 16 /\ 0 <= b < 16 /\ 0 <= c < 16 /\ 0 <= d < 16 /\
    Md5.hexdigest msg
    = String (Md5.hex_char a) (String (Md5.hex_char b)
        (String (Md5.hex_char c) (String (Md5.hex_char d) rest))).
Proof.
  unfold Md5.hexdigest, Md5.digest.
  set (st := fold_left Md5.compress _ _).
  set (x := Md5.sa st). simpl.
  exists (x mod 256 / 16), (x mod 256 mod 16),
         (x / 256 mod 256 / 16), (x / 256 mod 256 mod 16).
  eexists. repeat split; try reflexivity;
    try (apply Z.mod_pos_bound; lia);
    try (apply Z.div_pos; [apply Z.mod_pos_bound|]; lia);
    apply Z.div_lt_upper_bound; try lia; apply Z.mod_pos_bound; lia.
Qed.

(** The hash part of the port is a number whatever the context name. *)
Lemma hash_int_defined context_name :
  exists hash_int,
    py_int 16 (substring 0 4 (Md5.hexdigest (encode context_name))) = Some hash_int.
Proof.
  destruct (hexdigest_head (encode context_name))
    as (a & b & c & d & rest & Ha & Hb & Hc & Hd & ->).
  simpl. replace (substring 0 0 rest) with EmptyString by now destruct rest.
  now apply py_int_hex4.
Qed.

Lemma default_port context_name :
  exists port,
    get_unique_port context_name DEFAULT_RANGE_START DEFAULT_RANGE_SIZE = Returned port
    /\ 16443 <= port < 26443.
Proof.
  destruct (hash_int_defined context_name) as [hash_int Hh].
  exists (16443 + hash_int mod 10000). split.
  - unfold get_unique_port. rewrite Hh. reflexivity.
  - pose proof (Z.mod_pos_bound hash_int 10000 ltac:(lia)). lia.
Qed.

(** C1. The port allocator is a function of the context name alone: with
    the default range it returns, without raising, a port in
    [16443, 26443), and the status reporter re-derives that same port in
    any world, changing nothing. *)
Theorem get_unique_port_deterministic_in_range (context_name : string) :
  exists port,
    get_unique_port context_name 16443 10000 = Returned port
    /\ 16443 <= port < 26443
    /\ forall w, get_tunnel_port context_name w = (Returned port, w).
Proof.
  destruct (default_port context_name) as (port & Hp & Hrange).
  exists port. split; [exact Hp|]. split; [exact Hrange|].
  intros w. unfold get_tunnel_port, lift. now rewrite Hp.
Qed.

(** ** Liveness *)

Lemma record_in_dir context_name text w :
  tunnel_record context_name w = Some text -> with_dir (Some (the_dir w)) w = w.
Proof.
  unfold tunnel_record, the_dir. destruct w as [[d|] p s i]; simpl.
  - reflexivity.
  - rewrite lookup_empty. discriminate.
Qed.

Lemma without_record_lookup context_name w :
  tunnel_record context_name (without_record context_name w) = None.
Proof. unfold tunnel_record, without_record. simpl. apply lookup_delete_eq. Qed.

(** What [is_tunnel_running] does with a record, by what reading the
    identifier and probing it gives. *)
Lemma is_tunnel_running_record context_name text w :
  tunnel_record context_name w = Some text ->
  is_tunnel_running context_name w =
    match py_int 10 (strip text) with
    | None => (Returned false, without_record context_name w)
    | Some pid =>
        match os_kill pid 0 w with
        | (Returned _, w') => (Returned true, w')
        | (Raised e, w') =>
            if pid_errors e then (Returned false, without_record context_name w')
            else (Raised e, w')
        | (Blocked, w') => (Blocked, w')
        end
    end.
Proof.
  intros Hrec. pose proof (record_in_dir _ _ _ Hrec) as Hdir.
  unfold tunnel_record in Hrec.
  unfold is_tunnel_running. run. rewrite Hdir, Hrec. cbn. rewrite Hrec.
  destruct (py_int 10 (strip text)) as [pid|]; run.
  - destruct (os_kill pid 0 w) as [[[]|e|] w'] eqn:Hk; cbn; try reflexivity.
    destruct (pid_errors e) eqn:He; [|reflexivity].
    assert (w' = w) as ->.
    { unfold os_kill in Hk.
      repeat (match type of Hk with
              | context [if ?b then _ else _] => destruct b
              | context [match ?o with _ => _ end] => destruct o
              end; try congruence). }
    destruct (state_dir w) eqn:Hs; [reflexivity|].
    unfold the_dir in Hrec. rewrite Hs in Hrec. simpl in Hrec.
    rewrite lookup_empty in Hrec. discriminate.
  - destruct (state_dir w) eqn:Hs; [reflexivity|].
    unfold the_dir in Hrec. rewrite Hs in Hrec. simpl in Hrec.
    rewrite lookup_empty in Hrec. discriminate.
Qed.

Lemma is_tunnel_running_absent context_name w :
  tunnel_record context_name w = None ->
  is_tunnel_running context_name w = (Returned false, with_dir (Some (the_dir w)) w).
Proof.
  intros Hrec. unfold tunnel_record in Hrec.
  unfold is_tunnel_running. run. now rewrite Hrec.
Qed.

Lemma without_record_settled context_name w :
  is_tunnel_running context_name (without_record context_name w)
  = (Returned false, without_record context_name w).
Proof.
  rewrite is_tunnel_running_absent by apply without_record_lookup. reflexivity.
Qed.

(** Self-healing liveness, where the system can be asked about the
    recorded number: when the record of a context exists and the probe of
    the recorded process id answers that there is no such process,
    [is_tunnel_running] returns false and deletes the record, so that a
    later read finds it absent; a second call returns false again and
    leaves the state as the first call left it. *)
Theorem is_tunnel_running_self_heals (context_name text : string) (pid : Z) (w : World) :
  tunnel_record context_name w = Some text ->
  py_int 10 (strip text) = Some pid ->
  no_such_process pid w ->
  let w' := without_record context_name w in
  is_tunnel_running context_name w = (Returned false, w')
  /\ tunnel_record context_name w' = None
  /\ is_tunnel_running context_name w' = (Returned false, w')
  /\ (is_tunnel_running context_name ;; is_tunnel_running context_name) w
     = (Returned false, w').
Proof.
  intros Hrec Hint Hdead w'.
  assert (H1 : is_tunnel_running context_name w = (Returned false, w')).
  { rewrite (is_tunnel_running_record _ _ _ Hrec), Hint, Hdead. reflexivity. }
  pose proof (without_record_settled context_name w) as H2. fold w' in H2.
  repeat split; try assumption.
  - apply without_record_lookup.
  - unfold bind. now rewrite H1.
Qed.

Lemma is_tunnel_running_self_heals_witness :
  let w' := without_record "acme-prod1" stale_world in
  is_tunnel_running "acme-prod1" stale_world = (Returned false, w')
  /\ tunnel_record "acme-prod1" w' = None
  /\ is_tunnel_running "acme-prod1" w' = (Returned false, w')
  /\ (is_tunnel_running "acme-prod1" ;; is_tunnel_running "acme-prod1") stale_world
     = (Returned false, w').
Proof.
  apply (is_tunnel_running_self_heals "acme-prod1" "4242" 4242 stale_world);
    vm_compute; reflexivity.
Defined.

(** C4 at the input where the code misses it. The record of the context
    holds 2147483648 and no process at all runs, so the recorded number
    refers to no live process. [os.kill] refuses the number with
    [OverflowError], which the [except] clause of [is_tunnel_running] does
    not list beside [ValueError], [ProcessLookupError] and [OSError]: the
    call raises instead of returning false, the record stays, and a
    second call ends the same way. *)
Theorem is_tunnel_running_oversized_record_not_healed :
  tunnel_record "acme-prod1" oversized_world = Some "2147483648"%string
  /\ py_int 10 (strip "2147483648") = Some 2147483648
  /\ processes oversized_world = ∅
  /\ is_tunnel_running "acme-prod1" oversized_world
     = (Raised OverflowError, oversized_world)
  /\ tunnel_record "acme-prod1" (snd (is_tunnel_running "acme-prod1" oversized_world))
     = Some "2147483648"%string
  /\ (is_tunnel_running "acme-prod1" ;; is_tunnel_running "acme-prod1") oversized_world
     = (Raised OverflowError, oversized_world).
Proof. vm_compute. repeat split; reflexivity. Qed.

Lemma get_tunnel_pid_record context_name text w :
  tunnel_record context_name w = Some text ->
  get_tunnel_pid context_name w =
    match py_int 10 (strip text) with
    | None => (Returned None, w)
    | Some pid =>
        match os_kill pid 0 w with
        | (Returned _, w') => (Returned (Some pid), w')
        | (Raised e, w') => if pid_errors e then (Returned None, w') else (Raised e, w')
        | (Blocked, w') => (Blocked, w')
        end
    end.
Proof.
  intros Hrec. pose proof (record_in_dir _ _ _ Hrec) as Hdir.
  unfold tunnel_record in Hrec.
  unfold get_tunnel_pid. run. rewrite Hdir, Hrec. cbn. rewrite Hrec.
  destruct (py_int 10 (strip text)) as [pid|]; run; [|reflexivity].
  destruct (os_kill pid 0 w) as [[[]|e|] w']; reflexivity.
Qed.

(** C10. A record whose text is no decimal integer is treated like a dead
    process: [is_tunnel_running] returns false and deletes the file,
    [get_tunnel_pid] returns [None]; neither raises. *)
Theorem unparseable_record_treated_as_dead (context_name text : string) (w : World) :
  tunnel_record context_name w = Some text ->
  py_int 10 (strip text) = None ->
  is_tunnel_running context_name w = (Returned false, without_record context_name w)
  /\ tunnel_record context_name (without_record context_name w) = None
  /\ get_tunnel_pid context_name w = (Returned None, w).
Proof.
  intros Hrec Hint. repeat split.
  - now rewrite (is_tunnel_running_record _ _ _ Hrec), Hint.
  - apply without_record_lookup.
  - now rewrite (get_tunnel_pid_record _ _ _ Hrec), Hint.
Qed.

Lemma unparseable_record_treated_as_dead_witness :
  is_tunnel_running "acme-prod1" garbled_world
  = (Returned false, without_record "acme-prod1" garbled_world)
  /\ tunnel_record "acme-prod1" (without_record "acme-prod1" garbled_world) = None
  /\ get_tunnel_pid "acme-prod1" garbled_world = (Returned None, garbled_world).
Proof.
  apply (unparseable_record_treated_as_dead "acme-prod1" "12a4" garbled_world);
    vm_compute; reflexivity.
Defined.

(** ** Killing a tunnel *)

Lemma os_kill_dir pid sig w :
  state_dir (snd (os_kill pid sig w)) = state_dir w
  /\ fst (os_kill pid sig w) <> Blocked.
Proof.
  unfold os_kill.
  destruct (negb _); [now split|].
  destruct (processes w !! pid) as [[]|]; try now split.
  destruct (sig =? 0); now split.
Qed.

Lemma unlink_in_dir context_name text w w' :
  tunnel_record context_name w = Some text ->
  state_dir w' = state_dir w ->
  unlink_pid_file context_name w' = (Returned tt, without_record context_name w').
Proof.
  intros Hrec Hdir. unfold unlink_pid_file. rewrite Hdir.
  destruct (state_dir w) eqn:Hs; [reflexivity|].
  unfold tunnel_record, the_dir in Hrec. rewrite Hs in Hrec. simpl in Hrec.
  rewrite lookup_empty in Hrec. discriminate.
Qed.

(** What [kill_tunnel] does with a record. *)
Lemma kill_tunnel_record context_name text w :
  tunnel_record context_name w = Some text ->
  kill_tunnel context_name w =
    match py_int 10 (strip text) with
    | None => (Returned tt, without_record context_name w)
    | Some pid =>
        let r := os_kill pid 15 w in
        match fst r with
        | Raised e =>
            if pid_errors e then (Returned tt, without_record context_name (snd r))
            else (Raised e, without_record context_name (snd r))
        | _ => (Returned tt, without_record context_name (snd r))
        end
    end.
Proof.
  intros Hrec. pose proof (record_in_dir _ _ _ Hrec) as Hdir.
  unfold kill_tunnel. run. rewrite Hdir.
  unfold tunnel_record in Hrec. rewrite Hrec. cbn. rewrite Hrec.
  destruct (py_int 10 (strip text)) as [pid|]; run.
  - destruct (os_kill_dir pid 15 w) as [Hd Hb].
    destruct (os_kill pid 15 w) as [r w'] eqn:Hk. simpl in *.
    pose proof (unlink_in_dir context_name text w w' Hrec Hd) as Hu.
    unfold unlink_pid_file in Hu.
    destruct r as [[]|e|]; [| |congruence].
    + now rewrite Hu.
    + destruct (pid_errors e); cbn; now rewrite Hu.
  - pose proof (unlink_in_dir context_name text w w Hrec eq_refl) as Hu.
    unfold unlink_pid_file in Hu. now rewrite Hu.
Qed.

Lemma kill_tunnel_absent context_name w :
  tunnel_record context_name w = None ->
  kill_tunnel context_name w = (Returned tt, with_dir (Some (the_dir w)) w).
Proof.
  intros Hrec. unfold tunnel_record in Hrec.
  unfold kill_tunnel. run. now rewrite Hrec.
Qed.

Lemma os_kill_files pid sig w :
  the_dir (snd (os_kill pid sig w)) = the_dir w.
Proof.
  unfold the_dir. now rewrite (proj1 (os_kill_dir pid sig w)).
Qed.

Lemma os_kill_fits pid sig w :
  INT_MIN <= pid <= INT_MAX ->
  match fst (os_kill pid sig w) with
  | Returned _ => True
  | Raised e => pid_errors e = true
  | Blocked => False
  end.
Proof.
  intros [Hlo Hhi]. unfold os_kill.
  apply Z.leb_le in Hlo, Hhi. rewrite Hlo, Hhi. simpl.
  destruct (processes w !! pid) as [[]|]; simpl; try reflexivity.
  now destruct (sig =? 0).
Qed.

(** Whatever happens, the record is gone and the metadata is as before. *)
Lemma kill_tunnel_files context_name w :
  tunnel_record context_name (snd (kill_tunnel context_name w)) = None
  /\ network_files (the_dir (snd (kill_tunnel context_name w))) = network_files (the_dir w).
Proof.
  destruct (tunnel_record context_name w) as [text|] eqn:Hrec.
  - rewrite (kill_tunnel_record _ _ _ Hrec).
    destruct (py_int 10 (strip text)) as [pid|].
    + cbv zeta. pose proof (os_kill_files pid 15 w) as Hf.
      destruct (fst (os_kill pid 15 w)) as [[]|e|]; [| destruct (pid_errors e) |];
        (split; [apply without_record_lookup | simpl; now rewrite Hf]).
    + split; [apply without_record_lookup | reflexivity].
  - rewrite (kill_tunnel_absent _ _ Hrec). split; [exact Hrec | reflexivity].
Qed.

Lemma kill_tunnel_returns context_name w :
  record_fits context_name w -> fst (kill_tunnel context_name w) = Returned tt.
Proof.
  intros Hfit. destruct (tunnel_record context_name w) as [text|] eqn:Hrec.
  - rewrite (kill_tunnel_record _ _ _ Hrec).
    destruct (py_int 10 (strip text)) as [pid|] eqn:Hint; [|reflexivity].
    cbv zeta. pose proof (os_kill_fits pid 15 w (Hfit _ _ Hrec Hint)) as Hk.
    destruct (fst (os_kill pid 15 w)) as [[]|e|]; [reflexivity| |contradiction].
    now rewrite Hk.
  - now rewrite (kill_tunnel_absent _ _ Hrec).
Qed.





(** ** Killing every tunnel *)

Lemma for_each_kill_keeps_metadata names :
  forall w,
    network_files (the_dir (snd (for_each kill_tunnel names w)))
    = network_files (the_dir w).
Proof.
  induction names as [|name names IH]; intros w; [reflexivity|].
  simpl. unfold bind at 1.
  destruct (kill_tunnel_files name w) as [_ Hnet].
  destruct (kill_tunnel name w) as [[[]|e|] w1]; simpl in Hnet; try exact Hnet.
  unfold bind. specialize (IH w1).
  destruct (for_each kill_tunnel names w1) as [[l|e|] w2]; simpl in *; congruence.
Qed.

(** [kill_all_tunnels] leaves every metadata file in place as well. *)
Lemma kill_all_tunnels_keeps_metadata w :
  network_files (the_dir (snd (kill_all_tunnels w))) = network_files (the_dir w).
Proof.
  unfold kill_all_tunnels. destruct (state_dir w) as [d|]; [|reflexivity].
  unfold bind. pose proof (for_each_kill_keeps_metadata (glob_pid d) w) as H.
  destruct (for_each kill_tunnel (glob_pid d) w) as [[l|e|] w1]; exact H.
Qed.

(** ** Current context *)

(** C9. [get_current_context] always returns: it neither raises nor blocks,
    and the one command it runs is given a timeout of five seconds; when
    the command fails, is missing or exceeds the timeout the result is
    [None]. *)
Theorem get_current_context_bounded (w : World) :
  (exists r, fst (get_current_context w) = Returned r)
  /\ invocations (snd (get_current_context w))
     = (["kubectl"; "config"; "current-context"], Some 5) :: invocations w
  /\ (query_fails (script w) -> fst (get_current_context w) = Returned None).
Proof.
  unfold get_current_context, try_except, bind, subprocess_run, ret.
  destruct (script w) as [|[seconds result leaves| |] rest] eqn:Hs; cbn.
  - repeat split; [eexists; reflexivity|..]; reflexivity.
  - destruct (5 <? seconds) eqn:Ht; cbn.
    + repeat split; [eexists; reflexivity|..]; reflexivity.
    + destruct (returncode result =? 0) eqn:Hr; cbn;
        (split; [eexists; reflexivity|]; split; [reflexivity|]);
        [|reflexivity].
      intros Hf. inversion Hf; subst.
      * apply Z.ltb_ge in Ht. lia.
      * apply Z.eqb_eq in Hr. contradiction.
  - repeat split; [eexists; reflexivity|..]; reflexivity.
  - repeat split; [eexists; reflexivity|..]; reflexivity.
Qed.

Lemma get_current_context_bounded_witness :
  fst (get_current_context unreachable_cluster_world) = Returned None.
Proof.
  apply (get_current_context_bounded unreachable_cluster_world).
  apply command_hangs.
Defined.

(** ** Network validation *)

Lemma get_network_metadata_spec context_name w :
  get_network_metadata context_name w =
    (Returned match network_record context_name w with
              | Some (Loads d) => d
              | _ => Plain PyNone
              end, w).
Proof.
  unfold get_network_metadata, network_record, yaml_safe_load. run.
  destruct (network_files (the_dir w) !! context_name) as [[d|]|] eqn:E;
    cbn; rewrite ?E; reflexivity.
Qed.

Lemma check_sshuttle_active_none network_range w b1 b2 rest :
  script w = b1 :: b2 :: rest ->
  finds_nothing b1 = true -> finds_nothing b2 = true ->
  exists w', check_sshuttle_active network_range w = (Returned false, w').
Proof.
  intros Hs H1 H2.
  destruct b1 as [s1 r1 l1| |]; try discriminate.
  destruct b2 as [s2 r2 l2| |]; try discriminate.
  simpl in H1, H2. apply andb_prop in H1, H2.
  destruct H1 as [T1 F1], H2 as [T2 F2].
  apply negb_true_iff in F1, F2. apply Z.leb_le in T1, T2.
  unfold check_sshuttle_active, try_except, bind, subprocess_run, ret.
  rewrite Hs. cbn.
  destruct (2 <? s1) eqn:E1; [apply Z.ltb_lt in E1; lia|].
  rewrite F1. cbn.
  destruct (2 <? s2) eqn:E2; [apply Z.ltb_lt in E2; lia|].
  rewrite F2. eexists. reflexivity.
Qed.

Lemma truthy_get_nonempty (m : gmap string pyvalue) key :
  truthy (dict_get m key) = true -> doc_truthy (Mapping m) = true.
Proof.
  intros H. simpl. apply negb_true_iff, bool_decide_eq_false.
  intros ->. unfold dict_get in H. rewrite lookup_empty in H. discriminate.
Qed.

Lemma lookup_nonempty (m : gmap string pyvalue) key v :
  m !! key = Some v -> doc_truthy (Mapping m) = true.
Proof.
  intros H. simpl. apply negb_true_iff, bool_decide_eq_false.
  intros ->. rewrite lookup_empty in H. discriminate.
Qed.

Lemma validate_without_metadata context_name w :
  network_record context_name w = None ->
  validate_context_network context_name w = (Returned (true, None), w).
Proof.
  intros H. unfold validate_context_network, bind.
  rewrite get_network_metadata_spec, H. reflexivity.
Qed.

(** C6. [validate_context_network] reports (valid, no warning) when the
    context has no network metadata; reports not-satisfied whenever the
    metadata has [needs_vpn] true; and otherwise, for metadata of type
    [sshuttle] with a network range, when neither the probe for that range
    nor the probe for any sshuttle process finds a process, reports
    not-satisfied with a warning that contains the range. *)
Theorem validate_context_network_cases (context_name : string) (w : World) :
  (network_record context_name w = None ->
   validate_context_network context_name w = (Returned (true, None), w))
  /\ (forall m,
        network_record context_name w = Some (Loads (Mapping m)) ->
        truthy (dict_get m "needs_vpn") = true ->
        exists warning,
          validate_context_network context_name w = (Returned (false, Some warning), w))
  /\ (forall m range b1 b2 rest,
        network_record context_name w = Some (Loads (Mapping m)) ->
        truthy (dict_get m "needs_vpn") = false ->
        m !! "network_type" = Some (PyStr "sshuttle") ->
        m !! "network_range" = Some (PyStr range) ->
        script w = b1 :: b2 :: rest ->
        finds_nothing b1 = true -> finds_nothing b2 = true ->
        exists warning,
          fst (validate_context_network context_name w) = Returned (false, Some warning)
          /\ contains warning range).
Proof.
  split; [apply validate_without_metadata|].
  unfold validate_context_network, bind.
  rewrite get_network_metadata_spec. split.
  - intros m -> Hvpn. rewrite (truthy_get_nonempty _ _ Hvpn). cbn.
    rewrite Hvpn. eexists. reflexivity.
  - intros m range b1 b2 rest -> Hvpn Htype Hrange Hs H1 H2.
    rewrite (lookup_nonempty _ _ _ Htype). cbn. rewrite Hvpn.
    unfold dict_get at 1. rewrite Htype. cbn.
    destruct (check_sshuttle_active_none (dict_get m "network_range") w b1 b2 rest Hs H1 H2)
      as [w' ->].
    cbn. eexists. split; [reflexivity|].
    unfold dict_get. rewrite Hrange. cbn [format default].
    exists "This cluster requires sshuttle for ". eexists. reflexivity.
Qed.

Lemma validate_context_network_cases_witness :
  validate_context_network "a-h1" stale_world = (Returned (true, None), stale_world)
  /\ (exists warning,
        validate_context_network "acme-prod1" dead_vpn_world
        = (Returned (false, Some warning), dead_vpn_world))
  /\ (exists warning,
        fst (validate_context_network "acme-prod1" unrouted_world)
        = Returned (false, Some warning)
        /\ contains warning "192.168.90.0/24").
Proof.
  split; [|split].
  - apply (validate_context_network_cases "a-h1" stale_world). vm_compute. reflexivity.
  - apply (validate_context_network_cases "acme-prod1" dead_vpn_world)
      with (m := metadata_of None None None true (Some "10.0.5.20"));
      vm_compute; reflexivity.
  - apply (validate_context_network_cases "acme-prod1" unrouted_world)
      with (m := sshuttle_metadata) (b1 := pgrep_no_match) (b2 := pgrep_no_match)
           (rest := []);
      vm_compute; reflexivity.
Defined.

(** ** Network metadata *)

Lemma metadata_of_network_type nt r c v ip :
  truthy (dict_get (metadata_of nt r c v ip) "network_type") = str_truthy nt.
Proof. destruct nt, r, c, ip; reflexivity. Qed.

Lemma metadata_of_needs_vpn nt r c v ip :
  truthy (dict_get (metadata_of nt r c v ip) "needs_vpn") = v.
Proof. destruct nt, r, c, ip; reflexivity. Qed.

Lemma save_network_metadata_noop context_name nt r c ip w :
  str_truthy nt = false ->
  save_network_metadata context_name nt r c false ip w = (Returned tt, w).
Proof. intros H. unfold save_network_metadata. now rewrite H. Qed.

Lemma save_network_metadata_writes context_name nt r c v ip w :
  str_truthy nt || v = true ->
  exists w',
    save_network_metadata context_name nt r c v ip w = (Returned tt, w')
    /\ network_files (the_dir w')
       = <[context_name := Loads (Mapping (metadata_of nt r c v ip))]>
           (network_files (the_dir w))
    /\ pid_files (the_dir w') = pid_files (the_dir w).
Proof.
  intros H. unfold save_network_metadata.
  replace (negb (str_truthy nt) && negb v) with false
    by (destruct (str_truthy nt), v; simpl in *; congruence).
  unfold open_network_file_w, yaml_safe_dump. run.
  eexists. split; [reflexivity|]. split; [|reflexivity].
  cbn. apply insert_insert_eq.
Qed.

Lemma save_network_metadata_keeps_invariant context_name nt r c v ip w :
  metadata_invariant w ->
  metadata_invariant (snd (save_network_metadata context_name nt r c v ip w)).
Proof.
  intros Hinv. destruct (str_truthy nt || v) eqn:Hreq.
  - destruct (save_network_metadata_writes context_name nt r c v ip w Hreq)
      as (w' & -> & Hnet & _).
    intros ctx f. unfold network_record. simpl. rewrite Hnet.
    destruct (decide (context_name = ctx)) as [->|Hne].
    + rewrite lookup_insert_eq. intros [= <-]. eexists. split; [reflexivity|].
      now rewrite metadata_of_network_type, metadata_of_needs_vpn.
    + rewrite lookup_insert_ne by assumption. apply Hinv.
  - apply orb_false_iff in Hreq. destruct Hreq as [Hnt ->].
    now rewrite save_network_metadata_noop.
Qed.

Lemma os_probe_world pid w : snd (os_kill pid 0 w) = w.
Proof.
  unfold os_kill. destruct (negb _); [reflexivity|].
  now destruct (processes w !! pid) as [[]|].
Qed.

(** One turn of the loop of the status listing: it returns, reads the
    metadata as stored, and at most deletes the record of its context. *)
Lemma describe_context_spec context_name w :
  record_fits context_name w ->
  exists info w',
    describe_context context_name w = (Returned info, w')
    /\ ctx_name info = context_name
    /\ ctx_network_metadata info = stored_metadata context_name w
    /\ network_files (the_dir w') = network_files (the_dir w)
    /\ (forall c text, tunnel_record c w' = Some text -> tunnel_record c w = Some text).
Proof.
  intros Hfit. unfold describe_context, bind at 1.
  destruct (default_port context_name) as (port & Hport & _).
  assert (Hstep : exists running w1,
             is_tunnel_running context_name w = (Returned running, w1)
             /\ network_files (the_dir w1) = network_files (the_dir w)
             /\ (forall c text, tunnel_record c w1 = Some text -> tunnel_record c w = Some text)
             /\ (running = true -> w1 = w /\ exists text pid,
                   tunnel_record context_name w = Some text
                   /\ py_int 10 (strip text) = Some pid
                   /\ fst (os_kill pid 0 w) = Returned tt)).
  { destruct (tunnel_record context_name w) as [text|] eqn:Hrec.
    - rewrite (is_tunnel_running_record _ _ _ Hrec).
      assert (Hgone : forall c t, tunnel_record c (without_record context_name w) = Some t ->
                                  tunnel_record c w = Some t).
      { intros c t. unfold tunnel_record, without_record. simpl.
        intros Hl. apply lookup_delete_Some in Hl. tauto. }
      destruct (py_int 10 (strip text)) as [pid|] eqn:Hint.
      + pose proof (os_kill_fits pid 0 w (Hfit _ _ Hrec Hint)) as Hk.
        pose proof (os_probe_world pid w) as Hw.
        destruct (os_kill pid 0 w) as [r w1] eqn:Hkill. simpl in *. subst w1.
        destruct r as [[]|e|]; [| |contradiction].
        * exists true, w. repeat split; try tauto. exists text, pid.
          rewrite Hkill. auto.
        * rewrite Hk. exists false, (without_record context_name w).
          repeat split; try tauto; try discriminate.
      + exists false, (without_record context_name w).
        repeat split; try tauto; try discriminate.
    - rewrite (is_tunnel_running_absent _ _ Hrec).
      exists false, (with_dir (Some (the_dir w)) w).
      repeat split; try tauto; try discriminate. }
  destruct Hstep as (running & w1 & -> & Hnet & Hrecs & Hrun).
  assert (Hpid : exists pid,
             (if running then get_tunnel_pid context_name else ret None) w1
             = (Returned pid, w1)).
  { destruct running; [|eexists; reflexivity].
    destruct (Hrun eq_refl) as (-> & text & pid & Hrec & Hint & Hk).
    rewrite (get_tunnel_pid_record _ _ _ Hrec), Hint.
    pose proof (os_probe_world pid w) as Hw.
    destruct (os_kill pid 0 w) as [r w2]. simpl in *. subst. eexists. reflexivity. }
  destruct Hpid as (pid & Hpid).
  unfold bind, get_tunnel_port, lift.
  rewrite Hpid, Hport, get_network_metadata_spec. unfold ret.
  eexists. eexists. split; [reflexivity|]. simpl.
  repeat split; try assumption.
  unfold stored_metadata, network_record. now rewrite Hnet.
Qed.

Lemma for_each_describe names :
  forall w,
    (forall c, record_fits c w) ->
    exists infos w',
      for_each describe_context names w = (Returned infos, w')
      /\ map ctx_name infos = names
      /\ Forall (fun info => ctx_network_metadata info
                             = stored_metadata (ctx_name info) w) infos.
Proof.
  induction names as [|name names IH]; intros w Hfit.
  - exists [], w. repeat split. constructor.
  - destruct (describe_context_spec name w (Hfit name))
      as (info & w1 & Hd & Hname & Hmeta & Hnet & Hrecs).
    assert (Hfit1 : forall c, record_fits c w1).
    { intros c text pid Hrec. apply (Hfit c). now apply Hrecs. }
    destruct (IH w1 Hfit1) as (infos & w2 & Hrest & Hnames & Hall).
    exists (info :: infos), w2. simpl. unfold bind. rewrite Hd, Hrest.
    split; [reflexivity|]. split; [simpl; now rewrite Hname, Hnames|].
    constructor.
    + now rewrite Hname.
    + eapply Forall_impl; [exact Hall|]. intros i Hi. simpl in Hi.
      rewrite Hi. unfold stored_metadata, network_record. now rewrite Hnet.
Qed.

(** The status listing, when every record holds a valid process id or
    none: it returns one entry per context that has a record, each with
    the metadata stored for that context. *)
Lemma list_all_contexts_spec w :
  (forall c, record_fits c w) ->
  exists entries w',
    list_all_contexts w = (Returned entries, w')
    /\ (forall c, c ∈ map ctx_name entries <-> is_Some (tunnel_record c w))
    /\ (forall e, e ∈ entries ->
          ctx_network_metadata e = stored_metadata (ctx_name e) w).
Proof.
  intros Hfit. unfold list_all_contexts.
  destruct (state_dir w) as [d|] eqn:Hdir.
  - destruct (for_each_describe (glob_pid d) w Hfit) as (infos & w' & Hrun & Hnames & Hall).
    exists (merge_sort name_le infos), w'. unfold bind. rewrite Hrun.
    split; [reflexivity|]. split.
    + intros c. rewrite (merge_sort_Permutation name_le infos), Hnames.
      unfold glob_pid, tunnel_record, the_dir. rewrite Hdir. simpl.
      rewrite list_elem_of_fmap. split.
      * intros [[c' v] [-> Hin]]. apply elem_of_map_to_list in Hin. now exists v.
      * intros [v Hv]. exists (c, v). split; [reflexivity|].
        now apply elem_of_map_to_list.
    + intros e He. rewrite (merge_sort_Permutation name_le infos) in He.
      rewrite Forall_forall in Hall. now apply Hall.
  - exists [], w. split; [reflexivity|]. split.
    + intros c. unfold tunnel_record, the_dir. rewrite Hdir. simpl.
      rewrite lookup_empty. split; [intros H; inversion H | intros [? H]; discriminate].
    + intros e He. inversion He.
Qed.

(** C5. Network metadata invariant. [save_network_metadata] called with no
    network type and [needs_vpn] false changes nothing, so no file is
    created; a call creates the file of a context only if the network type
    is set or [needs_vpn] is true, and every complete call keeps the store
    such that each metadata file records a requirement. After the call
    without requirement, for a context that had no metadata file, reading
    the metadata gives the absent value without error, validation reports
    no requirement, and the status listing shows no metadata for that
    context. *)
Theorem save_network_metadata_invariant (context_name : string)
    (nt r c : option string) (v : bool) (ip : option string) (w : World) :
  let w' := snd (save_network_metadata context_name nt r c v ip w) in
  fst (save_network_metadata context_name nt r c v ip w) = Returned tt
  /\ (str_truthy nt = false -> v = false -> w' = w)
  /\ (network_record context_name w = None ->
      network_record context_name w' <> None ->
      str_truthy nt = true \/ v = true)
  /\ (metadata_invariant w -> metadata_invariant w')
  /\ (str_truthy nt = false -> v = false ->
      network_record context_name w = None ->
      get_network_metadata context_name w' = (Returned (Plain PyNone), w')
      /\ validate_context_network context_name w' = (Returned (true, None), w')
      /\ ((forall ctx, record_fits ctx w') ->
          exists entries w'',
            list_all_contexts w' = (Returned entries, w'')
            /\ (is_Some (tunnel_record context_name w') ->
                context_name ∈ map ctx_name entries)
            /\ forall e, e ∈ entries -> ctx_name e = context_name ->
                         ctx_network_metadata e = Plain PyNone)).
Proof.
  intros w'. subst w'.
  assert (Hnoop : str_truthy nt = false -> v = false ->
                  save_network_metadata context_name nt r c v ip w = (Returned tt, w)).
  { intros Hnt ->. now apply save_network_metadata_noop. }
  split; [|split; [|split; [|split]]].
  - destruct (str_truthy nt || v) eqn:Hreq.
    + destruct (save_network_metadata_writes context_name nt r c v ip w Hreq)
        as (w1 & -> & _). reflexivity.
    + apply orb_false_iff in Hreq. destruct Hreq as [Hnt Hv].
      now rewrite (Hnoop Hnt Hv).
  - intros Hnt Hv. now rewrite (Hnoop Hnt Hv).
  - intros Habsent Hnow.
    destruct (str_truthy nt) eqn:Hnt; [now left|].
    destruct v; [now right|].
    rewrite (Hnoop eq_refl eq_refl) in Hnow. contradiction.
  - apply save_network_metadata_keeps_invariant.
  - intros Hnt Hv Habsent. rewrite (Hnoop Hnt Hv). simpl.
    split; [|split].
    + rewrite get_network_metadata_spec, Habsent. reflexivity.
    + now apply validate_without_metadata.
    + intros Hfit.
      destruct (list_all_contexts_spec w Hfit) as (entries & w'' & Hl & Hnames & Hmeta).
      exists entries, w''. split; [exact Hl|]. split.
      * intros Hrec. now apply Hnames.
      * intros e He Hname. rewrite (Hmeta e He), Hname.
        unfold stored_metadata. now rewrite Habsent.
Qed.

Lemma save_network_metadata_invariant_witness :
  let w' := snd (save_network_metadata "acme-prod1" None None None false
                   (Some "10.0.5.20") direct_world) in
  w' = direct_world
  /\ get_network_metadata "acme-prod1" w' = (Returned (Plain PyNone), w')
  /\ validate_context_network "acme-prod1" w' = (Returned (true, None), w')
  /\ exists entries w'',
       list_all_contexts w' = (Returned entries, w'')
       /\ "acme-prod1" ∈ map ctx_name entries
       /\ forall e, e ∈ entries -> ctx_name e = "acme-prod1" ->
                    ctx_network_metadata e = Plain PyNone.
Proof.
  destruct (save_network_metadata_invariant "acme-prod1" None None None false
              (Some "10.0.5.20") direct_world) as (_ & Hsame & _ & _ & Hread).
  specialize (Hsame eq_refl eq_refl).
  destruct (Hread eq_refl eq_refl) as (Hget & Hval & Hlist);
    [vm_compute; reflexivity|].
  split; [exact Hsame|]. split; [exact Hget|]. split; [exact Hval|].
  destruct Hlist as (entries & w'' & Hl & Hin & Hmeta).
  - intros ctx text pid Hrec Hint. cbv zeta in Hrec. rewrite Hsame in Hrec.
    unfold tunnel_record in Hrec. simpl in Hrec.
    apply lookup_singleton_Some in Hrec. destruct Hrec as [_ <-].
    vm_compute in Hint. injection Hint as <-. vm_compute. split; discriminate.
  - exists entries, w''. split; [exact Hl|]. split; [|exact Hmeta].
    apply Hin. cbv zeta. rewrite Hsame. vm_compute. eexists. reflexivity.
Defined.

(** ** Writing a process id and reading it back *)

Lemma chars_of_list l : chars (string_of_list_ascii l) = l.
Proof. induction l as [|c l IH]; simpl; [reflexivity|]. now rewrite IH. Qed.

Lemma digit_char_plain d : 0 <= d < 10 -> plain_digit d = true.
Proof. apply (below_by_cases 10). vm_compute. reflexivity. Qed.

Lemma digit_char_facts d :
  0 <= d < 10 ->
  is_space (digit_char d) = false /\ is_int_space (digit_char d) = false
  /\ digit_value (digit_char d) = Some d
  /\ Ascii.eqb (digit_char d) "-"%char = false
  /\ Ascii.eqb (digit_char d) "+"%char = false.
Proof.
  intros Hd. pose proof (digit_char_plain d Hd) as H. unfold plain_digit in H.
  repeat match type of H with
         | _ && _ = true => apply andb_prop in H; let H' := fresh in destruct H as [H H']
         end.
  repeat match goal with
         | H : negb _ = true |- _ => apply negb_true_iff in H
         end.
  destruct (digit_value (digit_char d)) as [v|]; [|discriminate].
  match goal with H : (v =? d) = true |- _ => apply Z.eqb_eq in H; subst v end.
  repeat split; assumption.
Qed.

Lemma digits_le_range fuel n :
  0 <= n -> Forall (fun d => 0 <= d < 10) (digits_le fuel n).
Proof.
  revert n. induction fuel as [|fuel IH]; intros n Hn; simpl; constructor.
  - apply Z.mod_pos_bound. lia.
  - destruct (n <? 10); [constructor|]. apply IH. apply Z.div_pos; lia.
Qed.

Lemma digits_le_value fuel n :
  0 <= n < 2 ^ Z.of_nat fuel ->
  fold_right (fun d a => a * 10 + d) 0 (digits_le fuel n) = n.
Proof.
  revert n. induction fuel as [|fuel IH]; intros n Hn.
  - simpl in *. lia.
  - simpl digits_le. simpl fold_right.
    destruct (n <? 10) eqn:E.
    + apply Z.ltb_lt in E. simpl. rewrite Z.mod_small; lia.
    + rewrite IH.
      * pose proof (Z.div_mod n 10 ltac:(lia)). lia.
      * rewrite Nat2Z.inj_succ, Z.pow_succ_r in Hn by lia.
        split; [apply Z.div_pos; lia|].
        apply Z.div_lt_upper_bound; lia.
Qed.

Lemma fuel_enough n : 0 <= n -> n < 2 ^ Z.of_nat (S (Z.to_nat (Z.log2 n))).
Proof.
  intros Hn. rewrite Nat2Z.inj_succ, Z2Nat.id by apply Z.log2_nonneg.
  destruct (Z.eq_dec n 0) as [->|Hz]; [reflexivity|].
  apply Z.log2_spec. lia.
Qed.

Lemma decimal_chars n :
  0 <= n ->
  exists ds,
    chars (decimal n) = map digit_char ds
    /\ ds <> []
    /\ Forall (fun d => 0 <= d < 10) ds
    /\ fold_left (fun a d => a * 10 + d) ds 0 = n.
Proof.
  intros Hn. unfold decimal. rewrite chars_of_list.
  set (fuel := S (Z.to_nat (Z.log2 n))).
  exists (rev (digits_le fuel n)). split; [reflexivity|]. split; [|split].
  - subst fuel. simpl. intros H. apply (f_equal (@length Z)) in H.
    rewrite length_app in H. simpl in H. lia.
  - apply Forall_rev. now apply digits_le_range.
  - pose proof (fold_left_rev_right (fun d a => a * 10 + d)
                  (rev (digits_le fuel n)) 0) as H.
    rewrite rev_involutive in H. cbv beta in H. rewrite <- H.
    apply digits_le_value. split; [assumption|]. now apply fuel_enough.
Qed.

Lemma unprefixed_decimal s : unprefixed 10 s = s.
Proof. destruct s as [|z [|x s]]; reflexivity. Qed.

Lemma fold_digit_chars ds :
  Forall (fun d => 0 <= d < 10) ds ->
  forall acc,
    fold_left (fun a c => a * 10 + digit_of c) (map digit_char ds) acc
    = fold_left (fun a d => a * 10 + d) ds acc.
Proof.
  induction 1 as [|d ds Hd _ IH]; intros acc; simpl; [reflexivity|].
  rewrite IH. unfold digit_of.
  destruct (digit_char_facts d Hd) as (_ & _ & -> & _). reflexivity.
Qed.

(** [int(str(n).strip()) == n] *)
Lemma int_of_str n : py_int 10 (strip (py_str n)) = Some n.
Proof.
  assert (Hpos : forall m, 0 <= m ->
            Forall (fun c => is_space c = false) (chars (decimal m))
            /\ Forall (fun c => is_int_space c = false) (chars (decimal m))
            /\ numeral 10 0 false (decimal m) = Some m
            /\ exists c s, decimal m = String c s
                 /\ Ascii.eqb c "-"%char = false /\ Ascii.eqb c "+"%char = false).
  { intros m Hm. destruct (decimal_chars m Hm) as (ds & Hc & Hne & Hr & Hv).
    assert (Hfacts : Forall (fun c => is_space c = false /\ is_int_space c = false
                                      /\ digit_below 10 c
                                      /\ Ascii.eqb c "-"%char = false
                                      /\ Ascii.eqb c "+"%char = false)
                            (chars (decimal m))).
    { rewrite Hc. apply Forall_map. eapply Forall_impl; [exact Hr|].
      intros d Hd. cbv beta in Hd. simpl.
      destruct (digit_char_facts d Hd) as (? & ? & ? & ? & ?).
      split; [assumption|]. split; [assumption|].
      split; [exists d; split; [assumption|lia]|]. split; assumption. }
    split; [eapply Forall_impl; [exact Hfacts|]; simpl; tauto|].
    split; [eapply Forall_impl; [exact Hfacts|]; simpl; tauto|].
    split.
    - rewrite numeral_digits.
      + rewrite Hc, fold_digit_chars by assumption. now rewrite Hv.
      + eapply Forall_impl; [exact Hfacts|]; simpl; tauto.
      + left. intros E. rewrite E in Hc. simpl in Hc.
        destruct ds; [contradiction|discriminate].
    - destruct (decimal m) as [|c s] eqn:E.
      + simpl in Hc. destruct ds; [contradiction|discriminate].
      + exists c, s. split; [reflexivity|].
        inversion Hfacts as [|? ? Hhead _]; subst. tauto. }
  unfold py_str. destruct (n <? 0) eqn:Hneg.
  - apply Z.ltb_lt in Hneg.
    destruct (Hpos (- n) ltac:(lia)) as (Hsp & Hisp & Hnum & _).
    assert (Hs : Forall (fun c => is_space c = false)
                   (chars (String "-"%char (decimal (- n)))))
      by (constructor; [reflexivity|assumption]).
    assert (Hi : Forall (fun c => is_int_space c = false)
                   (chars (String "-"%char (decimal (- n)))))
      by (constructor; [reflexivity|assumption]).
    rewrite (strip_unchanged _ Hs). unfold py_int.
    rewrite (ltrim_unchanged _ _ Hi), (rtrim_unchanged _ _ Hi).
    cbv beta iota. rewrite Ascii.eqb_refl, unprefixed_decimal, Hnum.
    simpl. f_equal. lia.
  - apply Z.ltb_ge in Hneg.
    destruct (Hpos n Hneg) as (Hsp & Hisp & Hnum & c & s & E & Hm & Hp).
    rewrite (strip_unchanged _ Hsp). unfold py_int.
    rewrite (ltrim_unchanged _ _ Hisp), (rtrim_unchanged _ _ Hisp).
    rewrite E, Hm, Hp, <- E, unprefixed_decimal. exact Hnum.
Qed.

(** ** Connecting *)

(** [create_tunnel] when the ssh command exits with status 0 and the search
    command exits as well. *)
Lemma create_tunnel_spawned host ip lp rp w s1 r1 l1 s2 r2 l2 rest :
  script w = Exits s1 r1 l1 :: Exits s2 r2 l2 :: rest ->
  returncode r1 = 0 ->
  exists cmd1 cmd2,
    create_tunnel host ip lp rp w =
      (discovered r2,
       {| state_dir := state_dir w;
          processes := started l2 (started l1 (processes w));
          script := rest;
          invocations := (cmd2, None) :: (cmd1, None) :: invocations w |})
    /\ head cmd1 = Some "ssh".
Proof.
  intros Hs Hrc. unfold create_tunnel, bind, subprocess_run, sleep, ret, raise, int_of.
  rewrite Hs. cbn. rewrite Hrc. cbn.
  eexists. eexists. split.
  - unfold discovered, found.
    destruct ((returncode r2 =? 0) && nonempty (strip (stdout r2))); [|reflexivity].
    destruct (split (strip (stdout r2))) as [|first tokens]; [reflexivity|].
    destruct (py_int 10 first); reflexivity.
  - reflexivity.
Qed.

Lemma same_but_metadata_refl w : same_but_metadata w w.
Proof. now repeat split. Qed.

Lemma save_network_metadata_frame context_name nt r c v ip w :
  fst (save_network_metadata context_name nt r c v ip w) = Returned tt
  /\ same_but_metadata w (snd (save_network_metadata context_name nt r c v ip w)).
Proof.
  unfold save_network_metadata, open_network_file_w, yaml_safe_dump.
  destruct (negb (str_truthy nt) && negb v); run.
  - split; [reflexivity|apply same_but_metadata_refl].
  - split; [reflexivity|]. now repeat split.
Qed.

Lemma save_tunnel_pid_written context_name p w :
  p <> 0 ->
  exists w',
    save_tunnel_pid context_name (Some p) w = (Returned tt, w')
    /\ pid_files (the_dir w') = <[context_name := py_str p]> (pid_files (the_dir w))
    /\ processes w' = processes w /\ script w' = script w
    /\ invocations w' = invocations w
    /\ network_files (the_dir w') = network_files (the_dir w).
Proof.
  intros Hp. unfold save_tunnel_pid, open_pid_file_w, write_pid_file.
  apply Z.eqb_neq in Hp. rewrite Hp. run.
  eexists. split; [reflexivity|]. cbn.
  rewrite lookup_insert_eq. cbn. rewrite insert_insert_eq. now repeat split.
Qed.

Lemma is_tunnel_running_false context_name w w1 :
  is_tunnel_running context_name w = (Returned false, w1) ->
  tunnel_record context_name w1 = None
  /\ processes w1 = processes w /\ script w1 = script w
  /\ invocations w1 = invocations w.
Proof.
  destruct (tunnel_record context_name w) as [text|] eqn:Hrec.
  - rewrite (is_tunnel_running_record _ _ _ Hrec).
    destruct (py_int 10 (strip text)) as [pid|].
    + pose proof (os_probe_world pid w) as Hw.
      destruct (os_kill pid 0 w) as [[[]|e|] w2]; simpl in Hw; subst w2;
        try discriminate.
      destruct (pid_errors e); [|discriminate].
      intros [= <-]. split; [apply without_record_lookup|now repeat split].
    + intros [= <-]. split; [apply without_record_lookup|now repeat split].
  - rewrite (is_tunnel_running_absent _ _ Hrec). intros [= <-].
    split; [exact Hrec|now repeat split].
Qed.

Lemma is_tunnel_running_true context_name w w1 :
  is_tunnel_running context_name w = (Returned true, w1) ->
  w1 = w
  /\ exists text pid,
       tunnel_record context_name w = Some text
       /\ py_int 10 (strip text) = Some pid.
Proof.
  destruct (tunnel_record context_name w) as [text|] eqn:Hrec.
  - rewrite (is_tunnel_running_record _ _ _ Hrec).
    destruct (py_int 10 (strip text)) as [pid|] eqn:Hint; [|discriminate].
    pose proof (os_probe_world pid w) as Hw.
    destruct (os_kill pid 0 w) as [[[]|e|] w2]; simpl in Hw; subst w2;
      try discriminate.
    + intros [= <-]. split; [reflexivity|]. now exists text, pid.
    + destruct (pid_errors e); discriminate.
  - rewrite (is_tunnel_running_absent _ _ Hrec). discriminate.
Qed.

Lemma port_defined context_name start size :
  size <> 0 -> exists port, get_unique_port context_name start size = Returned port.
Proof.
  intros Hsize. destruct (hash_int_defined context_name) as [h Hh].
  unfold get_unique_port. rewrite Hh. apply Z.eqb_neq in Hsize. rewrite Hsize.
  eexists. reflexivity.
Qed.

Lemma save_cluster_metadata_frame (c : cluster) context_name ip w :
  exists w',
    save_cluster_metadata c context_name ip w = (Returned tt, w')
    /\ same_but_metadata w w'.
Proof.
  unfold save_cluster_metadata.
  destruct (str_truthy (network_type c) || needs_vpn c).
  - cbv zeta.
    match goal with
    | |- context [save_network_metadata ?a ?b ?c ?d ?e ?f w] =>
        destruct (save_network_metadata_frame a b c d e f w) as [Hr Hf];
        destruct (save_network_metadata a b c d e f w) as [r w']
    end.
    simpl in *. subst r. now exists w'.
  - exists w. split; [reflexivity|apply same_but_metadata_refl].
Qed.

(** Setting up the tunnel of a context that is not running, when the ssh
    command succeeds and the search for its process id ends. *)
Lemma setup_tunnel_creates cfg c context_name port ip w s1 r1 l1 s2 r2 l2 rest :
  fst (is_tunnel_running context_name w) = Returned false ->
  script w = Exits s1 r1 l1 :: Exits s2 r2 l2 :: rest ->
  returncode r1 = 0 ->
  exists w',
    setup_tunnel cfg c context_name port ip w = (discovered r2, w')
    /\ (forall pid, discovered r2 = Returned pid ->
          tunnel_record context_name w' = recorded pid)
    /\ length (invocations w') = S (S (length (invocations w)))
    /\ processes w' = started l2 (started l1 (processes w)).
Proof.
  intros Hrun Hs Hrc. unfold setup_tunnel, bind at 1.
  destruct (is_tunnel_running context_name w) as [r w1] eqn:Hr. simpl in Hrun. subst r.
  cbv beta iota.
  destruct (is_tunnel_running_false _ _ _ Hr) as (Hrec & Hp & Hscript & Hinv).
  rewrite <- Hscript in Hs.
  destruct (create_tunnel_spawned (host_alias c) ip port (TARGET_PORT cfg)
              w1 s1 r1 l1 s2 r2 l2 rest Hs Hrc) as (cmd1 & cmd2 & Hc & _).
  unfold bind. rewrite Hc.
  set (w2 := {| state_dir := state_dir w1; processes := _; script := rest;
                invocations := _ |}).
  assert (Hrec2 : tunnel_record context_name w2 = None) by exact Hrec.
  assert (Hinv2 : length (invocations w2) = S (S (length (invocations w))))
    by (simpl; now rewrite Hinv).
  assert (Hproc2 : processes w2 = started l2 (started l1 (processes w)))
    by (simpl; now rewrite Hp).
  destruct (discovered r2) as [pid| e |] eqn:Hd.
  - assert (Hsave : exists w3,
               save_tunnel_pid context_name pid w2 = (Returned tt, w3)
               /\ tunnel_record context_name w3 = recorded pid
               /\ invocations w3 = invocations w2
               /\ processes w3 = processes w2).
    { destruct pid as [p|]; [|exists w2; now repeat split].
      destruct (Z.eq_dec p 0) as [->|Hp0]; [exists w2; now repeat split|].
      destruct (save_tunnel_pid_written context_name p w2 Hp0)
        as (w3 & Hw & Hf & Hpr & _ & Hi & _).
      exists w3. split; [exact Hw|]. split; [|now split].
      unfold tunnel_record, recorded. rewrite Hf, lookup_insert_eq.
      apply Z.eqb_neq in Hp0. now rewrite Hp0. }
    destruct Hsave as (w3 & -> & Hrec3 & Hinv3 & Hproc3). unfold ret at 1.
    destruct (save_cluster_metadata_frame c context_name ip w3)
      as (w4 & -> & Hf & Hpr & _ & Hi).
    exists w4. split; [reflexivity|]. split; [|split].
    + intros pid' [= <-]. unfold tunnel_record in *. now rewrite Hf.
    + now rewrite Hi, Hinv3.
    + now rewrite Hpr, Hproc3.
  - exists w2. split; [reflexivity|]. split; [discriminate|now split].
  - exists w2. split; [reflexivity|]. split; [discriminate|now split].
Qed.

Lemma subprocess_run_dir cmd timeout w :
  state_dir (snd (subprocess_run cmd timeout w)) = state_dir w.
Proof.
  unfold subprocess_run.
  destruct (script w) as [|[seconds result leaves| |] rest]; try reflexivity.
  - destruct timeout as [t|]; [destruct (t <? seconds)|]; reflexivity.
  - destruct timeout; reflexivity.
Qed.

Lemma create_tunnel_dir host ip lp rp w :
  state_dir (snd (create_tunnel host ip lp rp w)) = state_dir w.
Proof.
  unfold create_tunnel, bind, sleep, ret, raise, int_of.
  match goal with
  | |- context [subprocess_run ?cmd None w] =>
      pose proof (subprocess_run_dir cmd None w) as H1;
      destruct (subprocess_run cmd None w) as [[r1| |] w1]
  end; simpl in H1; try exact H1.
  destruct (negb (returncode r1 =? 0)); [exact H1|].
  match goal with
  | |- context [subprocess_run ?cmd None w1] =>
      pose proof (subprocess_run_dir cmd None w1) as H2;
      destruct (subprocess_run cmd None w1) as [[r2| |] w2]
  end; simpl in H2; rewrite <- H1, <- H2; try reflexivity.
  destruct ((returncode r2 =? 0) && nonempty (strip (stdout r2))); [|reflexivity].
  destruct (split (strip (stdout r2))) as [|first tokens]; [reflexivity|].
  destruct (py_int 10 first); reflexivity.
Qed.

Lemma save_tunnel_pid_record context_name pid w :
  tunnel_record context_name w = None ->
  fst (save_tunnel_pid context_name pid w) = Returned tt
  /\ tunnel_record context_name (snd (save_tunnel_pid context_name pid w)) = recorded pid.
Proof.
  intros Hrec. destruct pid as [p|]; [|now split].
  destruct (Z.eq_dec p 0) as [->|Hp]; [now split|].
  destruct (save_tunnel_pid_written context_name p w Hp) as (w' & -> & Hf & _).
  split; [reflexivity|]. unfold tunnel_record, recorded. simpl.
  rewrite Hf, lookup_insert_eq. apply Z.eqb_neq in Hp. now rewrite Hp.
Qed.

(** When setting up the tunnel returns and leaves a record, the value it
    returns is the process id written in that record. *)
Lemma setup_tunnel_returns cfg c context_name port ip w pid w' text :
  setup_tunnel cfg c context_name port ip w = (Returned pid, w') ->
  tunnel_record context_name w' = Some text ->
  exists p, pid = Some p /\ py_int 10 (strip text) = Some p.
Proof.
  unfold setup_tunnel, bind at 1.
  destruct (is_tunnel_running context_name w) as [[[]|e|] w1] eqn:Hr; try discriminate.
  - destruct (is_tunnel_running_true _ _ _ Hr) as (-> & text0 & p & Hrec & Hint).
    unfold bind, pid_file_exists, read_pid_file, int_of, ret.
    unfold tunnel_record in Hrec. rewrite Hrec. cbn. rewrite Hrec, Hint.
    destruct (save_cluster_metadata_frame c context_name ip w) as (w2 & -> & Hf & _).
    intros [= <- <-]. unfold tunnel_record. rewrite Hf, Hrec. intros [= <-].
    now exists p.
  - destruct (is_tunnel_running_false _ _ _ Hr) as (Hrec & _).
    unfold bind.
    pose proof (create_tunnel_dir (host_alias c) ip port (TARGET_PORT cfg) w1) as Hdir.
    destruct (create_tunnel (host_alias c) ip port (TARGET_PORT cfg) w1)
      as [[pid1|e|] w2]; try discriminate.
    simpl in Hdir.
    assert (Hrec2 : tunnel_record context_name w2 = None)
      by (unfold tunnel_record, the_dir in *; now rewrite Hdir).
    destruct (save_tunnel_pid_record context_name pid1 w2 Hrec2) as [Hret Hrec3].
    destruct (save_tunnel_pid context_name pid1 w2) as [r w3]. simpl in *. subst r.
    unfold ret at 1.
    destruct (save_cluster_metadata_frame c context_name ip w3) as (w4 & -> & Hf & _).
    intros [= <- <-]. unfold tunnel_record in *. rewrite Hf, Hrec3.
    destruct pid1 as [p|]; [|discriminate]. simpl.
    destruct (p =? 0); [discriminate|]. intros [= <-].
    exists p. split; [reflexivity|apply int_of_str].
Qed.

(** Setting up the tunnel of a context that is running: nothing is
    spawned and the record stays; the process id read from it is returned. *)
Lemma setup_tunnel_running cfg c context_name port ip w :
  fst (is_tunnel_running context_name w) = Returned true ->
  exists text pid w',
    tunnel_record context_name w = Some text
    /\ py_int 10 (strip text) = Some pid
    /\ setup_tunnel cfg c context_name port ip w = (Returned (Some pid), w')
    /\ same_but_metadata w w'.
Proof.
  intros Hrun. destruct (is_tunnel_running context_name w) as [r w1] eqn:Hr.
  simpl in Hrun. subst r.
  destruct (is_tunnel_running_true _ _ _ Hr) as (-> & text & pid & Hrec & Hint).
  destruct (save_cluster_metadata_frame c context_name ip w) as (w2 & Hm & Hf).
  exists text, pid, w2. split; [exact Hrec|]. split; [exact Hint|]. split; [|exact Hf].
  unfold setup_tunnel, bind at 1. rewrite Hr.
  unfold bind, pid_file_exists, read_pid_file, int_of, ret.
  unfold tunnel_record in Hrec. rewrite Hrec. cbn. rewrite Hrec, Hint, Hm. reflexivity.
Qed.

Lemma connect_cluster_unfold env cfg c w :
  connect_cluster env cfg c w =
    match preparation env cfg c with
    | Blocked => (Blocked, w)
    | Raised e =>
        (Returned {| success := false; context_name := context_of c;
                     local_port := None; internal_ip := None;
                     tunnel_pid := None; error := Some e |}, w)
    | Returned (port, ip) =>
        match setup_tunnel cfg c (context_of c) port ip w with
        | (Blocked, w2) => (Blocked, w2)
        | (Raised e, w2) =>
            (Returned {| success := false; context_name := context_of c;
                         local_port := Some port; internal_ip := Some ip;
                         tunnel_pid := None; error := Some e |}, w2)
        | (Returned pid, w2) =>
            (Returned {| success := true; context_name := context_of c;
                         local_port := Some port; internal_ip := Some ip;
                         tunnel_pid := pid; error := None |}, w2)
        end
    end.
Proof.
  unfold connect_cluster, preparation, fetch_and_merge_kubeconfig, bind, lift, ret,
    context_of.
  destruct (load_ssh_config env (host_alias c)) as [[]|e|]; try reflexivity.
  destruct (kubeconfig_of env (company c) (host_alias c)) as [[ip cached]|e|];
    try reflexivity.
  destruct (get_unique_port _ _ _) as [port|e|]; reflexivity.
Qed.





Lemma preparation_port env cfg c port ip :
  preparation env cfg c = Returned (port, ip) ->
  get_unique_port (context_of c) (PORT_RANGE_START cfg) (PORT_RANGE_SIZE cfg)
  = Returned port.
Proof.
  unfold preparation.
  destruct (load_ssh_config env (host_alias c)) as [[]|e|]; try discriminate.
  destruct (kubeconfig_of env (company c) (host_alias c)) as [answer|e|]; try discriminate.
  destruct (get_unique_port _ _ _) as [p|e|]; try discriminate.
  now intros [= -> _].
Qed.

(** A first connection makes the context live: when ssh leaves the
    forwarding process and the search reports its id, the record written
    names a running process. *)
Lemma first_connection_is_live env cfg c w ip cached s1 r1 p s2 r2 l2 rest :
  load_ssh_config env (host_alias c) = Returned tt ->
  kubeconfig_of env (company c) (host_alias c) = Returned (ip, cached) ->
  PORT_RANGE_SIZE cfg <> 0 ->
  fst (is_tunnel_running (context_of c) w) = Returned false ->
  script w = Exits s1 r1 (Some p) :: Exits s2 r2 l2 :: rest ->
  returncode r1 = 0 ->
  discovered r2 = Returned (Some p) ->
  0 < p <= INT_MAX ->
  fst (is_tunnel_running (context_of c)
         (snd (connect_cluster env cfg c w))) = Returned true.
Proof.
  intros Hssh Hk Hsize Hrun Hs Hrc Hd Hp.
  destruct (port_defined (context_of c) (PORT_RANGE_START cfg) (PORT_RANGE_SIZE cfg) Hsize)
    as [port Hport].
  rewrite connect_cluster_unfold. unfold preparation. rewrite Hssh, Hk, Hport.
  cbv beta iota. simpl fst.
  destruct (setup_tunnel_creates cfg c (context_of c) port ip w s1 r1 (Some p) s2 r2 l2 rest
              Hrun Hs Hrc) as (w' & -> & Hrec & _ & Hproc).
  rewrite Hd. simpl snd. specialize (Hrec _ Hd). unfold recorded in Hrec.
  replace (p =? 0) with false in Hrec by (symmetry; apply Z.eqb_neq; lia).
  rewrite (is_tunnel_running_record _ _ _ Hrec), int_of_str.
  unfold os_kill. rewrite Hproc.
  replace ((INT_MIN <=? p) && (p <=? INT_MAX)) with true
    by (symmetry; apply andb_true_iff; split; apply Z.leb_le;
        [unfold INT_MIN|]; lia).
  cbn [negb].
  replace (started l2 (started (Some p) (processes w)) !! p) with (Some true).
  - reflexivity.
  - symmetry. destruct l2 as [q|]; simpl.
    + destruct (decide (q = p)) as [->|Hne];
        [apply lookup_insert_eq | rewrite lookup_insert_ne by assumption;
                                  apply lookup_insert_eq].
    + apply lookup_insert_eq.
Qed.

(** A second connection of a context that is live after the first (its
    record names a running process): it runs no external command, so
    spawns nothing, and leaves the process table and the records as they
    are. When the first call succeeded the second succeeds with the same
    process id, read back from the record, and the same port, recomputed
    by the port allocator. *)
Lemma second_connection_reuses (env : Collaborators) (cfg : Config)
    (c : cluster) (w0 w1 : World) (r1 : connection) :
  connect_cluster env cfg c w0 = (Returned r1, w1) ->
  fst (is_tunnel_running (context_of c) w1) = Returned true ->
  exists r2 w2,
    connect_cluster env cfg c w1 = (Returned r2, w2)
    /\ invocations w2 = invocations w1
    /\ processes w2 = processes w1
    /\ pid_files (the_dir w2) = pid_files (the_dir w1)
    /\ is_Some (tunnel_record (context_of c) w2)
    /\ (success r1 = true ->
        success r2 = true
        /\ tunnel_pid r2 = tunnel_pid r1
        /\ local_port r2 = local_port r1
        /\ exists text pid port,
             tunnel_record (context_of c) w2 = Some text
             /\ py_int 10 (strip text) = Some pid
             /\ tunnel_pid r2 = Some pid
             /\ get_unique_port (context_of c) (PORT_RANGE_START cfg)
                  (PORT_RANGE_SIZE cfg) = Returned port
             /\ local_port r2 = Some port).
Proof.
  intros Hfirst Hlive. rewrite connect_cluster_unfold in Hfirst.
  rewrite connect_cluster_unfold.
  destruct (is_tunnel_running (context_of c) w1) as [b w1'] eqn:Hrun.
  simpl in Hlive. subst b.
  destruct (is_tunnel_running_true _ _ _ Hrun) as (_ & text0 & pid0 & Hrec0 & _).
  destruct (preparation env cfg c) as [[port ip]|e|] eqn:Hprep.
  - destruct (setup_tunnel_running cfg c (context_of c) port ip w1)
      as (text & pid & w2 & Hrec & Hint & Hsecond & Hf & Hp & _ & Hi);
      [now rewrite Hrun|].
    rewrite Hsecond. eexists. exists w2. split; [reflexivity|].
    assert (Hrec2 : tunnel_record (context_of c) w2 = Some text)
      by (unfold tunnel_record in *; now rewrite Hf).
    repeat (split; [assumption || (rewrite Hrec2; now eexists)|]).
    intros Hsuccess. cbn.
    destruct (setup_tunnel cfg c (context_of c) port ip w0) as [[pid1|e1|] w1''] eqn:Hsetup;
      try discriminate; injection Hfirst as <- <-; try discriminate.
    destruct (setup_tunnel_returns _ _ _ _ _ _ _ _ _ Hsetup Hrec) as (p & -> & Hp1).
    assert (p = pid) as -> by congruence.
    repeat split. exists text, pid, port. repeat split; try assumption.
    now apply (preparation_port env cfg c port ip).
  - injection Hfirst as <- <-. eexists. exists w0.
    split; [reflexivity|]. repeat (split; [reflexivity || (rewrite Hrec0; now eexists)|]).
    discriminate.
  - discriminate.
Qed.

Lemma is_tunnel_running_live context_name pid w :
  live_as context_name pid w -> is_tunnel_running context_name w = (Returned true, w).
Proof.
  intros (text & Hrec & Hint & [Hlo Hhi] & Hproc).
  rewrite (is_tunnel_running_record _ _ _ Hrec), Hint.
  unfold os_kill. apply Z.leb_le in Hlo, Hhi. now rewrite Hlo, Hhi, Hproc.
Qed.

(** The first connection of a context whose tunnel is not running, when
    ssh leaves the process [p] and the search reports it. *)
Lemma first_connection_records env cfg c w ip cached s1 r1 p s2 r2 l2 rest :
  load_ssh_config env (host_alias c) = Returned tt ->
  kubeconfig_of env (company c) (host_alias c) = Returned (ip, cached) ->
  PORT_RANGE_SIZE cfg <> 0 ->
  fst (is_tunnel_running (context_of c) w) = Returned false ->
  script w = Exits s1 r1 (Some p) :: Exits s2 r2 l2 :: rest ->
  returncode r1 = 0 ->
  discovered r2 = Returned (Some p) ->
  exists first w1,
    connect_cluster env cfg c w = (Returned first, w1)
    /\ success first = true
    /\ tunnel_pid first = Some p
    /\ length (invocations w1) = S (S (length (invocations w))).
Proof.
  intros Hssh Hk Hsize Hrun Hs Hrc Hd.
  destruct (port_defined (context_of c) (PORT_RANGE_START cfg) (PORT_RANGE_SIZE cfg) Hsize)
    as [port Hport].
  rewrite connect_cluster_unfold. unfold preparation. rewrite Hssh, Hk, Hport. cbn.
  destruct (setup_tunnel_creates cfg c (context_of c) port ip w s1 r1 (Some p) s2 r2 l2 rest
              Hrun Hs Hrc) as (w' & -> & _ & Hinv & _).
  rewrite Hd. eexists. exists w'. split; [reflexivity|]. cbn. now repeat split.
Qed.

(** The first connection of a context that is live already. *)
Lemma live_connection_kept env cfg c w ip cached p :
  load_ssh_config env (host_alias c) = Returned tt ->
  kubeconfig_of env (company c) (host_alias c) = Returned (ip, cached) ->
  PORT_RANGE_SIZE cfg <> 0 ->
  live_as (context_of c) p w ->
  exists first w1,
    connect_cluster env cfg c w = (Returned first, w1)
    /\ success first = true
    /\ tunnel_pid first = Some p
    /\ invocations w1 = invocations w
    /\ live_as (context_of c) p w1.
Proof.
  intros Hssh Hk Hsize Hlive.
  destruct (port_defined (context_of c) (PORT_RANGE_START cfg) (PORT_RANGE_SIZE cfg) Hsize)
    as [port Hport].
  rewrite connect_cluster_unfold. unfold preparation. rewrite Hssh, Hk, Hport. cbn.
  destruct (setup_tunnel_running cfg c (context_of c) port ip w)
    as (text & pid & w1 & Hrec & Hint & Hsetup & Hf & Hp & _ & Hi).
  { now rewrite (is_tunnel_running_live _ _ _ Hlive). }
  destruct Hlive as (text' & Hrec' & Hint' & Hrange & Hproc).
  assert (text' = text) as -> by congruence.
  assert (pid = p) as -> by congruence.
  rewrite Hsetup. eexists. exists w1. split; [reflexivity|]. cbn.
  split; [reflexivity|]. split; [reflexivity|]. split; [exact Hi|].
  exists text. unfold tunnel_record in *. rewrite Hf, Hp. now repeat split.
Qed.

(** C8, as the code has it. Idempotent creation holds where the first
    call leaves a record of the tunnel: for a context of plain name that
    is live under its record already, or whose first connection starts
    the tunnel process and finds its identifier, two calls of
    [connect_cluster] in a row both succeed with that process id; the
    second runs no external command, so spawns nothing, leaves the
    process table and the records as they are, with the one record of the
    context naming the process, and returns the port of the first call,
    recomputed by the port allocator. *)
Theorem connect_cluster_twice_spawns_once_when_recorded (env : Collaborators)
    (cfg : Config) (c : cluster) (w0 : World) (ip : string) (cached : bool) (p : Z) :
  load_ssh_config env (host_alias c) = Returned tt ->
  kubeconfig_of env (company c) (host_alias c) = Returned (ip, cached) ->
  PORT_RANGE_SIZE cfg <> 0 ->
  plain_name (context_of c) = true ->
  0 < p <= INT_MAX ->
  first_call_records c p w0 ->
  exists first w1 second w2 text port,
    connect_cluster env cfg c w0 = (Returned first, w1)
    /\ success first = true
    /\ tunnel_pid first = Some p
    /\ connect_cluster env cfg c w1 = (Returned second, w2)
    /\ success second = true
    /\ tunnel_pid second = Some p
    /\ local_port second = local_port first
    /\ get_unique_port (context_of c) (PORT_RANGE_START cfg) (PORT_RANGE_SIZE cfg)
       = Returned port
    /\ local_port second = Some port
    /\ invocations w2 = invocations w1
    /\ processes w2 = processes w1
    /\ pid_files (the_dir w2) = pid_files (the_dir w1)
    /\ tunnel_record (context_of c) w2 = Some text
    /\ py_int 10 (strip text) = Some p.
Proof.
  intros Hssh Hk Hsize _ Hp Hfirst.
  assert (Hstep : exists first w1,
             connect_cluster env cfg c w0 = (Returned first, w1)
             /\ success first = true
             /\ tunnel_pid first = Some p
             /\ fst (is_tunnel_running (context_of c) w1) = Returned true).
  { destruct Hfirst
      as [_ [Hlive|(Hrun & s1 & r1 & s2 & r2 & l2 & rest & Hs & Hrc & _ & Hd)]].
    - destruct (live_connection_kept env cfg c w0 ip cached p Hssh Hk Hsize Hlive)
        as (first & w1 & Hc & Hsucc & Hpid & _ & Hlive1).
      exists first, w1. repeat split; try assumption.
      now rewrite (is_tunnel_running_live _ _ _ Hlive1).
    - destruct (first_connection_records env cfg c w0 ip cached s1 r1 p s2 r2 l2 rest
                  Hssh Hk Hsize Hrun Hs Hrc Hd) as (first & w1 & Hc & Hsucc & Hpid & _).
      exists first, w1. repeat split; try assumption.
      pose proof (first_connection_is_live env cfg c w0 ip cached s1 r1 p s2 r2 l2 rest
                    Hssh Hk Hsize Hrun Hs Hrc Hd Hp) as Hl.
      now rewrite Hc in Hl. }
  destruct Hstep as (first & w1 & Hc & Hsucc & Hpid & Hlive1).
  destruct (second_connection_reuses env cfg c w0 w1 first Hc Hlive1)
    as (second & w2 & Hc2 & Hi & Hpr & Hf & _ & Hrest).
  destruct (Hrest Hsucc) as (Hsucc2 & Hpid2 & Hport2 & text & pid & port
                             & Hrec & Hint & Hpid3 & Hgup & Hlp).
  exists first, w1, second, w2, text, port.
  assert (pid = p) as -> by congruence.
  repeat split; try assumption; congruence.
Qed.

Lemma connect_cluster_twice_spawns_once_when_recorded_witness :
  (exists first w1 second w2 text port,
     connect_cluster reachable default_config acme_prod1 spawn_seen_world
       = (Returned first, w1)
     /\ success first = true
     /\ tunnel_pid first = Some 4242
     /\ connect_cluster reachable default_config acme_prod1 w1 = (Returned second, w2)
     /\ success second = true
     /\ tunnel_pid second = Some 4242
     /\ local_port second = local_port first
     /\ get_unique_port (context_of acme_prod1) (PORT_RANGE_START default_config)
          (PORT_RANGE_SIZE default_config) = Returned port
     /\ local_port second = Some port
     /\ invocations w2 = invocations w1
     /\ processes w2 = processes w1
     /\ pid_files (the_dir w2) = pid_files (the_dir w1)
     /\ tunnel_record (context_of acme_prod1) w2 = Some text
     /\ py_int 10 (strip text) = Some 4242)
  /\ (exists first w1 second w2 text port,
        connect_cluster reachable default_config acme_prod1 direct_world
          = (Returned first, w1)
        /\ success first = true
        /\ tunnel_pid first = Some 4242
        /\ connect_cluster reachable default_config acme_prod1 w1 = (Returned second, w2)
        /\ success second = true
        /\ tunnel_pid second = Some 4242
        /\ local_port second = local_port first
        /\ get_unique_port (context_of acme_prod1) (PORT_RANGE_START default_config)
             (PORT_RANGE_SIZE default_config) = Returned port
        /\ local_port second = Some port
        /\ invocations w2 = invocations w1
        /\ processes w2 = processes w1
        /\ pid_files (the_dir w2) = pid_files (the_dir w1)
        /\ tunnel_record (context_of acme_prod1) w2 = Some text
        /\ py_int 10 (strip text) = Some 4242).
Proof.
  split.
  - apply (connect_cluster_twice_spawns_once_when_recorded reachable default_config
             acme_prod1 spawn_seen_world "10.0.5.20" false 4242).
    + reflexivity.
    + reflexivity.
    + discriminate.
    + vm_compute. reflexivity.
    + vm_compute. split; [reflexivity|discriminate].
    + split; [intros text Hrec; vm_compute in Hrec; discriminate|].
      right. split; [vm_compute; reflexivity|].
      exists 1, {| returncode := 0; stdout := ""; stderr := "" |}, 0,
        {| returncode := 0; stdout := py_str 4242 +:+ newline; stderr := "" |},
        None, [].
      split; [reflexivity|]. split; [reflexivity|].
      split; [vm_compute; lia|]. vm_compute. reflexivity.
  - apply (connect_cluster_twice_spawns_once_when_recorded reachable default_config
             acme_prod1 direct_world "10.0.5.20" false 4242).
    + reflexivity.
    + reflexivity.
    + discriminate.
    + vm_compute. reflexivity.
    + vm_compute. split; [reflexivity|discriminate].
    + split.
      * intros text Hrec. unfold tunnel_record in Hrec. simpl in Hrec.
        apply lookup_singleton_Some in Hrec. destruct Hrec as [_ <-].
        split; vm_compute; reflexivity.
      * left. exists "4242"%string.
        repeat split; vm_compute; try reflexivity; discriminate.
Defined.

(** C8 as stated fails: the first call starts the tunnel process 4242,
    which runs, but the search does not see it and no record is written;
    the second call runs ssh and the search again, a second tunnel
    process 4243 runs, and no record is persisted at all. *)
Lemma connect_cluster_unseen_spawn_spawns_again :
  exists first w1 second w2,
    connect_cluster reachable default_config acme_prod1 respawn_world
      = (Returned first, w1)
    /\ success first = true
    /\ processes w1 !! 4242 = Some true
    /\ connect_cluster reachable default_config acme_prod1 w1 = (Returned second, w2)
    /\ success second = true
    /\ tunnel_pid second = None
    /\ length (invocations w2) = S (S (length (invocations w1)))
    /\ (exists search forward,
          head (invocations w2) = Some (["pgrep"; "-f"; search], None)
          /\ nth_error (invocations w2) 1
             = Some (["ssh"; "-f"; "-N"; "-o"; "ExitOnForwardFailure=yes"; "-o";
                      "ServerAliveInterval=60"; "-L"; forward; "prod1"], None))
    /\ processes w2 !! 4242 = Some true
    /\ processes w2 !! 4243 = Some true
    /\ pid_files (the_dir w2) = ∅.
Proof.
  eexists. eexists. eexists. eexists.
  split; [vm_compute; reflexivity|]. split; [reflexivity|].
  split; [vm_compute; reflexivity|]. split; [vm_compute; reflexivity|].
  split; [reflexivity|]. split; [reflexivity|]. split; [reflexivity|].
  split; [eexists; eexists; split; reflexivity|].
  split; [vm_compute; reflexivity|]. split; [vm_compute; reflexivity|].
  vm_compute. reflexivity.
Qed.

(** ** A crash during a write *)

Lemma save_tunnel_pid_effects_run context_name pid w :
  run_steps (save_tunnel_pid_effects context_name pid) w
  = save_tunnel_pid context_name pid w.
Proof.
  unfold save_tunnel_pid_effects, save_tunnel_pid.
  destruct pid as [p|]; [|reflexivity].
  destruct (p =? 0); [reflexivity|].
  unfold open_pid_file_w, write_pid_file. run. reflexivity.
Qed.

Lemma save_network_metadata_effects_run context_name nt r c v ip w :
  run_steps (save_network_metadata_effects context_name nt r c v ip) w
  = save_network_metadata context_name nt r c v ip w.
Proof.
  unfold save_network_metadata_effects, save_network_metadata.
  destruct (negb (str_truthy nt) && negb v); [reflexivity|].
  unfold open_network_file_w, yaml_safe_dump. run. reflexivity.
Qed.

(** C7, as the code has it. Writes to the state store are made in place:
    the file is opened for writing, which creates or empties it, and the
    content is written afterwards; nothing is renamed. At a crash between
    the effects of a write the record is the old one, an empty file, or the
    complete new one. An empty record file is a parse failure for its
    readers ([is_tunnel_running] returns false and deletes it,
    [get_tunnel_pid] returns [None]); an empty metadata file reads as no
    metadata. *)
Theorem state_store_writes_in_place (context_name : string) (p : Z)
    (nt r c : option string) (v : bool) (ip : option string) (w : World) (k : nat) :
  p <> 0 ->
  str_truthy nt || v = true ->
  let wp := crash_after k (save_tunnel_pid_effects context_name (Some p)) w in
  let wn := crash_after k (save_network_metadata_effects context_name nt r c v ip) w in
  (tunnel_record context_name wp = tunnel_record context_name w
   \/ (tunnel_record context_name wp = Some EmptyString
       /\ is_tunnel_running context_name wp
          = (Returned false, without_record context_name wp)
       /\ get_tunnel_pid context_name wp = (Returned None, wp))
   \/ (tunnel_record context_name wp = Some (py_str p)
       /\ wp = snd (save_tunnel_pid context_name (Some p) w)))
  /\ (network_record context_name wn = network_record context_name w
      \/ (network_record context_name wn = Some (Loads (Plain PyNone))
          /\ get_network_metadata context_name wn = (Returned (Plain PyNone), wn))
      \/ (network_record context_name wn
          = Some (Loads (Mapping (metadata_of nt r c v ip)))
          /\ wn = snd (save_network_metadata context_name nt r c v ip w))).
Proof.
  intros Hp Hreq wp wn. subst wp wn. split.
  - unfold save_tunnel_pid_effects. apply Z.eqb_neq in Hp. rewrite Hp.
    destruct k as [|[|[|k]]].
    + left. reflexivity.
    + left. reflexivity.
    + right. left.
      set (wp := crash_after 2 _ w).
      assert (Hrec : tunnel_record context_name wp = Some EmptyString).
      { subst wp. unfold crash_after, tunnel_record, open_pid_file_w. run.
        apply lookup_insert_eq. }
      split; [exact Hrec|]. split.
      * now rewrite (is_tunnel_running_record _ _ _ Hrec).
      * now rewrite (get_tunnel_pid_record _ _ _ Hrec).
    + right. right. unfold crash_after.
      replace (firstn (S (S (S k))) _) with
        (save_tunnel_pid_effects context_name (Some p))
        by (unfold save_tunnel_pid_effects; rewrite Hp; simpl; now rewrite firstn_nil).
      rewrite save_tunnel_pid_effects_run. split; [|reflexivity].
      apply Z.eqb_neq in Hp.
      destruct (save_tunnel_pid_written context_name p w Hp) as (w' & -> & Hf & _).
      unfold tunnel_record. simpl. rewrite Hf. apply lookup_insert_eq.
  - unfold save_network_metadata_effects.
    replace (negb (str_truthy nt) && negb v) with false
      by (destruct (str_truthy nt), v; simpl in *; congruence).
    destruct k as [|[|[|k]]].
    + left. reflexivity.
    + left. reflexivity.
    + right. left.
      set (wn := crash_after 2 _ w).
      assert (Hrec : network_record context_name wn = Some (Loads (Plain PyNone))).
      { subst wn. unfold crash_after, network_record, open_network_file_w. run.
        apply lookup_insert_eq. }
      split; [exact Hrec|]. now rewrite get_network_metadata_spec, Hrec.
    + right. right. unfold crash_after.
      replace (firstn (S (S (S k))) _) with
        (save_network_metadata_effects context_name nt r c v ip).
      * rewrite save_network_metadata_effects_run. split; [|reflexivity].
        destruct (save_network_metadata_writes context_name nt r c v ip w Hreq)
          as (w' & -> & Hf & _).
        unfold network_record. simpl. rewrite Hf. apply lookup_insert_eq.
      * unfold save_network_metadata_effects.
        replace (negb (str_truthy nt) && negb v) with false
          by (destruct (str_truthy nt), v; simpl in *; congruence).
        simpl. now rewrite firstn_nil.
Qed.

Lemma state_store_writes_in_place_witness :
  let wp := crash_after 2 (save_tunnel_pid_effects "acme-prod1" (Some 4242)) fresh_world in
  let wn := crash_after 2 (save_network_metadata_effects "acme-prod1" (Some "sshuttle")
                             (Some "192.168.90.0/24") None false (Some "192.168.90.10"))
              fresh_world in
  (tunnel_record "acme-prod1" wp = tunnel_record "acme-prod1" fresh_world
   \/ (tunnel_record "acme-prod1" wp = Some EmptyString
       /\ is_tunnel_running "acme-prod1" wp
          = (Returned false, without_record "acme-prod1" wp)
       /\ get_tunnel_pid "acme-prod1" wp = (Returned None, wp))
   \/ (tunnel_record "acme-prod1" wp = Some (py_str 4242)
       /\ wp = snd (save_tunnel_pid "acme-prod1" (Some 4242) fresh_world)))
  /\ (network_record "acme-prod1" wn = network_record "acme-prod1" fresh_world
      \/ (network_record "acme-prod1" wn = Some (Loads (Plain PyNone))
          /\ get_network_metadata "acme-prod1" wn = (Returned (Plain PyNone), wn))
      \/ (network_record "acme-prod1" wn
          = Some (Loads (Mapping (metadata_of (Some "sshuttle") (Some "192.168.90.0/24")
                                    None false (Some "192.168.90.10"))))
          /\ wn = snd (save_network_metadata "acme-prod1" (Some "sshuttle")
                         (Some "192.168.90.0/24") None false (Some "192.168.90.10")
                         fresh_world))).
Proof.
  apply (state_store_writes_in_place "acme-prod1" 4242 (Some "sshuttle")
           (Some "192.168.90.0/24") None false (Some "192.168.90.10") fresh_world 2).
  - lia.
  - reflexivity.
Defined.

(** C7 as stated fails: a crash after the record file of a new tunnel is
    opened and before its text is written leaves a visible, empty file,
    which is neither the absent old record nor the new one. *)
Lemma save_tunnel_pid_not_atomic :
  tunnel_record "acme-prod1"
    (crash_after 2 (save_tunnel_pid_effects "acme-prod1" (Some 4242)) fresh_world)
  = Some EmptyString
  /\ ~ atomic_record_write "acme-prod1" (Some 4242) fresh_world.
Proof.
  split; [vm_compute; reflexivity|].
  intros H. specialize (H 2%nat). vm_compute in H. destruct H; discriminate.
Qed.

(** * Further properties of the code *)

(** ** Port allocator: any range *)

Lemma py_int_hex4_value a b c d :
  0 <= a < 16 -> 0 <= b < 16 -> 0 <= c < 16 -> 0 <= d < 16 ->
  py_int 16 (String (Md5.hex_char a) (String (Md5.hex_char b)
              (String (Md5.hex_char c) (String (Md5.hex_char d) EmptyString))))
  = Some (((a * 16 + b) * 16 + c) * 16 + d).
Proof.
  intros Ha Hb Hc Hd.
  destruct (py_int_hex4 a b c d Ha Hb Hc Hd) as [n Hn]. rewrite Hn. f_equal.
  assert (Hval : forall x, 0 <= x < 16 -> digit_of (Md5.hex_char x) = x).
  { intros x Hx. pose proof (hex_char_plain x Hx) as P. unfold plain_hex_digit in P.
    do 4 (apply andb_prop in P; destruct P as [P _]).
    apply andb_prop in P. destruct P as [_ P]. unfold digit_of.
    destruct (digit_value (Md5.hex_char x)) as [v|]; [|discriminate].
    apply Z.eqb_eq in P. exact P. }
  pose proof (hex_char_plain a Ha) as Pa. pose proof (hex_char_plain b Hb) as Pb.
  unfold plain_hex_digit in Pa, Pb.
  repeat match goal with
         | H : _ && _ = true |- _ => apply andb_prop in H; destruct H
         | H : negb _ = true |- _ => apply negb_true_iff in H
         end.
  set (s := String (Md5.hex_char a) _) in Hn.
  assert (Hblank : Forall (fun ch => is_int_space ch = false) (chars s)).
  { subst s. simpl. repeat constructor; try assumption.
    - pose proof (hex_char_plain c Hc) as Pc. unfold plain_hex_digit in Pc.
      do 5 (apply andb_prop in Pc; destruct Pc as [Pc _]). now apply negb_true_iff.
    - pose proof (hex_char_plain d Hd) as Pd. unfold plain_hex_digit in Pd.
      do 5 (apply andb_prop in Pd; destruct Pd as [Pd _]). now apply negb_true_iff. }
  unfold py_int in Hn.
  rewrite (ltrim_unchanged _ _ Hblank), (rtrim_unchanged _ _ Hblank) in Hn.
  subst s. cbv beta iota in Hn.
  repeat match goal with
         | H : Ascii.eqb (Md5.hex_char a) _ = false |- _ => rewrite H in Hn; clear H
         end.
  assert (Hpre : unprefixed 16 (String (Md5.hex_char a) (String (Md5.hex_char b)
                   (String (Md5.hex_char c) (String (Md5.hex_char d) EmptyString))))
                 = String (Md5.hex_char a) (String (Md5.hex_char b)
                   (String (Md5.hex_char c) (String (Md5.hex_char d) EmptyString)))).
  { unfold unprefixed.
    repeat match goal with
           | H : Ascii.eqb (Md5.hex_char b) _ = false |- _ => rewrite H; clear H
           end.
    now rewrite andb_false_r. }
  rewrite Hpre, numeral_digits in Hn.
  - simpl in Hn. rewrite !Hval in Hn by assumption. injection Hn as <-. lia.
  - simpl. repeat constructor; now apply hex_char_digit.
  - now left.
Qed.

(** The hash part of the port is a number below 65536. *)
Lemma hash_int_bound context_name :
  exists hash_int,
    py_int 16 (substring 0 4 (Md5.hexdigest (encode context_name))) = Some hash_int
    /\ 0 <= hash_int < 65536.
Proof.
  destruct (hexdigest_head (encode context_name))
    as (a & b & c & d & rest & Ha & Hb & Hc & Hd & ->).
  simpl. replace (substring 0 0 rest) with EmptyString by now destruct rest.
  eexists. split; [now apply py_int_hex4_value|]. lia.
Qed.

(** X1. For a range of positive size the port lies in
    [start, start + size) and never more than 65535 above the start, since
    only four hexadecimal digits of the digest are used; a range of size
    zero raises [ZeroDivisionError]; with a negative size the port lies in
    (start + size, start]. *)
Theorem get_unique_port_any_range (context_name : string) (start size : Z) :
  (0 < size ->
   exists port,
     get_unique_port context_name start size = Returned port
     /\ start <= port < start + size /\ port < start + 65536)
  /\ (size = 0 -> get_unique_port context_name start size = Raised ZeroDivisionError)
  /\ (size < 0 ->
      exists port,
        get_unique_port context_name start size = Returned port
        /\ start + size < port <= start).
Proof.
  destruct (hash_int_bound context_name) as (h & Hh & Hb).
  unfold get_unique_port. rewrite Hh. repeat split.
  - intros Hs. replace (size =? 0) with false by (symmetry; apply Z.eqb_neq; lia).
    eexists. split; [reflexivity|].
    pose proof (Z.mod_pos_bound h size Hs).
    pose proof (Z.mod_le h size ltac:(lia) Hs). lia.
  - intros ->. reflexivity.
  - intros Hs. replace (size =? 0) with false by (symmetry; apply Z.eqb_neq; lia).
    eexists. split; [reflexivity|].
    pose proof (Z.mod_neg_bound h size Hs). lia.
Qed.

Lemma get_unique_port_any_range_witness :
  exists port,
    get_unique_port "my-context" 20000 5000 = Returned port
    /\ 20000 <= port < 20000 + 5000 /\ port < 20000 + 65536.
Proof.
  apply (get_unique_port_any_range "my-context" 20000 5000). lia.
Defined.

(** ** Liveness: exactness and frame *)

Lemma os_probe_delivered pid w :
  fst (os_kill pid 0 w) = Returned tt
  <-> INT_MIN <= pid <= INT_MAX /\ processes w !! pid = Some true.
Proof.
  unfold os_kill.
  destruct ((INT_MIN <=? pid) && (pid <=? INT_MAX)) eqn:Hr; simpl.
  - apply andb_prop in Hr. destruct Hr as [Hlo Hhi]. apply Z.leb_le in Hlo, Hhi.
    destruct (processes w !! pid) as [[]|]; simpl; split;
      try discriminate; try tauto; intros [_ H]; discriminate.
  - split; [discriminate|]. intros [[Hlo Hhi] _].
    apply Z.leb_le in Hlo, Hhi. rewrite Hlo, Hhi in Hr. discriminate.
Qed.



Lemma without_record_other context_name c w :
  c <> context_name ->
  tunnel_record c (without_record context_name w) = tunnel_record c w.
Proof.
  intros Hne. unfold tunnel_record, without_record. simpl.
  now apply lookup_delete_ne.
Qed.

(** The worlds [is_tunnel_running] can leave. *)
Lemma is_tunnel_running_world context_name w :
  let w' := snd (is_tunnel_running context_name w) in
  w' = w \/ w' = with_dir (Some (the_dir w)) w \/ w' = without_record context_name w.
Proof.
  destruct (tunnel_record context_name w) as [text|] eqn:Hrec.
  - rewrite (is_tunnel_running_record _ _ _ Hrec).
    destruct (py_int 10 (strip text)) as [pid|]; [|now right; right].
    pose proof (os_probe_world pid w) as Hw.
    destruct (os_kill pid 0 w) as [[[]|e|] w2]; simpl in Hw; subst w2; simpl;
      try now left.
    destruct (pid_errors e); [now right; right|now left].
  - rewrite (is_tunnel_running_absent _ _ Hrec). now right; left.
Qed.

(** X3. Whatever it returns, [is_tunnel_running] touches nothing but the
    record of its own context, which it keeps or deletes: the records of
    other contexts, the metadata files and the process table are as
    before, and no external command is run. *)
Theorem is_tunnel_running_frame (context_name : string) (w : World) :
  let w' := snd (is_tunnel_running context_name w) in
  (forall c, c <> context_name -> tunnel_record c w' = tunnel_record c w)
  /\ (tunnel_record context_name w' = tunnel_record context_name w
      \/ tunnel_record context_name w' = None)
  /\ network_files (the_dir w') = network_files (the_dir w)
  /\ processes w' = processes w
  /\ script w' = script w
  /\ invocations w' = invocations w.
Proof.
  intros w'. destruct (is_tunnel_running_world context_name w) as [H|[H|H]];
    fold w' in H; rewrite H.
  - repeat split; auto.
  - repeat split; auto.
  - split; [intros c Hc; now apply without_record_other|].
    split; [right; apply without_record_lookup|]. repeat split.
Qed.

(** X4. A recorded process that runs but may not be signalled by the
    caller is taken for dead: [is_tunnel_running] returns false and deletes
    the record, [get_tunnel_pid] returns [None]; the process stays in the
    process table. *)
Theorem unsignalable_process_taken_for_dead (context_name text : string) (pid : Z)
    (w : World) :
  tunnel_record context_name w = Some text ->
  py_int 10 (strip text) = Some pid ->
  INT_MIN <= pid <= INT_MAX ->
  processes w !! pid = Some false ->
  is_tunnel_running context_name w = (Returned false, without_record context_name w)
  /\ get_tunnel_pid context_name w = (Returned None, w)
  /\ processes (without_record context_name w) !! pid = Some false.
Proof.
  intros Hrec Hint [Hlo Hhi] Hproc.
  assert (Hk : os_kill pid 0 w = (Raised PermissionError, w)).
  { unfold os_kill. apply Z.leb_le in Hlo, Hhi. now rewrite Hlo, Hhi, Hproc. }
  repeat split.
  - now rewrite (is_tunnel_running_record _ _ _ Hrec), Hint, Hk.
  - now rewrite (get_tunnel_pid_record _ _ _ Hrec), Hint, Hk.
  - exact Hproc.
Qed.

Lemma unsignalable_process_taken_for_dead_witness :
  is_tunnel_running "acme-prod1" foreign_world
  = (Returned false, without_record "acme-prod1" foreign_world)
  /\ get_tunnel_pid "acme-prod1" foreign_world = (Returned None, foreign_world)
  /\ processes (without_record "acme-prod1" foreign_world) !! 4242 = Some false.
Proof.
  apply (unsignalable_process_taken_for_dead "acme-prod1" "4242" 4242 foreign_world);
    vm_compute; try reflexivity; split; discriminate.
Defined.



(** ** Writing a record and reading it back *)

(** X6. For a context of plain name, the identifier of a process written
    by [save_tunnel_pid] replaces whatever record the context had, leaves
    the records of other contexts alone and reads back as the same number;
    when that process runs, [get_tunnel_pid] returns it and
    [is_tunnel_running] is true. *)
Theorem save_tunnel_pid_round_trip (context_name : string) (p : Z) (w : World) :
  plain_name context_name = true ->
  0 < p <= INT_MAX ->
  processes w !! p = Some true ->
  exists w',
    save_tunnel_pid context_name (Some p) w = (Returned tt, w')
    /\ tunnel_record context_name w' = Some (py_str p)
    /\ (forall c, c <> context_name -> tunnel_record c w' = tunnel_record c w)
    /\ get_tunnel_pid context_name w' = (Returned (Some p), w')
    /\ is_tunnel_running context_name w' = (Returned true, w').
Proof.
  intros _ Hpos Hproc.
  assert (Hp : p <> 0) by lia.
  assert (Hrange : INT_MIN <= p <= INT_MAX) by (unfold INT_MIN; lia).
  destruct (save_tunnel_pid_written context_name p w Hp)
    as (w' & Hsave & Hf & Hpr & _ & _ & _).
  exists w'. split; [exact Hsave|].
  assert (Hrec : tunnel_record context_name w' = Some (py_str p))
    by (unfold tunnel_record; rewrite Hf; apply lookup_insert_eq).
  split; [exact Hrec|]. split.
  { intros c Hc. unfold tunnel_record. rewrite Hf. now apply lookup_insert_ne. }
  assert (Hk : os_kill p 0 w' = (Returned tt, w')).
  { pose proof (proj2 (os_probe_delivered p w')) as Hd. rewrite Hpr in Hd.
    specialize (Hd (conj Hrange Hproc)). pose proof (os_probe_world p w') as Hw.
    destruct (os_kill p 0 w') as [r w2]. simpl in *. now subst. }
  split.
  - now rewrite (get_tunnel_pid_record _ _ _ Hrec), int_of_str, Hk.
  - now rewrite (is_tunnel_running_record _ _ _ Hrec), int_of_str, Hk.
Qed.

Lemma save_tunnel_pid_round_trip_witness :
  exists w',
    save_tunnel_pid "acme-prod1" (Some 4242) fresh_world = (Returned tt, w')
    /\ tunnel_record "acme-prod1" w' = Some (py_str 4242)
    /\ (forall c, c <> "acme-prod1"%string ->
                  tunnel_record c w' = tunnel_record c fresh_world)
    /\ get_tunnel_pid "acme-prod1" w' = (Returned (Some 4242), w')
    /\ is_tunnel_running "acme-prod1" w' = (Returned true, w').
Proof.
  apply (save_tunnel_pid_round_trip "acme-prod1" 4242 fresh_world).
  - vm_compute. reflexivity.
  - vm_compute. split; [reflexivity|discriminate].
  - vm_compute. reflexivity.
Defined.

(** ** Killing: termination, idempotence, orphans *)

Lemma dir_present w : state_dir w <> None -> with_dir (Some (the_dir w)) w = w.
Proof.
  destruct w as [[d|] p s i]; simpl; [reflexivity|]. intros H. now destruct H.
Qed.

Lemma kill_tunnel_dir context_name w :
  state_dir (snd (kill_tunnel context_name w)) <> None.
Proof.
  destruct (tunnel_record context_name w) as [text|] eqn:Hrec.
  - rewrite (kill_tunnel_record _ _ _ Hrec).
    destruct (py_int 10 (strip text)) as [pid|]; [|discriminate].
    cbv zeta. destruct (fst (os_kill pid 15 w)) as [[]|e|];
      [|destruct (pid_errors e)|]; discriminate.
  - rewrite (kill_tunnel_absent _ _ Hrec). discriminate.
Qed.

(** X7. Once [kill_tunnel] has run for a context, whatever it found and
    whatever it returned, running it again returns without error and
    changes nothing. *)
Theorem kill_tunnel_idempotent (context_name : string) (w : World) :
  let w' := snd (kill_tunnel context_name w) in
  kill_tunnel context_name w' = (Returned tt, w').
Proof.
  intros w'. destruct (kill_tunnel_files context_name w) as [Hrec _]. fold w' in Hrec.
  rewrite (kill_tunnel_absent _ _ Hrec). f_equal.
  apply dir_present. apply kill_tunnel_dir.
Qed.

(** X8. [kill_tunnel] on a context with a sane record (a plain name, the
    identifier of one process) whose process runs and may be signalled
    ends that process, and no other, and removes the record; afterwards
    the tunnel is reported as not running. The processes of the table are
    those the program signals from outside: it is not one of them. *)
Theorem kill_tunnel_ends_live_process (context_name : string) (pid : Z) (w : World) :
  sane_record context_name w ->
  live_as context_name pid w ->
  exists w',
    kill_tunnel context_name w = (Returned tt, w')
    /\ processes w' = delete pid (processes w)
    /\ tunnel_record context_name w' = None
    /\ is_tunnel_running context_name w' = (Returned false, w').
Proof.
  intros _ (text & Hrec & Hint & [Hlo Hhi] & Hproc).
  rewrite (kill_tunnel_record _ _ _ Hrec), Hint.
  assert (Hk : os_kill pid 15 w
               = (Returned tt, with_processes (delete pid (processes w)) w)).
  { unfold os_kill. apply Z.leb_le in Hlo, Hhi. now rewrite Hlo, Hhi, Hproc. }
  cbv zeta. rewrite Hk. simpl fst. simpl snd. cbv iota.
  eexists. split; [reflexivity|]. split; [reflexivity|].
  split; [apply without_record_lookup|]. apply without_record_settled.
Qed.

Lemma kill_tunnel_ends_live_process_witness :
  exists w',
    kill_tunnel "acme-prod1" direct_world = (Returned tt, w')
    /\ processes w' = delete 4242 (processes direct_world)
    /\ tunnel_record "acme-prod1" w' = None
    /\ is_tunnel_running "acme-prod1" w' = (Returned false, w').
Proof.
  apply (kill_tunnel_ends_live_process "acme-prod1" 4242 direct_world).
  - intros text Hrec. unfold tunnel_record in Hrec. simpl in Hrec.
    apply lookup_singleton_Some in Hrec. destruct Hrec as [_ <-].
    split; vm_compute; reflexivity.
  - exists "4242"%string. repeat split; vm_compute; try reflexivity; discriminate.
Defined.

(** X9. [kill_tunnel] on a context whose recorded process runs but may not
    be signalled returns without error and removes the record, while the
    process goes on running: the tunnel is left without a record. *)
Theorem kill_tunnel_forgets_unsignalable (context_name text : string) (pid : Z)
    (w : World) :
  tunnel_record context_name w = Some text ->
  py_int 10 (strip text) = Some pid ->
  INT_MIN <= pid <= INT_MAX ->
  processes w !! pid = Some false ->
  kill_tunnel context_name w = (Returned tt, without_record context_name w)
  /\ processes (without_record context_name w) !! pid = Some false
  /\ tunnel_record context_name (without_record context_name w) = None.
Proof.
  intros Hrec Hint [Hlo Hhi] Hproc.
  assert (Hk : os_kill pid 15 w = (Raised PermissionError, w)).
  { unfold os_kill. apply Z.leb_le in Hlo, Hhi. now rewrite Hlo, Hhi, Hproc. }
  rewrite (kill_tunnel_record _ _ _ Hrec), Hint. cbv zeta. rewrite Hk. simpl.
  repeat split; [exact Hproc | apply without_record_lookup].
Qed.

Lemma kill_tunnel_forgets_unsignalable_witness :
  kill_tunnel "acme-prod1" foreign_world
  = (Returned tt, without_record "acme-prod1" foreign_world)
  /\ processes (without_record "acme-prod1" foreign_world) !! 4242 = Some false
  /\ tunnel_record "acme-prod1" (without_record "acme-prod1" foreign_world) = None.
Proof.
  apply (kill_tunnel_forgets_unsignalable "acme-prod1" "4242" 4242 foreign_world);
    vm_compute; try reflexivity; split; discriminate.
Defined.

(** ** Killing every tunnel: nothing recorded is left *)

Lemma kill_tunnel_pid_files context_name w :
  pid_files (the_dir (snd (kill_tunnel context_name w)))
  = delete context_name (pid_files (the_dir w)).
Proof.
  destruct (tunnel_record context_name w) as [text|] eqn:Hrec.
  - rewrite (kill_tunnel_record _ _ _ Hrec).
    destruct (py_int 10 (strip text)) as [pid|]; [|reflexivity].
    cbv zeta. pose proof (os_kill_files pid 15 w) as Hf.
    destruct (fst (os_kill pid 15 w)) as [[]|e|]; [|destruct (pid_errors e)|];
      simpl; now rewrite Hf.
  - rewrite (kill_tunnel_absent _ _ Hrec). simpl. symmetry. now apply delete_id.
Qed.

Lemma os_kill_processes pid sig w :
  (forall q v, processes (snd (os_kill pid sig w)) !! q = Some v ->
               processes w !! q = Some v)
  /\ (sig <> 0 -> INT_MIN <= pid <= INT_MAX -> processes w !! pid = Some true ->
      processes (snd (os_kill pid sig w)) !! pid = None).
Proof.
  unfold os_kill.
  destruct ((INT_MIN <=? pid) && (pid <=? INT_MAX)) eqn:Hr; simpl.
  - destruct (processes w !! pid) as [[]|] eqn:Hp; simpl.
    + destruct (sig =? 0) eqn:Hs; simpl.
      * split; [auto|]. intros H. apply Z.eqb_eq in Hs. contradiction.
      * split; [|intros; apply lookup_delete_eq].
        intros q v Hq. apply lookup_delete_Some in Hq. tauto.
    + split; [auto|]. discriminate.
    + split; [auto|]. discriminate.
  - split; [auto|]. intros _ [Hlo Hhi]. apply Z.leb_le in Hlo, Hhi.
    rewrite Hlo, Hhi in Hr. discriminate.
Qed.

Lemma kill_tunnel_processes context_name w :
  (forall q v, processes (snd (kill_tunnel context_name w)) !! q = Some v ->
               processes w !! q = Some v)
  /\ (forall pid, live_as context_name pid w ->
                  processes (snd (kill_tunnel context_name w)) !! pid = None).
Proof.
  destruct (tunnel_record context_name w) as [text|] eqn:Hrec.
  - rewrite (kill_tunnel_record _ _ _ Hrec).
    destruct (py_int 10 (strip text)) as [pid|] eqn:Hint.
    + cbv zeta. destruct (os_kill_processes pid 15 w) as [Hshrink Hgone].
      assert (Hsame : forall x, processes (without_record context_name x) = processes x)
        by reflexivity.
      split.
      * destruct (fst (os_kill pid 15 w)) as [[]|e|]; [|destruct (pid_errors e)|];
          simpl snd; rewrite Hsame; exact Hshrink.
      * intros p (text' & Hrec' & Hint' & Hrange & Hproc).
        assert (p = pid) as -> by congruence.
        specialize (Hgone ltac:(discriminate) Hrange Hproc).
        destruct (fst (os_kill pid 15 w)) as [[]|e|]; [|destruct (pid_errors e)|];
          simpl snd; rewrite Hsame; exact Hgone.
    + split; [auto|]. intros p (text' & Hrec' & Hint' & _). congruence.
  - rewrite (kill_tunnel_absent _ _ Hrec). split; [auto|].
    intros p (text' & Hrec' & _). congruence.
Qed.

Lemma for_each_kill_all names :
  forall w,
    NoDup names ->
    (forall c, record_fits c w) ->
    exists l w',
      for_each kill_tunnel names w = (Returned l, w')
      /\ (forall c, tunnel_record c w'
                    = if bool_decide (c ∈ names) then None else tunnel_record c w)
      /\ (forall q v, processes w' !! q = Some v -> processes w !! q = Some v)
      /\ (forall c pid, c ∈ names -> live_as c pid w -> processes w' !! pid = None).
Proof.
  induction names as [|name names IH]; intros w Hnd Hfit.
  - exists [], w. split; [reflexivity|]. split; [intros c; reflexivity|].
    split; [auto|]. intros c pid Hc. inversion Hc.
  - apply NoDup_cons in Hnd. destruct Hnd as [Hnotin Hnd].
    cbn [for_each]. unfold bind at 1.
    pose proof (kill_tunnel_returns name w (Hfit name)) as Hret.
    pose proof (kill_tunnel_pid_files name w) as Hfiles.
    destruct (kill_tunnel_processes name w) as [Hshrink Hgone].
    destruct (kill_tunnel name w) as [r w1]. simpl in *. subst r.
    assert (Hrec1 : forall c, tunnel_record c w1
                              = if bool_decide (c = name) then None else tunnel_record c w).
    { intros c. unfold tunnel_record. rewrite Hfiles. case_bool_decide as Hc.
      - subst c. apply lookup_delete_eq.
      - apply lookup_delete_ne. congruence. }
    assert (Hfit1 : forall c, record_fits c w1).
    { intros c text pid Hrec. rewrite Hrec1 in Hrec. case_bool_decide; [discriminate|].
      now apply (Hfit c). }
    destruct (IH w1 Hnd Hfit1) as (l & w' & Hrun & Hrecs & Hshrink' & Hgone').
    exists (tt :: l), w'. unfold bind. rewrite Hrun. split; [reflexivity|].
    split; [|split].
    + intros c. rewrite Hrecs, Hrec1.
      destruct (decide (c = name)) as [->|Hne].
      * rewrite (bool_decide_eq_true_2 (name ∈ name :: names)) by apply list_elem_of_here.
        now destruct (bool_decide (name ∈ names)); [|rewrite bool_decide_eq_true_2].
      * rewrite (bool_decide_eq_false_2 (c = name)) by assumption.
        destruct (decide (c ∈ names)) as [Hin|Hin].
        -- rewrite !bool_decide_eq_true_2; [reflexivity| |assumption].
           now apply list_elem_of_further.
        -- rewrite !bool_decide_eq_false_2; [reflexivity| |assumption].
           intros H. apply elem_of_cons in H. tauto.
    + intros q v Hq. apply Hshrink. now apply Hshrink'.
    + intros c pid Hc Hlive.
      assert (Hstay : processes w1 !! pid = None -> processes w' !! pid = None).
      { intros Hn. destruct (processes w' !! pid) as [v|] eqn:E; [|reflexivity].
        apply Hshrink' in E. congruence. }
      apply elem_of_cons in Hc. destruct Hc as [->|Hc].
      * apply Hstay. now apply Hgone.
      * destruct (processes w1 !! pid) as [v|] eqn:E; [|now apply Hstay].
        apply (Hgone' c pid Hc).
        destruct Hlive as (text & Hrec & Hint & Hrange & Hproc).
        exists text. split.
        { rewrite Hrec1. rewrite bool_decide_eq_false_2; [exact Hrec|].
          intros ->. contradiction. }
        split; [exact Hint|]. split; [exact Hrange|].
        pose proof (Hshrink _ _ E). congruence.
Qed.

Lemma kill_all_tunnels_full (w : World) :
  (forall c, record_fits c w) ->
  exists w',
    kill_all_tunnels w = (Returned tt, w')
    /\ (forall c, tunnel_record c w' = None)
    /\ network_files (the_dir w') = network_files (the_dir w)
    /\ (forall c pid, live_as c pid w -> processes w' !! pid = None).
Proof.
  intros Hfit. pose proof (kill_all_tunnels_keeps_metadata w) as Hnet.
  unfold kill_all_tunnels in *. destruct (state_dir w) as [d|] eqn:Hdir.
  - destruct (for_each_kill_all (glob_pid d) w) as (l & w' & Hrun & Hrecs & _ & Hgone).
    { apply NoDup_fst_map_to_list. }
    { exact Hfit. }
    unfold bind in *. rewrite Hrun in *. exists w'. split; [reflexivity|].
    assert (Hin : forall c, is_Some (tunnel_record c w) -> c ∈ glob_pid d).
    { intros c [text Hc]. unfold tunnel_record, the_dir in Hc. rewrite Hdir in Hc.
      simpl in Hc. unfold glob_pid. apply list_elem_of_fmap. exists (c, text).
      split; [reflexivity|]. now apply elem_of_map_to_list. }
    split; [|split; [exact Hnet|]].
    + intros c. rewrite Hrecs. case_bool_decide as Hc; [reflexivity|].
      destruct (tunnel_record c w) eqn:E; [|reflexivity].
      exfalso. apply Hc, Hin. now rewrite E.
    + intros c pid Hlive. apply (Hgone c pid); [|exact Hlive].
      apply Hin. destruct Hlive as (text & Hrec & _). now rewrite Hrec.
  - exists w. split; [reflexivity|]. split; [|split; [reflexivity|]].
    + intros c. unfold tunnel_record, the_dir. rewrite Hdir. apply lookup_empty.
    + intros c pid (text & Hrec & _). unfold tunnel_record, the_dir in Hrec.
      rewrite Hdir in Hrec. simpl in Hrec. rewrite lookup_empty in Hrec. discriminate.
Qed.

Lemma sane_store_fits w : sane_store w -> forall c, record_fits c w.
Proof.
  intros Hsane c text pid Hrec Hint. destruct (Hsane c text Hrec) as [_ Hs].
  unfold sane_text in Hs. rewrite Hint in Hs.
  apply andb_prop in Hs. destruct Hs as [Hs _].
  apply andb_prop in Hs. destruct Hs as [Hlo Hhi].
  apply Z.ltb_lt in Hlo. apply Z.leb_le in Hhi. unfold INT_MIN. lia.
Qed.

(** X10. When every record of the store is sane (a plain name; a text
    that is no number or the identifier of one process),
    [kill_all_tunnels] returns without error, leaves no record at all and
    leaves every metadata file in place; every recorded process that ran
    and could be signalled is gone from the process table. *)
Theorem kill_all_tunnels_clears_records (w : World) :
  sane_store w ->
  exists w',
    kill_all_tunnels w = (Returned tt, w')
    /\ (forall c, tunnel_record c w' = None)
    /\ network_files (the_dir w') = network_files (the_dir w)
    /\ (forall c pid, live_as c pid w -> processes w' !! pid = None).
Proof. intros Hsane. apply kill_all_tunnels_full. now apply sane_store_fits. Qed.

Lemma two_tunnels_sane : sane_store two_tunnels_world.
Proof.
  intros c text Hrec. unfold tunnel_record in Hrec. simpl in Hrec.
  apply lookup_insert_Some in Hrec. destruct Hrec as [[<- <-]|[_ Hrec]].
  - split; vm_compute; reflexivity.
  - apply lookup_singleton_Some in Hrec. destruct Hrec as [<- <-].
    split; vm_compute; reflexivity.
Qed.

Lemma kill_all_tunnels_clears_records_witness :
  exists w',
    kill_all_tunnels two_tunnels_world = (Returned tt, w')
    /\ (forall c, tunnel_record c w' = None)
    /\ network_files (the_dir w') = network_files (the_dir two_tunnels_world)
    /\ (forall c pid, live_as c pid two_tunnels_world -> processes w' !! pid = None).
Proof.
  apply (kill_all_tunnels_clears_records two_tunnels_world). exact two_tunnels_sane.
Defined.

Example kill_all_two_tunnels :
  processes (snd (kill_all_tunnels two_tunnels_world)) = ∅
  /\ pid_files (the_dir (snd (kill_all_tunnels two_tunnels_world))) = ∅.
Proof. vm_compute. split; reflexivity. Qed.

(** ** A connection whose spawn fails *)

Lemma create_tunnel_fails host ip lp rp w s r l rest :
  script w = Exits s r l :: rest ->
  returncode r <> 0 ->
  exists cmd,
    create_tunnel host ip lp rp w =
      (Raised (RuntimeError ("Failed to create SSH tunnel: " +:+ stderr r)),
       {| state_dir := state_dir w; processes := started l (processes w);
          script := rest; invocations := (cmd, None) :: invocations w |}).
Proof.
  intros Hs Hrc. unfold create_tunnel, bind, subprocess_run, raise.
  rewrite Hs. cbn. apply Z.eqb_neq in Hrc. rewrite Hrc. cbn.
  eexists. reflexivity.
Qed.

Lemma is_tunnel_running_keeps_metadata context_name w :
  network_files (the_dir (snd (is_tunnel_running context_name w)))
  = network_files (the_dir w).
Proof.
  destruct (is_tunnel_running_world context_name w) as [H|[H|H]];
    cbv zeta in H; now rewrite H.
Qed.

(** X11. When the ssh command exits with a non-zero status,
    [connect_cluster] reports failure with the [RuntimeError] that carries
    the error output of ssh. Exactly one external command was run (no retry
    and no search for a process id), no record is written for the context,
    and the network metadata is not written either, also for a cluster
    that has a network requirement. *)
Theorem connect_cluster_spawn_failure (env : Collaborators) (cfg : Config)
    (c : cluster) (w : World) (ip : string) (cached : bool)
    (s : Z) (r : completed) (l : option Z) (rest : list behaviour) :
  load_ssh_config env (host_alias c) = Returned tt ->
  kubeconfig_of env (company c) (host_alias c) = Returned (ip, cached) ->
  PORT_RANGE_SIZE cfg <> 0 ->
  fst (is_tunnel_running (context_of c) w) = Returned false ->
  script w = Exits s r l :: rest ->
  returncode r <> 0 ->
  exists result w',
    connect_cluster env cfg c w = (Returned result, w')
    /\ success result = false
    /\ error result = Some (RuntimeError ("Failed to create SSH tunnel: " +:+ stderr r))
    /\ tunnel_pid result = None
    /\ tunnel_record (context_of c) w' = None
    /\ network_files (the_dir w') = network_files (the_dir w)
    /\ script w' = rest
    /\ length (invocations w') = S (length (invocations w)).
Proof.
  intros Hssh Hk Hsize Hrun Hs Hrc.
  destruct (port_defined (context_of c) (PORT_RANGE_START cfg) (PORT_RANGE_SIZE cfg) Hsize)
    as [port Hport].
  rewrite connect_cluster_unfold. unfold preparation. rewrite Hssh, Hk, Hport.
  cbv beta iota. simpl fst.
  unfold setup_tunnel, bind at 1.
  pose proof (is_tunnel_running_keeps_metadata (context_of c) w) as Hnet.
  destruct (is_tunnel_running (context_of c) w) as [b w1] eqn:Hr.
  simpl in Hrun, Hnet. subst b.
  destruct (is_tunnel_running_false _ _ _ Hr) as (Hrec & _ & Hscript & Hinv).
  rewrite <- Hscript in Hs.
  destruct (create_tunnel_fails (host_alias c) ip port (TARGET_PORT cfg) w1 s r l rest
              Hs Hrc) as [cmd Hc].
  cbv beta iota. unfold bind. rewrite Hc.
  eexists. eexists. split; [reflexivity|]. cbn.
  repeat split; try assumption. now rewrite Hinv.
Qed.

Lemma connect_cluster_spawn_failure_witness :
  exists result w',
    connect_cluster reachable default_config acme_lab refused_world = (Returned result, w')
    /\ success result = false
    /\ error result
       = Some (RuntimeError ("Failed to create SSH tunnel: "
                             +:+ "ssh: connect to host lab port 22: Connection refused"))
    /\ tunnel_pid result = None
    /\ tunnel_record (context_of acme_lab) w' = None
    /\ network_files (the_dir w') = network_files (the_dir refused_world)
    /\ script w' = []
    /\ length (invocations w') = S (length (invocations refused_world)).
Proof.
  apply (connect_cluster_spawn_failure reachable default_config acme_lab refused_world
           "10.0.5.20" false 1
           {| returncode := 255; stdout := "";
              stderr := "ssh: connect to host lab port 22: Connection refused" |} None []).
  - reflexivity.
  - reflexivity.
  - discriminate.
  - vm_compute. reflexivity.
  - reflexivity.
  - discriminate.
Defined.

(** ** The batch: every selected cluster is attempted *)

Lemma steady_ret {A} (a : A) : steady (ret a).
Proof. intros w H. cbn. split; [discriminate|assumption]. Qed.

Lemma steady_raise {A} (e : exception) : steady (@raise A e).
Proof. intros w H. cbn. split; [discriminate|assumption]. Qed.

Lemma steady_lift {A} (o : outcome A) : o <> Blocked -> steady (lift o).
Proof. intros Ho w H. cbn. split; assumption. Qed.

Lemma steady_bind {A B} (c : M A) (k : A -> M B) :
  steady c -> (forall a, steady (k a)) -> steady (bind c k).
Proof.
  intros Hc Hk w H. unfold bind. destruct (Hc w H) as [Hb Hs].
  destruct (c w) as [[a|e|] w1]; simpl in Hb, Hs.
  - apply Hk, Hs.
  - split; [discriminate|assumption].
  - contradiction.
Qed.

Lemma steady_try_except {A} (body : M A) catches (handler : M A) :
  steady body -> steady handler -> steady (try_except body catches handler).
Proof.
  intros Hb Hh w H. unfold try_except. destruct (Hb w H) as [Hn Hs].
  destruct (body w) as [[a|e|] w1]; simpl in Hn, Hs.
  - split; [discriminate|assumption].
  - destruct (catches e).
    + apply Hh, Hs.
    + split; [discriminate|assumption].
  - contradiction.
Qed.

Lemma steady_quiet {A} (m : M A) :
  (forall w, fst (m w) <> Blocked /\ script (snd (m w)) = script w) -> steady m.
Proof. intros Hm w H. destruct (Hm w) as [Hb Hs]. rewrite Hs. split; assumption. Qed.

Lemma steady_subprocess_run cmd timeout : steady (subprocess_run cmd timeout).
Proof.
  intros w H. unfold subprocess_run, never_hangs in *.
  destruct (script w) as [|[s r l| |] rest] eqn:Hs; cbn.
  - split; [discriminate|constructor].
  - apply Forall_cons in H. destruct H as [_ H].
    destruct timeout as [t|]; [destruct (t <? s)|]; cbn; (split; [discriminate|assumption]).
  - apply Forall_cons in H. destruct H as [H _]. contradiction.
  - apply Forall_cons in H. destruct H as [_ H]. split; [discriminate|assumption].
Qed.

Lemma steady_os_kill pid sig : steady (os_kill pid sig).
Proof.
  intros w H. unfold os_kill. repeat case_match; (split; [discriminate|exact H]).
Qed.

Ltac quiet prim :=
  let w := fresh "w" in let H := fresh "H" in
  intros w H; unfold prim; repeat case_match; (split; [discriminate|exact H]).

Lemma steady_mkdir : steady mkdir.
Proof. quiet mkdir. Qed.

Lemma steady_pid_file_exists c : steady (pid_file_exists c).
Proof. quiet pid_file_exists. Qed.

Lemma steady_read_pid_file c : steady (read_pid_file c).
Proof. quiet read_pid_file. Qed.

Lemma steady_unlink_pid_file c : steady (unlink_pid_file c).
Proof. quiet unlink_pid_file. Qed.

Lemma steady_open_pid_file_w c : steady (open_pid_file_w c).
Proof. quiet open_pid_file_w. Qed.

Lemma steady_write_pid_file c text : steady (write_pid_file c text).
Proof. quiet write_pid_file. Qed.

Lemma steady_open_network_file_w c : steady (open_network_file_w c).
Proof. quiet open_network_file_w. Qed.

Lemma steady_yaml_safe_dump c m : steady (yaml_safe_dump c m).
Proof. quiet yaml_safe_dump. Qed.

Lemma steady_int_of text : steady (int_of text).
Proof. unfold int_of. destruct (py_int 10 text); [apply steady_ret|apply steady_raise]. Qed.

Create HintDb steady.
#[local] Hint Resolve steady_ret steady_raise steady_subprocess_run steady_os_kill
  steady_mkdir steady_pid_file_exists steady_read_pid_file steady_unlink_pid_file
  steady_open_pid_file_w steady_write_pid_file steady_open_network_file_w
  steady_yaml_safe_dump steady_int_of : steady.

(** Steadiness follows the shape of the code. *)
Ltac steady_step :=
  match goal with
  | |- steady (bind _ _) => apply steady_bind; [|intros ?]
  | |- steady (try_except _ _ _) => apply steady_try_except
  | |- steady (if ?b then _ else _) => destruct b
  | |- steady (match ?x with _ => _ end) => destruct x
  | |- steady _ => solve [auto with steady]
  end.

Lemma steady_is_tunnel_running context_name : steady (is_tunnel_running context_name).
Proof. unfold is_tunnel_running, get_tunnel_pid_file. repeat steady_step. Qed.

Lemma steady_create_tunnel host ip lp rp : steady (create_tunnel host ip lp rp).
Proof. unfold create_tunnel, sleep. repeat steady_step. Qed.

Lemma steady_save_tunnel_pid context_name pid : steady (save_tunnel_pid context_name pid).
Proof. unfold save_tunnel_pid, get_tunnel_pid_file. repeat steady_step. Qed.

Lemma steady_save_network_metadata context_name t r cmd v ip :
  steady (save_network_metadata context_name t r cmd v ip).
Proof.
  unfold save_network_metadata, get_network_metadata_file. repeat steady_step.
Qed.

Lemma steady_save_cluster_metadata c context_name ip :
  steady (save_cluster_metadata c context_name ip).
Proof.
  unfold save_cluster_metadata.
  destruct (str_truthy (network_type c) || needs_vpn c);
    [apply steady_save_network_metadata|apply steady_ret].
Qed.

#[local] Hint Resolve steady_is_tunnel_running steady_create_tunnel steady_save_tunnel_pid
  steady_save_cluster_metadata : steady.

Lemma steady_setup_tunnel cfg c context_name port ip :
  steady (setup_tunnel cfg c context_name port ip).
Proof. unfold setup_tunnel. repeat steady_step. Qed.

(** A cluster whose collaborators answer is connected or reported as
    failed; [connect_cluster] raises nothing, and the result bears the
    name of the context of the cluster. *)
Lemma connect_cluster_answers env cfg c w :
  answers env c -> never_hangs (script w) ->
  exists result w',
    connect_cluster env cfg c w = (Returned result, w')
    /\ never_hangs (script w')
    /\ context_name result = context_of c.
Proof.
  intros [Hssh Hk] H. unfold connect_cluster, fetch_and_merge_kubeconfig.
  unfold bind at 1. unfold lift at 1.
  destruct (load_ssh_config env (host_alias c)) as [[]|e|]; [|eauto 6|contradiction].
  unfold bind at 1. unfold lift at 1.
  destruct (kubeconfig_of env (company c) (host_alias c)) as [[ip cached]|e|];
    [|eauto 6|contradiction].
  unfold bind at 1. unfold lift at 1.
  destruct (get_unique_port _ _ _) as [port|e|] eqn:Hp; [|eauto 6|].
  2:{ unfold get_unique_port in Hp. repeat case_match; discriminate. }
  cbn [ret fst snd].
  destruct (steady_setup_tunnel cfg c (company c +:+ "-" +:+ host_alias c) port ip w H)
    as [Hb Hs].
  destruct (setup_tunnel _ _ _ _ _ w) as [[pid|e|] w2]; simpl in Hb, Hs.
  - eauto 6.
  - eauto 6.
  - contradiction.
Qed.

Lemma connect_selected_answers env cfg selected : forall w,
  Forall (answers env) selected -> never_hangs (script w) ->
  exists results w',
    connect_selected env cfg selected w = (Returned results, w')
    /\ never_hangs (script w')
    /\ map fst results = selected
    /\ Forall (fun r => context_name (snd r) = context_of (fst r)) results.
Proof.
  unfold connect_selected.
  induction selected as [|c rest IH]; intros w Hall H.
  - exists [], w. cbn. repeat split; [assumption|constructor].
  - apply Forall_cons in Hall. destruct Hall as [Hc Hrest].
    destruct (connect_cluster_answers env cfg c w Hc H) as (r & w1 & Hr & H1 & Hname).
    destruct (IH w1 Hrest H1) as (rs & w2 & Hrs & H2 & Hmap & Hnames).
    exists ((c, r) :: rs), w2. cbn [for_each]. unfold bind at 1. unfold bind at 1.
    rewrite Hr. unfold ret at 1. unfold bind at 1. rewrite Hrs. unfold ret.
    repeat split; [assumption|cbn; now rewrite Hmap|].
    constructor; assumption.
Qed.

(** X12. The loop of [main] attempts every selected cluster: when the
    collaborators answer (or raise) for each of them and no external
    command hangs, the loop returns one result per selected cluster, in
    the order of the selection, each bearing the context name of its
    cluster. A cluster that fails does not end the batch. *)
Theorem connect_selected_attempts_all (env : Collaborators) (cfg : Config)
    (selected : list cluster) (w : World) :
  Forall (answers env) selected ->
  never_hangs (script w) ->
  exists results w',
    connect_selected env cfg selected w = (Returned results, w')
    /\ map fst results = selected
    /\ Forall (fun r => context_name (snd r) = context_of (fst r)) results.
Proof.
  intros Hall H.
  destruct (connect_selected_answers env cfg selected w Hall H)
    as (results & w' & Hr & _ & Hmap & Hnames).
  eauto.
Qed.

Lemma reachable_answers c : answers reachable c.
Proof. split; discriminate. Qed.

Lemma batch_world_never_hangs : never_hangs (script batch_world).
Proof. repeat constructor; discriminate. Qed.

Lemma connect_selected_attempts_all_witness :
  exists results w',
    connect_selected reachable default_config [acme_lab; acme_prod1] batch_world
      = (Returned results, w')
    /\ map fst results = [acme_lab; acme_prod1]
    /\ Forall (fun r => context_name (snd r) = context_of (fst r)) results.
Proof.
  apply (connect_selected_attempts_all reachable default_config [acme_lab; acme_prod1]
           batch_world).
  - repeat constructor; discriminate.
  - exact batch_world_never_hangs.
Defined.

Example batch_of_two :
  map (fun r => success (snd r))
    (match fst (connect_selected reachable default_config [acme_lab; acme_prod1] batch_world)
     with Returned results => results | _ => [] end)
  = [false; true].
Proof. vm_compute. reflexivity. Qed.

(** ** The batch: how it ends *)

Lemma connect_cluster_name env cfg c w :
  (forall e, fst (connect_cluster env cfg c w) <> Raised e)
  /\ (forall result, fst (connect_cluster env cfg c w) = Returned result ->
        context_name result = context_of c).
Proof.
  unfold connect_cluster.
  destruct ((lift (load_ssh_config env (host_alias c)) ;;
             fetch_and_merge_kubeconfig env (company c) (host_alias c)
               (PORT_RANGE_START cfg) (PORT_RANGE_SIZE cfg)) w)
    as [[[[[ctx port] ip] cached]|e|] w1].
  - destruct (setup_tunnel cfg c ctx port ip w1) as [[pid|e|] w2]; cbn;
      (split; [discriminate|]); intros result [= <-]; reflexivity.
  - cbn. split; [discriminate|]. intros result [= <-]. reflexivity.
  - cbn. split; [discriminate|]. discriminate.
Qed.

Lemma connect_selected_results env cfg selected : forall w,
  match fst (connect_selected env cfg selected w) with
  | Returned results =>
      map fst results = selected
      /\ Forall (fun r => context_name (snd r) = context_of (fst r)) results
  | Raised _ => False
  | Blocked => True
  end.
Proof.
  unfold connect_selected.
  induction selected as [|c rest IH]; intros w.
  - cbn. split; constructor.
  - cbn [for_each]. unfold bind at 1. unfold bind at 1.
    destruct (connect_cluster_name env cfg c w) as [Hn Hname].
    destruct (connect_cluster env cfg c w) as [[r|e|] w1]; simpl in Hn, Hname.
    + unfold ret at 1. unfold bind at 1.
      specialize (IH w1).
      destruct (for_each _ rest w1) as [[rs|e|] w2]; simpl in IH.
      * cbn. destruct IH as [Hmap Hnames].
        split; [now rewrite Hmap|]. constructor; [now apply Hname|assumption].
      * contradiction.
      * exact I.
    + now destruct (Hn e).
    + exact I.
Qed.

Lemma filter_nil_iff {A} (f : A -> bool) (l : list A) :
  List.filter f l = [] <-> Forall (fun x => f x = false) l.
Proof.
  induction l as [|x l IH]; cbn.
  - split; [constructor|reflexivity].
  - destruct (f x) eqn:Hx.
    + split; [discriminate|]. intros H. apply Forall_cons in H. destruct H as [H _].
      congruence.
    + rewrite IH. split; [now constructor|]. intros H. now apply Forall_cons in H.
Qed.

Lemma filter_first {A} (f : A -> bool) (l : list A) (x : A) (rest : list A) :
  List.filter f l = x :: rest ->
  exists before after,
    l = before ++ x :: after
    /\ Forall (fun y => f y = false) before
    /\ f x = true.
Proof.
  induction l as [|y l IH]; cbn; [discriminate|].
  destruct (f y) eqn:Hy.
  - intros [= -> _]. exists [], l. repeat split; [constructor|assumption].
  - intros H. destruct (IH H) as (before & after & -> & Hb & Hx).
    exists (y :: before), after. repeat split; [now constructor|assumption].
Qed.

Lemma set_current_context_runs context_name w :
  invocations (snd (set_current_context context_name w))
  = (["kubectl"; "config"; "use-context"; context_name], None) :: invocations w
  /\ state_dir (snd (set_current_context context_name w)) = state_dir w
  /\ match script w with
     | Exits _ result _ :: _ =>
         fst (set_current_context context_name w) = Returned (returncode result =? 0)
     | Hangs :: _ => fst (set_current_context context_name w) = Blocked
     | _ => fst (set_current_context context_name w) = Raised FileNotFoundError
     end.
Proof.
  unfold set_current_context, subprocess_run_check, bind, subprocess_run.
  destruct (script w) as [|[s r l| |] rest]; cbn; try (repeat split; reflexivity).
  destruct (returncode r =? 0); cbn; repeat split; reflexivity.
Qed.

(** X13. [set_current_context] runs one command,
    [kubectl config use-context <name>], without a time limit, and does
    not touch the state directory. It returns [True] exactly when the
    command exits with status 0; when no [kubectl] is found it raises
    [FileNotFoundError] (only [CalledProcessError] is caught), and when
    the command never ends neither does the call. *)
Theorem set_current_context_outcomes (context_name : string) (w : World) :
  invocations (snd (set_current_context context_name w))
  = (["kubectl"; "config"; "use-context"; context_name], None) :: invocations w
  /\ state_dir (snd (set_current_context context_name w)) = state_dir w
  /\ match script w with
     | Exits _ result _ :: _ =>
         fst (set_current_context context_name w) = Returned (returncode result =? 0)
     | Hangs :: _ => fst (set_current_context context_name w) = Blocked
     | _ => fst (set_current_context context_name w) = Raised FileNotFoundError
     end.
Proof. apply set_current_context_runs. Qed.

(** X14. How the batch of [main] ends. The results are those of the
    selected clusters in order. It exits with status 1 exactly when no
    cluster was connected. Otherwise the context made current is that of
    the first selected cluster whose connection succeeded, whatever came
    before it having failed, and the last command run is
    [kubectl config use-context] for that context. *)
Theorem connect_batch_activates_first_connected (env : Collaborators) (cfg : Config)
    (selected : list cluster) (w : World)
    (results : list (cluster * connection)) (ending : batch_end) (w' : World) :
  connect_batch env cfg selected w = (Returned (results, ending), w') ->
  map fst results = selected
  /\ (ending = Exit 1 <-> Forall (fun r => success (snd r) = false) results)
  /\ (forall ctx ok reminders,
        ending = Activated ctx ok reminders ->
        exists before c r after,
          results = before ++ (c, r) :: after
          /\ Forall (fun r => success (snd r) = false) before
          /\ success r = true
          /\ ctx = context_of c
          /\ head (invocations w')
             = Some (["kubectl"; "config"; "use-context"; context_of c], None)).
Proof.
  unfold connect_batch. unfold bind at 1.
  pose proof (connect_selected_results env cfg selected w) as Hres.
  destruct (connect_selected env cfg selected w) as [[rs|e|] w1]; [|discriminate..].
  simpl in Hres. destruct Hres as [Hmap Hnames].
  unfold successful.
  destruct (List.filter (fun r => success (snd r)) rs) as [|first others] eqn:Hf.
  - cbn. intros [= <- <- <-]. split; [assumption|]. split.
    + split; [intros _; now apply filter_nil_iff|reflexivity].
    + discriminate.
  - destruct (filter_first _ _ _ _ Hf) as (before & after & Hrs & Hbefore & Hfirst).
    unfold bind at 1.
    destruct (set_current_context_runs (context_name (snd first)) w1) as (Hinv & _ & _).
    destruct (set_current_context (context_name (snd first)) w1) as [[ok|e|] w2];
      [|discriminate..].
    cbn. intros [= <- <- <-]. simpl in Hinv. split; [assumption|]. split.
    + split; [discriminate|]. intros Hall. apply filter_nil_iff in Hall. congruence.
    + intros ctx ok' reminders [= <- <- <-].
      destruct first as [c r]. exists before, c, r, after.
      assert (context_name r = context_of c) as Hname.
      { rewrite Hrs in Hnames. apply Forall_app in Hnames. destruct Hnames as [_ Hn].
        apply Forall_cons in Hn. now destruct Hn. }
      simpl in Hinv, Hfirst. rewrite Hname in Hinv. rewrite Hinv.
      repeat split; assumption.
Qed.

Lemma connect_batch_activates_first_connected_witness :
  match connect_batch reachable default_config [acme_lab; acme_prod1] batch_world with
  | (Returned (results, ending), w') =>
      map fst results = [acme_lab; acme_prod1]
      /\ (ending = Exit 1 <-> Forall (fun r => success (snd r) = false) results)
      /\ (forall ctx ok reminders,
            ending = Activated ctx ok reminders ->
            exists before c r after,
              results = before ++ (c, r) :: after
              /\ Forall (fun r => success (snd r) = false) before
              /\ success r = true
              /\ ctx = context_of c
              /\ head (invocations w')
                 = Some (["kubectl"; "config"; "use-context"; context_of c], None))
  | _ => False
  end.
Proof.
  destruct (connect_batch reachable default_config [acme_lab; acme_prod1] batch_world)
    as [[[results ending]|e|] w'] eqn:H.
  - exact (connect_batch_activates_first_connected reachable default_config
             [acme_lab; acme_prod1] batch_world results ending w' H).
  - vm_compute in H. discriminate.
  - vm_compute in H. discriminate.
Defined.

Example batch_of_two_ends :
  match fst (connect_batch reachable default_config [acme_lab; acme_prod1] batch_world) with
  | Returned (_, ending) => ending = Activated "acme-prod1" true []
  | _ => False
  end.
Proof. vm_compute. reflexivity. Qed.

(** X15. An error that ends the batch of [main] comes from switching the
    context and from nowhere else. When the batch raises, every selected
    cluster has been attempted and has its result, at least one cluster
    is connected, the error is the one [set_current_context] raised for
    the first connected context (a [FileNotFoundError] when [kubectl] is
    not installed, for one), and the state directory is as the
    connections left it. *)
Theorem connect_batch_raises_at_activation (env : Collaborators) (cfg : Config)
    (selected : list cluster) (w : World) (e : exception) :
  fst (connect_batch env cfg selected w) = Raised e ->
  exists results w1 first,
    connect_selected env cfg selected w = (Returned results, w1)
    /\ map fst results = selected
    /\ head (successful results) = Some first
    /\ success (snd first) = true
    /\ fst (set_current_context (context_name (snd first)) w1) = Raised e
    /\ state_dir (snd (connect_batch env cfg selected w)) = state_dir w1.
Proof.
  unfold connect_batch. unfold bind at 1 3.
  pose proof (connect_selected_results env cfg selected w) as Hres.
  destruct (connect_selected env cfg selected w) as [[rs|e'|] w1]; simpl in Hres;
    [|contradiction|discriminate].
  destruct Hres as [Hmap _]. unfold successful.
  destruct (List.filter (fun r => success (snd r)) rs) as [|first others] eqn:Hf;
    [discriminate|].
  destruct (filter_first _ _ _ _ Hf) as (before & after & Hrs & _ & Hfirst).
  unfold bind.
  destruct (set_current_context_runs (context_name (snd first)) w1) as (_ & Hdir & _).
  destruct (set_current_context (context_name (snd first)) w1) as [[ok|e'|] w2] eqn:Hset;
    simpl in Hdir |- *; [discriminate| |discriminate].
  intros [= ->]. exists rs, w1, first.
  split; [reflexivity|]. split; [exact Hmap|]. split; [now rewrite Hf|].
  split; [exact Hfirst|]. split; [now rewrite Hset|exact Hdir].
Qed.

Lemma connect_batch_raises_at_activation_witness :
  exists results w1 first,
    connect_selected reachable default_config [acme_prod1] no_kubectl_world
      = (Returned results, w1)
    /\ map fst results = [acme_prod1]
    /\ head (successful results) = Some first
    /\ success (snd first) = true
    /\ fst (set_current_context (context_name (snd first)) w1) = Raised FileNotFoundError
    /\ state_dir (snd (connect_batch reachable default_config [acme_prod1]
                         no_kubectl_world)) = state_dir w1.
Proof.
  apply (connect_batch_raises_at_activation reachable default_config [acme_prod1]
           no_kubectl_world FileNotFoundError).
  vm_compute. reflexivity.
Defined.

(** ** The reminders of the batch *)

Lemma network_reminders_from (connected : list (cluster * connection)) :
  forall reminders,
    NoDup reminders ->
    let result :=
      fold_left
        (fun reminders r =>
           if bool_decide (network_type (fst r) = Some "sshuttle") then
             let sshuttle_cmd := sshuttle_reminder (fst r) in
             if bool_decide (sshuttle_cmd ∈ reminders) then reminders
             else reminders ++ [sshuttle_cmd]
           else reminders)
        connected reminders in
    NoDup result
    /\ (forall cmd,
          cmd ∈ result <->
          cmd ∈ reminders
          \/ exists r, r ∈ connected /\ network_type (fst r) = Some "sshuttle"
                       /\ cmd = sshuttle_reminder (fst r))
    /\ exists added, result = reminders ++ added.
Proof.
  induction connected as [|r rest IH]; intros reminders Hnd; cbv zeta.
  - cbn. split; [assumption|]. split.
    + intros cmd. split; [now left|]. intros [H|(r & Hr & _)]; [assumption|].
      now apply elem_of_nil in Hr.
    + exists []. now rewrite app_nil_r.
  - cbn [fold_left]. case_bool_decide as Ht.
    + cbv zeta. case_bool_decide as Hin.
      * destruct (IH reminders Hnd) as (Hn & Hmem & Hext). cbv zeta in Hn, Hmem, Hext.
        split; [assumption|]. split; [|assumption].
        intros cmd. rewrite Hmem. split.
        -- intros [H|(r' & Hr' & Ht' & Hc)]; [now left|].
           right. exists r'. split; [now apply list_elem_of_further|]. now split.
        -- intros [H|(r' & Hr' & Ht' & Hc)]; [now left|].
           apply elem_of_cons in Hr'. destruct Hr' as [->|Hr'].
           ++ left. now subst cmd.
           ++ right. exists r'. now repeat split.
      * assert (NoDup (reminders ++ [sshuttle_reminder (fst r)])) as Hnd'.
        { apply NoDup_app. split; [assumption|]. split.
          - intros x Hx Hx'. apply list_elem_of_singleton in Hx'. now subst x.
          - apply NoDup_singleton. }
        destruct (IH _ Hnd') as (Hn & Hmem & added & Hext). cbv zeta in Hn, Hmem, Hext.
        split; [assumption|]. split.
        -- intros cmd. rewrite Hmem. rewrite elem_of_app, list_elem_of_singleton. split.
           ++ intros [[H|H]|(r' & Hr' & Ht' & Hc)].
              ** now left.
              ** right. exists r. split; [apply list_elem_of_here|]. now split.
              ** right. exists r'. split; [now apply list_elem_of_further|]. now split.
           ++ intros [H|(r' & Hr' & Ht' & Hc)]; [now left; left|].
              apply elem_of_cons in Hr'. destruct Hr' as [->|Hr'].
              ** left. now right.
              ** right. exists r'. now repeat split.
        -- exists ([sshuttle_reminder (fst r)] ++ added). rewrite Hext.
           now rewrite <- app_assoc.
    + destruct (IH reminders Hnd) as (Hn & Hmem & Hext). cbv zeta in Hn, Hmem, Hext.
      split; [assumption|]. split; [|assumption].
      intros cmd. rewrite Hmem. split.
      * intros [H|(r' & Hr' & Ht' & Hc)]; [now left|].
        right. exists r'. split; [now apply list_elem_of_further|]. now split.
      * intros [H|(r' & Hr' & Ht' & Hc)]; [now left|].
        apply elem_of_cons in Hr'. destruct Hr' as [->|Hr']; [contradiction|].
        right. exists r'. now repeat split.
Qed.

(** X16. The reminders [main] shows after the batch name each sshuttle
    command once: the list has no duplicates, and a command is in it
    exactly when some connected cluster is of network type [sshuttle] and
    the command is the one for its network range. Clusters that only need
    a VPN add nothing. *)
Theorem network_reminders_distinct_and_complete (connected : list (cluster * connection)) :
  NoDup (network_reminders connected)
  /\ (forall cmd,
        cmd ∈ network_reminders connected <->
        exists r, r ∈ connected /\ network_type (fst r) = Some "sshuttle"
                  /\ cmd = sshuttle_reminder (fst r)).
Proof.
  destruct (network_reminders_from connected [] NoDup_nil_2) as (Hn & Hmem & _).
  cbv zeta in Hn, Hmem. split; [exact Hn|].
  intros cmd. unfold network_reminders. rewrite Hmem. split.
  - intros [H|H]; [now apply elem_of_nil in H|assumption].
  - intros H. now right.
Qed.

(** ** Network validation, further *)

(** What [check_sshuttle_active] runs, whatever the world scripts. *)
Lemma check_sshuttle_active_runs (network_range : pyvalue) (w : World) :
  exists b log,
    fst (check_sshuttle_active network_range w) = Returned b
    /\ invocations (snd (check_sshuttle_active network_range w)) = log ++ invocations w
    /\ (log = [(["pgrep"; "-f"; "sshuttle.*" +:+ format network_range], Some 2)]
        \/ log = [(["pgrep"; "-f"; "sshuttle"], Some 2);
                  (["pgrep"; "-f"; "sshuttle.*" +:+ format network_range], Some 2)])
    /\ state_dir (snd (check_sshuttle_active network_range w)) = state_dir w.
Proof.
  unfold check_sshuttle_active, try_except, bind, subprocess_run, ret.
  destruct (script w) as [|[s1 r1 l1| |] rest] eqn:Hs; cbn.
  - eexists. eexists. split; [reflexivity|]. split; [|split; [left; reflexivity|reflexivity]].
    reflexivity.
  - destruct (2 <? s1); cbn.
    + eexists. eexists. split; [reflexivity|].
      split; [|split; [left; reflexivity|reflexivity]]. reflexivity.
    + destruct (found r1); cbn.
      * eexists. eexists. split; [reflexivity|].
        split; [|split; [left; reflexivity|reflexivity]]. reflexivity.
      * destruct rest as [|[s2 r2 l2| |] rest']; cbn;
          try (eexists; eexists; split; [reflexivity|];
               split; [|split; [right; reflexivity|reflexivity]]; reflexivity).
        destruct (2 <? s2); cbn;
          [|destruct (found r2); cbn];
          (eexists; eexists; split; [reflexivity|];
           split; [|split; [right; reflexivity|reflexivity]]; reflexivity).
  - eexists. eexists. split; [reflexivity|]. split; [|split; [left; reflexivity|reflexivity]].
    reflexivity.
  - eexists. eexists. split; [reflexivity|]. split; [|split; [left; reflexivity|reflexivity]].
    reflexivity.
Qed.

Lemma check_sshuttle_active_cut_short network_range w :
  cut_short 2 (script w) ->
  fst (check_sshuttle_active network_range w) = Returned false
  /\ invocations (snd (check_sshuttle_active network_range w))
     = (["pgrep"; "-f"; "sshuttle.*" +:+ format network_range], Some 2) :: invocations w.
Proof.
  intros Hcut. unfold check_sshuttle_active, try_except, bind, subprocess_run, ret.
  destruct (script w) as [|[s1 r1 l1| |] rest]; cbn; try (split; reflexivity).
  simpl in Hcut. apply Z.ltb_lt in Hcut. rewrite Hcut. cbn. split; reflexivity.
Qed.

Lemma check_sshuttle_active_second_cut_short network_range w b rest :
  script w = b :: rest ->
  finds_nothing b = true ->
  cut_short 2 rest ->
  fst (check_sshuttle_active network_range w) = Returned false.
Proof.
  intros Hs Hb Hcut. destruct b as [s1 r1 l1| |]; try discriminate.
  simpl in Hb. apply andb_prop in Hb. destruct Hb as [T1 F1].
  apply negb_true_iff in F1. apply Z.leb_le in T1.
  unfold check_sshuttle_active, try_except, bind, subprocess_run, ret.
  rewrite Hs. cbn.
  destruct (2 <? s1) eqn:E1; [apply Z.ltb_lt in E1; lia|].
  rewrite F1. cbn.
  destruct rest as [|[s2 r2 l2| |] rest']; cbn; try reflexivity.
  simpl in Hcut. apply Z.ltb_lt in Hcut. now rewrite Hcut.
Qed.

(** X17. [check_sshuttle_active] waits at most two seconds for each probe
    and takes a probe that cannot be had for "no sshuttle". It runs the
    probe for the range and at most one more, the probe for any sshuttle
    process, each with a time limit of two seconds, and leaves the state
    directory alone. When the first probe is missing, never ends or
    overruns the limit, the result is False and the second probe is not
    run; when the first probe finds nothing and the second is missing,
    never ends or overruns, the result is False as well. *)
Theorem check_sshuttle_active_bounded (network_range : pyvalue) (w : World) :
  (exists log,
     invocations (snd (check_sshuttle_active network_range w)) = log ++ invocations w
     /\ (log = [(["pgrep"; "-f"; "sshuttle.*" +:+ format network_range], Some 2)]
         \/ log = [(["pgrep"; "-f"; "sshuttle"], Some 2);
                   (["pgrep"; "-f"; "sshuttle.*" +:+ format network_range], Some 2)]))
  /\ state_dir (snd (check_sshuttle_active network_range w)) = state_dir w
  /\ (cut_short 2 (script w) ->
      fst (check_sshuttle_active network_range w) = Returned false
      /\ invocations (snd (check_sshuttle_active network_range w))
         = (["pgrep"; "-f"; "sshuttle.*" +:+ format network_range], Some 2)
           :: invocations w)
  /\ (forall b rest,
        script w = b :: rest ->
        finds_nothing b = true ->
        cut_short 2 rest ->
        fst (check_sshuttle_active network_range w) = Returned false).
Proof.
  destruct (check_sshuttle_active_runs network_range w) as (b & log & _ & Hlog & Hshape & Hdir).
  split; [now exists log|]. split; [exact Hdir|]. split.
  - apply check_sshuttle_active_cut_short.
  - intros b' rest. apply check_sshuttle_active_second_cut_short.
Qed.

Lemma check_sshuttle_active_bounded_witness :
  (fst (check_sshuttle_active (PyStr "192.168.90.0/24") unreachable_cluster_world)
   = Returned false
   /\ invocations (snd (check_sshuttle_active (PyStr "192.168.90.0/24")
                          unreachable_cluster_world))
      = (["pgrep"; "-f"; "sshuttle.*" +:+ format (PyStr "192.168.90.0/24")], Some 2)
        :: invocations unreachable_cluster_world)
  /\ fst (check_sshuttle_active (PyStr "192.168.90.0/24") stuck_probe_world)
     = Returned false.
Proof.
  split.
  - apply (proj1 (proj2 (proj2 (check_sshuttle_active_bounded (PyStr "192.168.90.0/24")
                                  unreachable_cluster_world)))).
    exact I.
  - apply (proj2 (proj2 (proj2 (check_sshuttle_active_bounded (PyStr "192.168.90.0/24")
                                  stuck_probe_world))) pgrep_no_match [Hangs]).
    + reflexivity.
    + reflexivity.
    + exact I.
Defined.

Lemma check_sshuttle_active_generic network_range w b1 b2 rest :
  script w = b1 :: b2 :: rest ->
  finds_nothing b1 = true -> finds_some b2 = true ->
  fst (check_sshuttle_active network_range w) = Returned true.
Proof.
  intros Hs H1 H2.
  destruct b1 as [s1 r1 l1| |]; try discriminate.
  destruct b2 as [s2 r2 l2| |]; try discriminate.
  simpl in H1, H2. apply andb_prop in H1, H2.
  destruct H1 as [T1 F1], H2 as [T2 F2].
  apply negb_true_iff in F1. apply Z.leb_le in T1, T2.
  unfold check_sshuttle_active, try_except, bind, subprocess_run, ret.
  rewrite Hs. cbn.
  destruct (2 <? s1) eqn:E1; [apply Z.ltb_lt in E1; lia|].
  rewrite F1. cbn.
  destruct (2 <? s2) eqn:E2; [apply Z.ltb_lt in E2; lia|].
  rewrite F2. reflexivity.
Qed.

(** X18. Any sshuttle process satisfies every sshuttle requirement: for
    metadata of type [sshuttle], whatever its network range, when no
    process matches the range but the probe for any sshuttle process finds
    one, [validate_context_network] reports the network as valid, without
    a warning. *)
Theorem any_sshuttle_satisfies_every_range (context_name : string) (w : World)
    (m : gmap string pyvalue) (b1 b2 : behaviour) (rest : list behaviour) :
  network_record context_name w = Some (Loads (Mapping m)) ->
  truthy (dict_get m "needs_vpn") = false ->
  m !! "network_type" = Some (PyStr "sshuttle") ->
  script w = b1 :: b2 :: rest ->
  finds_nothing b1 = true ->
  finds_some b2 = true ->
  fst (validate_context_network context_name w) = Returned (true, None).
Proof.
  intros Hrec Hvpn Htype Hs H1 H2.
  unfold validate_context_network, bind.
  rewrite get_network_metadata_spec, Hrec.
  rewrite (lookup_nonempty _ _ _ Htype). cbn. rewrite Hvpn.
  unfold dict_get at 1. rewrite Htype. cbn.
  pose proof (check_sshuttle_active_generic (dict_get m "network_range") w b1 b2 rest
                Hs H1 H2) as Hc.
  destruct (check_sshuttle_active (dict_get m "network_range") w) as [o w1].
  simpl in Hc. subst o. reflexivity.
Qed.

Lemma any_sshuttle_satisfies_every_range_witness :
  fst (validate_context_network "acme-prod1" other_route_world) = Returned (true, None).
Proof.
  apply (any_sshuttle_satisfies_every_range "acme-prod1" other_route_world
           sshuttle_metadata pgrep_no_match (pgrep_finds 777) []).
  - vm_compute. reflexivity.
  - vm_compute. reflexivity.
  - vm_compute. reflexivity.
  - reflexivity.
  - vm_compute. reflexivity.
  - vm_compute. reflexivity.
Defined.

(** X19. Metadata files that hold no requirement mapping. A file that
    cannot be loaded, and a file whose document is empty or otherwise
    false (an empty file, an empty mapping), count as no requirement:
    the result is (valid, no warning) and no command is run. A file whose
    document is true but no mapping (a list, a string, a number) makes
    [validate_context_network] raise [AttributeError]. *)
Theorem validate_context_network_malformed (context_name : string) (w : World) :
  (network_record context_name w = Some Unloadable ->
   validate_context_network context_name w = (Returned (true, None), w))
  /\ (forall d,
        network_record context_name w = Some (Loads d) ->
        doc_truthy d = false ->
        validate_context_network context_name w = (Returned (true, None), w))
  /\ (forall v,
        network_record context_name w = Some (Loads (Plain v)) ->
        truthy v = true ->
        validate_context_network context_name w = (Raised AttributeError, w)).
Proof.
  unfold validate_context_network, bind. rewrite get_network_metadata_spec.
  split; [|split].
  - intros ->. reflexivity.
  - intros d -> Hd. now rewrite Hd.
  - intros v -> Hv. cbn. now rewrite Hv.
Qed.

Lemma validate_context_network_malformed_witness :
  validate_context_network "acme-prod1" malformed_world
    = (Returned (true, None), malformed_world)
  /\ validate_context_network "acme-prod2" malformed_world
    = (Returned (true, None), malformed_world)
  /\ validate_context_network "acme-prod3" malformed_world
    = (Raised AttributeError, malformed_world).
Proof.
  split; [|split].
  - apply (validate_context_network_malformed "acme-prod1" malformed_world).
    vm_compute. reflexivity.
  - apply (validate_context_network_malformed "acme-prod2" malformed_world) with
      (d := Plain PyNone); vm_compute; reflexivity.
  - apply (validate_context_network_malformed "acme-prod3" malformed_world) with
      (v := PyOpaque "['sshuttle']" true); vm_compute; reflexivity.
Defined.

(** ** From the stored requirement to the warning *)




(** ** The status listing *)

Lemma live_as_agree c pid w w1 :
  tunnel_record c w1 = tunnel_record c w ->
  processes w1 = processes w ->
  live_as c pid w1 <-> live_as c pid w.
Proof.
  intros Hrec Hproc. unfold live_as. rewrite Hrec, Hproc. reflexivity.
Qed.

Lemma live_agree c w w1 :
  tunnel_record c w1 = tunnel_record c w ->
  processes w1 = processes w ->
  live c w1 <-> live c w.
Proof.
  intros Hrec Hproc. unfold live. split; intros [pid H]; exists pid;
    now apply (live_as_agree c pid w w1 Hrec Hproc).
Qed.

Lemma live_as_functional c pid pid' w :
  live_as c pid w -> live_as c pid' w -> pid = pid'.
Proof.
  intros (t & Hr & Hi & _) (t' & Hr' & Hi' & _). congruence.
Qed.

(** What the two liveness readers make of a context whose record, if it
    holds a number, holds one in the range of process identifiers. *)
Lemma liveness_cases context_name w :
  record_fits context_name w ->
  (exists pid,
     live_as context_name pid w
     /\ is_tunnel_running context_name w = (Returned true, w)
     /\ get_tunnel_pid context_name w = (Returned (Some pid), w))
  \/ (~ live context_name w
      /\ exists w1,
           is_tunnel_running context_name w = (Returned false, w1)
           /\ pid_files (the_dir w1) = delete context_name (pid_files (the_dir w))
           /\ network_files (the_dir w1) = network_files (the_dir w)
           /\ processes w1 = processes w).
Proof.
  intros Hfit.
  destruct (tunnel_record context_name w) as [text|] eqn:Hrec.
  - rewrite (is_tunnel_running_record _ _ _ Hrec), (get_tunnel_pid_record _ _ _ Hrec).
    destruct (py_int 10 (strip text)) as [pid|] eqn:Hint.
    + pose proof (Hfit text pid Hrec Hint) as Hrange.
      pose proof (os_probe_world pid w) as Hw.
      pose proof (os_probe_delivered pid w) as Hd.
      destruct (os_kill pid 0 w) as [[[]|e|] w2] eqn:Hk; simpl in Hw, Hd; subst w2.
      * left. exists pid. split; [|split; reflexivity].
        exists text. destruct Hd as [Hd _]. destruct (Hd eq_refl) as [_ Hp]. auto.
      * right.
        assert (pid_errors e = true) as He.
        { unfold os_kill in Hk.
          destruct Hrange as [Hlo Hhi]. apply Z.leb_le in Hlo, Hhi.
          rewrite Hlo, Hhi in Hk. simpl in Hk.
          destruct (processes w !! pid) as [[]|]; inversion Hk; reflexivity. }
        rewrite He. split.
        -- intros (pid' & text' & Hrec' & Hint' & Hrange' & Hp').
           assert (pid' = pid) as -> by congruence.
           destruct Hd as [_ Hd]. specialize (Hd (conj Hrange' Hp')). discriminate.
        -- exists (without_record context_name w). now repeat split.
      * unfold os_kill in Hk. repeat case_match; discriminate.
    + right. split.
      * intros (pid' & text' & Hrec' & Hint' & _). congruence.
      * exists (without_record context_name w). now repeat split.
  - right. rewrite (is_tunnel_running_absent _ _ Hrec). split.
    + intros (pid' & text' & Hrec' & _). congruence.
    + exists (with_dir (Some (the_dir w)) w). split; [reflexivity|].
      split; [|now split]. simpl. symmetry. now apply delete_id.
Qed.

(** One turn of the loop of the listing, in full. *)
Lemma describe_context_accurate context_name w :
  record_fits context_name w ->
  exists info w',
    describe_context context_name w = (Returned info, w')
    /\ ctx_name info = context_name
    /\ entry_accurate info w
    /\ processes w' = processes w
    /\ network_files (the_dir w') = network_files (the_dir w)
    /\ (forall c, c <> context_name -> tunnel_record c w' = tunnel_record c w)
    /\ (forall text, tunnel_record context_name w' = Some text <->
                     tunnel_record context_name w = Some text /\ live context_name w).
Proof.
  intros Hfit. unfold describe_context, bind at 1.
  destruct (default_port context_name) as (port & Hport & Hrange).
  destruct (liveness_cases context_name w Hfit)
    as [(pid & Hlive & Hrun & Hpid)|(Hdead & w1 & Hrun & Hfiles & Hnet & Hproc)].
  - rewrite Hrun. cbv beta iota. unfold bind, get_tunnel_port, lift.
    rewrite Hpid, Hport, get_network_metadata_spec. unfold ret.
    eexists. eexists. split; [reflexivity|]. simpl.
    split; [reflexivity|]. split.
    { split; [|split]; simpl.
      - split; [intros _; now exists pid|reflexivity].
      - intros pid'. split.
        + now intros [= <-].
        + intros H. f_equal. exact (live_as_functional _ _ _ _ Hlive H).
      - exact Hrange. }
    split; [reflexivity|]. split; [reflexivity|]. split; [reflexivity|].
    intros text. split; [|now intros [H _]].
    intros H. split; [exact H|now exists pid].
  - rewrite Hrun. cbv beta iota. unfold bind, get_tunnel_port, lift, ret.
    rewrite Hport, get_network_metadata_spec.
    eexists. eexists. split; [reflexivity|]. simpl.
    split; [reflexivity|]. split.
    { split; [|split]; simpl.
      - split; [discriminate|]. intros H. contradiction.
      - intros pid'. split; [discriminate|]. intros H. destruct Hdead. now exists pid'.
      - exact Hrange. }
    split; [assumption|]. split; [assumption|]. split.
    + intros c Hne. unfold tunnel_record. rewrite Hfiles. now apply lookup_delete_ne.
    + intros text. unfold tunnel_record at 1. rewrite Hfiles, lookup_delete_eq.
      split; [discriminate|]. intros [_ H]. contradiction.
Qed.

Lemma entry_accurate_agree e w w1 :
  tunnel_record (ctx_name e) w1 = tunnel_record (ctx_name e) w ->
  processes w1 = processes w ->
  entry_accurate e w1 -> entry_accurate e w.
Proof.
  intros Hrec Hproc (Hrun & Hpid & Hport). split; [|split; [|exact Hport]].
  - now rewrite <- (live_agree _ w w1 Hrec Hproc).
  - intros pid. now rewrite <- (live_as_agree _ pid w w1 Hrec Hproc).
Qed.

Lemma for_each_describe_accurate names :
  NoDup names ->
  forall w,
    (forall c, record_fits c w) ->
    exists infos w',
      for_each describe_context names w = (Returned infos, w')
      /\ map ctx_name infos = names
      /\ Forall (fun info => entry_accurate info w) infos
      /\ processes w' = processes w
      /\ network_files (the_dir w') = network_files (the_dir w)
      /\ (forall c, c ∉ names -> tunnel_record c w' = tunnel_record c w)
      /\ (forall c text, c ∈ names ->
            tunnel_record c w' = Some text <-> tunnel_record c w = Some text /\ live c w).
Proof.
  induction names as [|name names IH]; intros Hnd w Hfit.
  - exists [], w. split; [reflexivity|]. split; [reflexivity|]. split; [constructor|].
    split; [reflexivity|]. split; [reflexivity|]. split; [reflexivity|].
    intros c text H. now apply elem_of_nil in H.
  - apply NoDup_cons in Hnd. destruct Hnd as [Hfresh Hnd].
    destruct (describe_context_accurate name w (Hfit name))
      as (info & w1 & Hd & Hname & Hacc & Hproc & Hnet & Hother & Hown).
    assert (Hfit1 : forall c, record_fits c w1).
    { intros c text pid Hrec. apply (Hfit c).
      destruct (decide (c = name)) as [->|Hne].
      - now apply Hown in Hrec.
      - now rewrite <- (Hother c Hne). }
    destruct (IH Hnd w1 Hfit1)
      as (infos & w2 & Hrest & Hnames & Hall & Hproc2 & Hnet2 & Hout & Hin).
    exists (info :: infos), w2. cbn [for_each]. unfold bind. rewrite Hd, Hrest. unfold ret.
    split; [reflexivity|]. split; [cbn; now rewrite Hname, Hnames|].
    split; [|split; [congruence|split; [congruence|split]]].
    + constructor; [exact Hacc|].
      apply Forall_forall. intros i Hi.
      assert (ctx_name i ∈ names) as Hmem.
      { rewrite <- Hnames. apply list_elem_of_fmap. now exists i. }
      assert (ctx_name i <> name) as Hne by (intros Heq; now rewrite Heq in Hmem).
      rewrite Forall_forall in Hall.
      apply (entry_accurate_agree i w w1 (Hother _ Hne) Hproc). now apply Hall.
    + intros c Hc. apply not_elem_of_cons in Hc. destruct Hc as [Hne Hc].
      rewrite (Hout c Hc). now apply Hother.
    + intros c text Hc. apply elem_of_cons in Hc.
      destruct (decide (c = name)) as [->|Hne].
      * rewrite (Hout name Hfresh). apply Hown.
      * destruct Hc as [Hc|Hc]; [contradiction|].
        rewrite (Hin c text Hc), (Hother c Hne).
        now rewrite (live_agree c w w1 (Hother c Hne) Hproc).
Qed.

#[local] Instance name_le_total : Total name_le.
Proof. intros a b. apply String.leb_total. Qed.

Lemma glob_pid_lists d c : c ∈ glob_pid d <-> is_Some (pid_files d !! c).
Proof.
  unfold glob_pid. rewrite list_elem_of_fmap. split.
  - intros [[c' v] [-> Hin]]. apply elem_of_map_to_list in Hin. now exists v.
  - intros [v Hv]. exists (c, v). split; [reflexivity|]. now apply elem_of_map_to_list.
Qed.

(** The listing, in full, for records that hold a valid process id or
    none. *)
Lemma list_all_contexts_full w :
  (forall c, record_fits c w) ->
  exists entries w',
    list_all_contexts w = (Returned entries, w')
    /\ Sorted name_le entries
    /\ NoDup (map ctx_name entries)
    /\ (forall c, c ∈ map ctx_name entries <-> is_Some (tunnel_record c w))
    /\ (forall e, e ∈ entries -> entry_accurate e w)
    /\ (forall c text,
          tunnel_record c w' = Some text <-> tunnel_record c w = Some text /\ live c w)
    /\ processes w' = processes w
    /\ network_files (the_dir w') = network_files (the_dir w).
Proof.
  intros Hfit. unfold list_all_contexts.
  destruct (state_dir w) as [d|] eqn:Hdir.
  - assert (NoDup (glob_pid d)) as Hnd by apply NoDup_fst_map_to_list.
    assert (forall c, c ∈ glob_pid d <-> is_Some (tunnel_record c w)) as Hglob.
    { intros c. rewrite glob_pid_lists. unfold tunnel_record, the_dir. now rewrite Hdir. }
    destruct (for_each_describe_accurate (glob_pid d) Hnd w Hfit)
      as (infos & w' & Hrun & Hnames & Hall & Hproc & Hnet & Hout & Hin).
    exists (merge_sort name_le infos), w'. unfold bind. rewrite Hrun. unfold ret.
    split; [reflexivity|]. split; [apply Sorted_merge_sort, _|].
    split; [|split; [|split; [|split; [|split; assumption]]]].
    + rewrite (merge_sort_Permutation name_le infos). now rewrite Hnames.
    + intros c. rewrite (merge_sort_Permutation name_le infos), Hnames. apply Hglob.
    + intros e He. rewrite (merge_sort_Permutation name_le infos) in He.
      rewrite Forall_forall in Hall. now apply Hall.
    + intros c text. destruct (decide (c ∈ glob_pid d)) as [Hc|Hc].
      * now apply Hin.
      * rewrite (Hout c Hc). split; [|tauto]. intros H. exfalso. apply Hc, Hglob.
        now exists text.
  - exists [], w. split; [reflexivity|]. split; [constructor|]. split; [constructor|].
    assert (forall c, tunnel_record c w = None) as Hnone.
    { intros c. unfold tunnel_record, the_dir. now rewrite Hdir. }
    split; [|split; [|split; [|split; reflexivity]]].
    + intros c. rewrite Hnone. split; [intros H; now apply elem_of_nil in H|].
      intros [x Hx]. discriminate.
    + intros e He. now apply elem_of_nil in He.
    + intros c text. rewrite Hnone. split; [discriminate|]. now intros [H _].
Qed.

(** X21. The status listing tells the truth and heals the store. When
    every record of the store is sane (a plain name; a text that is no
    number or the identifier of one process), [list_all_contexts] returns
    one entry per recorded context, sorted by name and without
    repetition. An entry reports the tunnel as running exactly when the
    context is live, with the process id of the live tunnel and a port of
    the default range. Afterwards exactly the records of the live
    contexts are left; processes and network metadata are untouched. *)
Theorem list_all_contexts_accurate (w : World) :
  sane_store w ->
  exists entries w',
    list_all_contexts w = (Returned entries, w')
    /\ Sorted name_le entries
    /\ NoDup (map ctx_name entries)
    /\ (forall c, c ∈ map ctx_name entries <-> is_Some (tunnel_record c w))
    /\ (forall e, e ∈ entries -> entry_accurate e w)
    /\ (forall c text,
          tunnel_record c w' = Some text <-> tunnel_record c w = Some text /\ live c w)
    /\ processes w' = processes w
    /\ network_files (the_dir w') = network_files (the_dir w).
Proof. intros Hsane. apply list_all_contexts_full. now apply sane_store_fits. Qed.

Lemma mixed_world_sane : sane_store mixed_world.
Proof.
  intros c text Hrec. unfold tunnel_record in Hrec. simpl in Hrec.
  apply lookup_insert_Some in Hrec. destruct Hrec as [[<- <-]|[_ Hrec]].
  - split; vm_compute; reflexivity.
  - apply lookup_insert_Some in Hrec. destruct Hrec as [[<- <-]|[_ Hrec]].
    + split; vm_compute; reflexivity.
    + apply lookup_singleton_Some in Hrec. destruct Hrec as [<- <-].
      split; vm_compute; reflexivity.
Qed.

Lemma list_all_contexts_accurate_witness :
  exists entries w',
    list_all_contexts mixed_world = (Returned entries, w')
    /\ Sorted name_le entries
    /\ NoDup (map ctx_name entries)
    /\ (forall c, c ∈ map ctx_name entries <-> is_Some (tunnel_record c mixed_world))
    /\ (forall e, e ∈ entries -> entry_accurate e mixed_world)
    /\ (forall c text,
          tunnel_record c w' = Some text
          <-> tunnel_record c mixed_world = Some text /\ live c mixed_world)
    /\ processes w' = processes mixed_world
    /\ network_files (the_dir w') = network_files (the_dir mixed_world).
Proof.
  apply (list_all_contexts_accurate mixed_world). exact mixed_world_sane.
Defined.

Example listing_of_mixed_world :
  map (fun e => (ctx_name e, ctx_tunnel_running e, ctx_tunnel_pid e))
    (match fst (list_all_contexts mixed_world) with Returned l => l | _ => [] end)
  = [("acme-prod1"%string, true, Some 4242); ("beta-lab"%string, false, None);
     ("zeta-db"%string, false, None)]
  /\ pid_files (the_dir (snd (list_all_contexts mixed_world))) = {["acme-prod1" := "4242"]}.
Proof. vm_compute. split; reflexivity. Qed.

(** X22. In a store of sane records a context whose tunnel is gone shows
    up in one more listing and then no longer: after a first
    [list_all_contexts], a second one returns entries for exactly the
    contexts that were live, all reported as running, and changes no
    record. *)
Theorem second_listing_shows_live_only (w : World) :
  sane_store w ->
  exists first w1 second w2,
    list_all_contexts w = (Returned first, w1)
    /\ list_all_contexts w1 = (Returned second, w2)
    /\ (forall c, c ∈ map ctx_name second <-> live c w)
    /\ (forall e, e ∈ second -> ctx_tunnel_running e = true)
    /\ (forall c, tunnel_record c w2 = tunnel_record c w1).
Proof.
  intros Hsane. pose proof (sane_store_fits w Hsane) as Hfit.
  destruct (list_all_contexts_full w Hfit)
    as (first & w1 & H1 & _ & _ & _ & _ & Hrec1 & Hproc1 & _).
  assert (Hlive1 : forall c, live c w1 <-> live c w).
  { intros c. split.
    - intros (pid & text & Hr & _). now apply Hrec1 in Hr.
    - intros Hl. pose proof Hl as (pid & text & Hr & Hrest).
      assert (tunnel_record c w1 = Some text) as Hr1 by (apply Hrec1; now split).
      exists pid, text. rewrite Hr1, Hproc1. now split. }
  assert (Hfit1 : forall c, record_fits c w1).
  { intros c text pid Hr. apply (Hfit c). now apply Hrec1 in Hr. }
  destruct (list_all_contexts_full w1 Hfit1)
    as (second & w2 & H2 & _ & _ & Hnames2 & Hacc2 & Hrec2 & _ & _).
  exists first, w1, second, w2. split; [exact H1|]. split; [exact H2|].
  split; [|split].
  - intros c. rewrite Hnames2. split.
    + intros [text Hr]. now apply Hrec1 in Hr.
    + intros Hl. pose proof Hl as (pid & text & Hr & _). exists text.
      apply Hrec1. now split.
  - intros e He. destruct (Hacc2 e He) as (Hrun & _). apply Hrun.
    assert (ctx_name e ∈ map ctx_name second) as Hmem
      by (apply list_elem_of_fmap; now exists e).
    apply Hnames2 in Hmem. destruct Hmem as [text Hr].
    apply Hlive1. now apply Hrec1 in Hr.
  - intros c. destruct (tunnel_record c w1) as [text|] eqn:Hr.
    + apply Hrec2. split; [exact Hr|]. apply Hlive1. now apply Hrec1 in Hr.
    + destruct (tunnel_record c w2) as [text|] eqn:Hr2; [|reflexivity].
      apply Hrec2 in Hr2. destruct Hr2 as [Hr2 _]. congruence.
Qed.

Lemma second_listing_shows_live_only_witness :
  exists first w1 second w2,
    list_all_contexts mixed_world = (Returned first, w1)
    /\ list_all_contexts w1 = (Returned second, w2)
    /\ (forall c, c ∈ map ctx_name second <-> live c mixed_world)
    /\ (forall e, e ∈ second -> ctx_tunnel_running e = true)
    /\ (forall c, tunnel_record c w2 = tunnel_record c w1).
Proof.
  apply (second_listing_shows_live_only mixed_world). exact mixed_world_sane.
Defined.

(** X23. In a store of sane records, after [kill_all_tunnels] the status
    listing is empty, while the network metadata files of the contexts
    are still in the state directory. *)
Theorem listing_after_kill_all_is_empty (w : World) :
  sane_store w ->
  exists w1 w2,
    kill_all_tunnels w = (Returned tt, w1)
    /\ list_all_contexts w1 = (Returned [], w2)
    /\ network_files (the_dir w2) = network_files (the_dir w).
Proof.
  intros Hsane. pose proof (sane_store_fits w Hsane) as Hfit.
  destruct (kill_all_tunnels_full w Hfit) as (w1 & Hkill & Hnone & Hnet & _).
  assert (Hfit1 : forall c, record_fits c w1).
  { intros c text pid Hrec. rewrite Hnone in Hrec. discriminate. }
  destruct (list_all_contexts_full w1 Hfit1)
    as (entries & w2 & Hlist & _ & _ & Hnames & _ & _ & _ & Hnet2).
  exists w1, w2. split; [exact Hkill|]. split; [|congruence].
  destruct entries as [|e rest]; [exact Hlist|].
  exfalso. destruct (proj1 (Hnames (ctx_name e))) as [text Htext].
  - apply list_elem_of_here.
  - rewrite Hnone in Htext. discriminate.
Qed.

Lemma listing_after_kill_all_is_empty_witness :
  exists w1 w2,
    kill_all_tunnels two_tunnels_world = (Returned tt, w1)
    /\ list_all_contexts w1 = (Returned [], w2)
    /\ network_files (the_dir w2) = network_files (the_dir two_tunnels_world).
Proof.
  apply (listing_after_kill_all_is_empty two_tunnels_world). exact two_tunnels_sane.
Defined.

(** ** Names and ports *)

(** X24. The port allocator is not injective: there are two context
    names that are given the same port whatever the range, so that the
    status shows one port for both. *)
Theorem get_unique_port_collides :
  exists a b : string,
    a <> b
    /\ (forall start size, get_unique_port a start size = get_unique_port b start size)
    /\ (forall w, fst (get_tunnel_port a w) = fst (get_tunnel_port b w)).
Proof.
  exists "acme-prod553"%string, "acme-prod640"%string.
  assert (Ha : py_int 16 (substring 0 4 (Md5.hexdigest (encode "acme-prod553"))) = Some 59524)
    by (vm_compute; reflexivity).
  assert (Hb : py_int 16 (substring 0 4 (Md5.hexdigest (encode "acme-prod640"))) = Some 59524)
    by (vm_compute; reflexivity).
  split; [discriminate|].
  assert (forall start size,
            get_unique_port "acme-prod553" start size
            = get_unique_port "acme-prod640" start size) as Hsame.
  { intros start size. unfold get_unique_port. now rewrite Ha, Hb. }
  split; [exact Hsame|].
  intros w. unfold get_tunnel_port, lift. simpl. apply Hsame.
Qed.

Lemma append_hyphen_injective (a b x y : string) :
  no_hyphen a -> no_hyphen b ->
  a +:+ "-" +:+ x = b +:+ "-" +:+ y -> a = b /\ x = y.
Proof.
  unfold no_hyphen. revert b.
  induction a as [|ca a IH]; intros [|cb b] Ha Hb Heq; simpl in *.
  - injection Heq as Heq. now split.
  - injection Heq as Hc Heq. subst cb. destruct Hb. apply list_elem_of_here.
  - injection Heq as Hc Heq. subst ca. destruct Ha. apply list_elem_of_here.
  - injection Heq as Hc Heq. subst cb.
    destruct (IH b) as [-> ->]; [| |exact Heq|now split].
    + intros H. apply Ha. now apply list_elem_of_further.
    + intros H. apply Hb. now apply list_elem_of_further.
Qed.

(** X25. The context name [{company}-{host_alias}] tells clusters apart
    as long as company names hold no hyphen: two clusters of such
    companies with the same context name have the same company and the
    same host. With a hyphen in a company name two different clusters can
    share a context name, and with it the record, the port and the
    metadata file. *)
Theorem context_of_injective_without_hyphen :
  (forall c1 c2 : cluster,
     no_hyphen (company c1) -> no_hyphen (company c2) ->
     context_of c1 = context_of c2 ->
     company c1 = company c2 /\ host_alias c1 = host_alias c2)
  /\ (exists c1 c2 : cluster,
        company c1 <> company c2 /\ context_of c1 = context_of c2).
Proof.
  split.
  - intros c1 c2 H1 H2 Heq. unfold context_of in Heq.
    now apply append_hyphen_injective.
  - exists acme_west_1, acme_west__1. split; [discriminate|reflexivity].
Qed.

Lemma context_of_injective_without_hyphen_witness :
  company acme_lab = company acme_lab /\ host_alias acme_lab = host_alias acme_lab.
Proof.
  apply (proj1 context_of_injective_without_hyphen acme_lab acme_lab);
    [| |reflexivity].
  - unfold no_hyphen. vm_compute. intros H.
    repeat (apply elem_of_cons in H; destruct H as [H|H]; [discriminate|]).
    now apply elem_of_nil in H.
  - unfold no_hyphen. vm_compute. intros H.
    repeat (apply elem_of_cons in H; destruct H as [H|H]; [discriminate|]).
    now apply elem_of_nil in H.
Defined.

(** ** What [create_tunnel] can raise *)

Lemma split_from_token tok s : tok <> EmptyString -> split_from tok s <> [].
Proof.
  revert tok. induction s as [|c s IH]; intros tok Htok; simpl.
  - destruct tok; [contradiction|discriminate].
  - destruct (is_space c).
    + destruct tok; [contradiction|discriminate].
    + apply IH. destruct tok; discriminate.
Qed.

Lemma ltrim_head blank s c r : ltrim blank s = String c r -> blank c = false.
Proof.
  induction s as [|c' s IH]; simpl; [discriminate|].
  destruct (blank c') eqn:Hb; [exact IH|]. now intros [= <- _].
Qed.

Lemma rtrim_head blank c r :
  blank c = false -> exists r', rtrim blank (String c r) = String c r'.
Proof.
  intros Hb. simpl. destruct (rtrim blank r); [rewrite Hb|]; eauto.
Qed.

Lemma split_strip_nonempty s : nonempty (strip s) = true -> split (strip s) <> [].
Proof.
  unfold strip. destruct (ltrim is_space s) as [|c r] eqn:Hl; [discriminate|].
  intros _. destruct (rtrim_head is_space c r (ltrim_head _ _ _ _ Hl)) as [r' ->].
  unfold split. simpl. rewrite (ltrim_head _ _ _ _ Hl).
  apply split_from_token. discriminate.
Qed.

Lemma create_tunnel_outcomes ssh_host internal_ip local_port remote_port w :
  exists o w',
    create_tunnel ssh_host internal_ip local_port remote_port w = (o, w')
    /\ (forall e, o = Raised e ->
          e = FileNotFoundError \/ e = ValueError \/ exists msg, e = RuntimeError msg)
    /\ exists log,
         invocations w' = log ++ invocations w
         /\ (1 <= length log <= 2)%nat
         /\ Forall (fun i => snd i = None) log.
Proof.
  unfold create_tunnel, bind at 1. unfold subprocess_run at 1.
  destruct (script w) as [|[s r l| |] rest] eqn:Hs.
  1,3,4: eexists; eexists; split; [reflexivity|]; split; [intros e [= <-]; auto|];
    eexists [_]; cbn; split; [reflexivity|split; [lia|repeat constructor]].
  destruct (returncode r =? 0) eqn:Hrc; cbn [negb].
  - unfold sleep, bind, ret, subprocess_run. cbn [script tail invocations processes].
    destruct rest as [|[s2 r2 l2| |] rest'].
    1,3,4: eexists; eexists; split; [reflexivity|]; split; [intros e [= <-]; auto|];
      eexists [_; _]; cbn; split; [reflexivity|split; [lia|repeat constructor]].
    destruct ((returncode r2 =? 0) && nonempty (strip (stdout r2))) eqn:Hfound.
    + apply andb_prop in Hfound. destruct Hfound as [_ Hne].
      pose proof (split_strip_nonempty (stdout r2) Hne) as Hsplit.
      destruct (split (strip (stdout r2))) as [|first others]; [contradiction|].
      unfold int_of. destruct (py_int 10 first);
        (eexists; eexists; split; [reflexivity|]; split;
         [|eexists [_; _]; cbn; split; [reflexivity|split; [lia|repeat constructor]]]);
        [discriminate|intros e [= <-]; auto].
    + eexists; eexists; split; [reflexivity|]. split; [discriminate|].
      eexists [_; _]; cbn; split; [reflexivity|split; [lia|repeat constructor]].
  - eexists; eexists; split; [reflexivity|]. split.
    + intros e [= <-]. right. right. eauto.
    + eexists [_]; cbn; split; [reflexivity|split; [lia|repeat constructor]].
Qed.

(** X26. Taking the first word of what [pgrep] printed never fails:
    whenever the answer passes the guard of [create_tunnel] (status 0 and
    an output that is not blank), the stripped output splits into at
    least one word, and so [create_tunnel] never raises [IndexError]. *)
Theorem create_tunnel_never_index_error :
  (forall r : completed,
     found r = true ->
     exists first others, split (strip (stdout r)) = first :: others)
  /\ (forall (ssh_host internal_ip : string) (local_port remote_port : Z) (w : World),
        fst (create_tunnel ssh_host internal_ip local_port remote_port w)
        <> Raised IndexError).
Proof.
  split.
  - intros r Hfound. unfold found in Hfound. apply andb_prop in Hfound.
    destruct Hfound as [_ Hne]. pose proof (split_strip_nonempty (stdout r) Hne) as Hsplit.
    destruct (split (strip (stdout r))) as [|first others]; [contradiction|eauto].
  - intros ssh_host internal_ip local_port remote_port w.
    destruct (create_tunnel_outcomes ssh_host internal_ip local_port remote_port w)
      as (o & w' & -> & Hraise & _).
    simpl. intros ->. destruct (Hraise IndexError eq_refl) as [H|[H|[msg H]]]; discriminate.
Qed.

Lemma create_tunnel_never_index_error_witness :
  exists first others,
    split (strip (stdout {| returncode := 0; stdout := py_str 4242 +:+ newline;
                            stderr := "" |}))
    = first :: others.
Proof.
  apply (proj1 create_tunnel_never_index_error
           {| returncode := 0; stdout := py_str 4242 +:+ newline; stderr := "" |}).
  vm_compute. reflexivity.
Defined.

(** ** Inventory *)

Lemma assign_all_spec (entries : list (string * Inventory.host)) :
  forall (hosts : gmap string Inventory.host) h,
    let result := fold_left (fun hosts entry => <[fst entry := snd entry]> hosts)
                    entries hosts in
    (forall e, result !! h = Some e -> (h, e) ∈ entries \/ hosts !! h = Some e)
    /\ ((exists e, (h, e) ∈ entries) \/ is_Some (hosts !! h) -> is_Some (result !! h)).
Proof.
  induction entries as [|[k v] rest IH]; intros hosts h; cbv zeta; cbn [fold_left fst snd].
  - split; [now right|]. intros [[e He]|H]; [now apply elem_of_nil in He|exact H].
  - destruct (IH (<[k := v]> hosts) h) as [Hsound Hcomplete]. cbv zeta in Hsound, Hcomplete.
    split.
    + intros e He. destruct (Hsound e He) as [Hin|Hlook].
      * left. now apply list_elem_of_further.
      * destruct (decide (k = h)) as [->|Hne].
        -- rewrite lookup_insert_eq in Hlook. injection Hlook as ->.
           left. apply list_elem_of_here.
        -- rewrite lookup_insert_ne in Hlook by assumption. now right.
    + intros H. apply Hcomplete. destruct H as [[e He]|H].
      * apply elem_of_cons in He. destruct He as [[= -> ->]|He].
        -- right. rewrite lookup_insert_eq. now eexists.
        -- left. now exists e.
      * right. destruct (decide (k = h)) as [->|Hne].
        -- rewrite lookup_insert_eq. now eexists.
        -- now rewrite lookup_insert_ne.
Qed.

Lemma collect_assignments children :
  Inventory.collect children
  = fold_left (fun hosts entry => <[fst entry := snd entry]> hosts)
      (assignments children) ∅.
Proof.
  unfold Inventory.collect, assignments. generalize (∅ : gmap string Inventory.host).
  induction children as [|child rest IH]; intros hosts; [reflexivity|].
  cbn [fold_left map concat]. rewrite fold_left_app. apply IH.
Qed.

Lemma group_hosts_spec g data h e :
  (h, e) ∈ Inventory.group_hosts g data <->
  exists group_items hosts_data cfg,
    data = Inventory.YMap group_items
    /\ Inventory.item group_items "hosts" = Some (Inventory.YMap hosts_data)
    /\ (h, cfg) ∈ hosts_data
    /\ e = {| Inventory.group := g;
              Inventory.config := if Inventory.truthy cfg then cfg else Inventory.YMap [] |}.
Proof.
  unfold Inventory.group_hosts. split.
  - destruct data as [| | | | |group_items]; try (intros H; now apply elem_of_nil in H).
    destruct (Inventory.item group_items "hosts") as [[| | | | |hosts_data]|] eqn:Hi;
      try (intros H; now apply elem_of_nil in H).
    intros H. apply list_elem_of_fmap in H. destruct H as ([h' cfg] & [= -> ->] & Hin).
    exists group_items, hosts_data, cfg. now repeat split.
  - intros (group_items & hosts_data & cfg & -> & -> & Hin & ->).
    apply list_elem_of_fmap. exists (h, cfg). now split.
Qed.

Lemma assignments_spec children h e :
  (h, e) ∈ assignments children <->
  exists g data, (g, data) ∈ children /\ (h, e) ∈ Inventory.group_hosts g data.
Proof.
  unfold assignments. rewrite list_elem_of_In, in_concat. split.
  - intros (l & Hl & Hin). apply list_elem_of_In, list_elem_of_fmap in Hl.
    destruct Hl as ([g data] & -> & Hc). exists g, data.
    split; [exact Hc|now apply list_elem_of_In].
  - intros (g & data & Hc & Hin). exists (Inventory.group_hosts g data).
    split; [|now apply list_elem_of_In].
    apply list_elem_of_In, list_elem_of_fmap. now exists (g, data).
Qed.

(** X27. For an inventory whose [all] entry is a mapping with a mapping
    under [children], [extract_hosts_from_inventory] raises nothing, and
    the hosts it returns are exactly the hosts listed in the [hosts]
    mapping of some group: every returned host is listed under the group
    its entry names, with the configuration written there (an empty
    dictionary when that is empty or null), and every listed host is
    returned. *)
Theorem extract_hosts_sound_and_complete
    (inv_items all_items children : list (string * Inventory.yaml)) :
  Inventory.item inv_items "all" = Some (Inventory.YMap all_items) ->
  Inventory.item all_items "children" = Some (Inventory.YMap children) ->
  exists hosts,
    Inventory.extract_hosts_from_inventory (Inventory.YMap inv_items) = inr hosts
    /\ (forall h e,
          hosts !! h = Some e ->
          exists group_items hosts_data cfg,
            (Inventory.group e, Inventory.YMap group_items) ∈ children
            /\ Inventory.item group_items "hosts" = Some (Inventory.YMap hosts_data)
            /\ (h, cfg) ∈ hosts_data
            /\ Inventory.config e
               = if Inventory.truthy cfg then cfg else Inventory.YMap [])
    /\ (forall g group_items hosts_data h cfg,
          (g, Inventory.YMap group_items) ∈ children ->
          Inventory.item group_items "hosts" = Some (Inventory.YMap hosts_data) ->
          (h, cfg) ∈ hosts_data ->
          is_Some (hosts !! h)).
Proof.
  intros Hall Hchildren. exists (Inventory.collect children).
  split; [|split].
  - unfold Inventory.extract_hosts_from_inventory. rewrite Hall. cbn.
    rewrite Hchildren. rewrite bool_decide_eq_true_2 by (now eexists). reflexivity.
  - intros h e He. rewrite collect_assignments in He.
    destruct (assign_all_spec (assignments children) ∅ h) as [Hsound _].
    destruct (Hsound e He) as [Hin|Hempty]; [|now rewrite lookup_empty in Hempty].
    apply assignments_spec in Hin. destruct Hin as (g & data & Hc & Hin).
    apply group_hosts_spec in Hin.
    destruct Hin as (group_items & hosts_data & cfg & -> & Hhosts & Hcfg & ->).
    exists group_items, hosts_data, cfg. now repeat split.
  - intros g group_items hosts_data h cfg Hc Hhosts Hin.
    rewrite collect_assignments.
    destruct (assign_all_spec (assignments children) ∅ h) as [_ Hcomplete].
    apply Hcomplete. left. eexists. apply assignments_spec.
    exists g, (Inventory.YMap group_items). split; [exact Hc|].
    apply group_hosts_spec. exists group_items, hosts_data, cfg. now repeat split.
Qed.

Lemma extract_hosts_sound_and_complete_witness :
  exists hosts,
    Inventory.extract_hosts_from_inventory acme_inventory = inr hosts
    /\ (forall h e,
          hosts !! h = Some e ->
          exists group_items hosts_data cfg,
            (Inventory.group e, Inventory.YMap group_items)
              ∈ [("k3s"%string,
                  Inventory.YMap
                    [("hosts"%string,
                      Inventory.YMap
                        [("prod1"%string,
                          Inventory.YMap
                            [("ansible_host"%string, Inventory.YStr "10.0.5.20")]);
                         ("lab"%string, Inventory.YNull)])]);
                 ("spare"%string, Inventory.YMap [("hosts"%string, Inventory.YNull)])]
            /\ Inventory.item group_items "hosts" = Some (Inventory.YMap hosts_data)
            /\ (h, cfg) ∈ hosts_data
            /\ Inventory.config e
               = if Inventory.truthy cfg then cfg else Inventory.YMap [])
    /\ (forall g group_items hosts_data h cfg,
          (g, Inventory.YMap group_items)
            ∈ [("k3s"%string,
                Inventory.YMap
                  [("hosts"%string,
                    Inventory.YMap
                      [("prod1"%string,
                        Inventory.YMap
                          [("ansible_host"%string, Inventory.YStr "10.0.5.20")]);
                       ("lab"%string, Inventory.YNull)])]);
               ("spare"%string, Inventory.YMap [("hosts"%string, Inventory.YNull)])] ->
          Inventory.item group_items "hosts" = Some (Inventory.YMap hosts_data) ->
          (h, cfg) ∈ hosts_data ->
          is_Some (hosts !! h)).
Proof.
  apply (extract_hosts_sound_and_complete
           [("all"%string,
             Inventory.YMap
               [("vars"%string,
                 Inventory.YMap [("ansible_user"%string, Inventory.YStr "helio")]);
                ("children"%string,
                 Inventory.YMap
                   [("k3s"%string,
                     Inventory.YMap
                       [("hosts"%string,
                         Inventory.YMap
                           [("prod1"%string,
                             Inventory.YMap
                               [("ansible_host"%string, Inventory.YStr "10.0.5.20")]);
                            ("lab"%string, Inventory.YNull)])]);
                    ("spare"%string,
                     Inventory.YMap [("hosts"%string, Inventory.YNull)])])])]
           [("vars"%string,
             Inventory.YMap [("ansible_user"%string, Inventory.YStr "helio")]);
            ("children"%string,
             Inventory.YMap
               [("k3s"%string,
                 Inventory.YMap
                   [("hosts"%string,
                     Inventory.YMap
                       [("prod1"%string,
                         Inventory.YMap
                           [("ansible_host"%string, Inventory.YStr "10.0.5.20")]);
                        ("lab"%string, Inventory.YNull)])]);
                ("spare"%string,
                 Inventory.YMap [("hosts"%string, Inventory.YNull)])])]).
  - reflexivity.
  - reflexivity.
Defined.

Example hosts_of_acme_inventory :
  Inventory.extract_hosts_from_inventory acme_inventory
  = inr {[ "prod1" := {| Inventory.group := "k3s";
                         Inventory.config :=
                           Inventory.YMap [("ansible_host", Inventory.YStr "10.0.5.20")] |};
           "lab" := {| Inventory.group := "k3s"; Inventory.config := Inventory.YMap [] |} ]}.
Proof. vm_compute. reflexivity. Qed.

(** X28. Where the extraction gives up. Data that is no mapping, a
    mapping without [all], and an [all] mapping without [children] give
    no hosts and no error. An [all] entry with nothing under it raises
    [TypeError], and a [children] entry with nothing under it raises
    [AttributeError]: neither is caught. *)
Theorem extract_hosts_failure_modes (inv_items : list (string * Inventory.yaml)) :
  (forall v, (forall items, v <> Inventory.YMap items) ->
     Inventory.extract_hosts_from_inventory v = inr ∅)
  /\ (Inventory.item inv_items "all" = None ->
      Inventory.extract_hosts_from_inventory (Inventory.YMap inv_items) = inr ∅)
  /\ (forall all_items,
        Inventory.item inv_items "all" = Some (Inventory.YMap all_items) ->
        Inventory.item all_items "children" = None ->
        Inventory.extract_hosts_from_inventory (Inventory.YMap inv_items) = inr ∅)
  /\ (Inventory.item inv_items "all" = Some Inventory.YNull ->
      Inventory.extract_hosts_from_inventory (Inventory.YMap inv_items)
      = inl Inventory.TypeError)
  /\ (forall all_items,
        Inventory.item inv_items "all" = Some (Inventory.YMap all_items) ->
        Inventory.item all_items "children" = Some Inventory.YNull ->
        Inventory.extract_hosts_from_inventory (Inventory.YMap inv_items)
        = inl Inventory.AttributeError).
Proof.
  unfold Inventory.extract_hosts_from_inventory. repeat split.
  - intros v Hv. destruct v as [| | | | |items]; try reflexivity. now destruct (Hv items).
  - now intros ->.
  - intros all_items -> Hc. cbn. rewrite Hc.
    rewrite bool_decide_eq_false_2; [reflexivity|]. now intros [x Hx].
  - now intros ->.
  - intros all_items -> Hc. cbn. rewrite Hc.
    rewrite bool_decide_eq_true_2 by (now eexists). reflexivity.
Qed.

Lemma extract_hosts_failure_modes_witness :
  Inventory.extract_hosts_from_inventory (Inventory.YSeq []) = inr ∅
  /\ Inventory.extract_hosts_from_inventory (Inventory.YMap []) = inr ∅
  /\ Inventory.extract_hosts_from_inventory
       (Inventory.YMap [("all"%string, Inventory.YMap [])]) = inr ∅
  /\ Inventory.extract_hosts_from_inventory bare_all_inventory = inl Inventory.TypeError
  /\ Inventory.extract_hosts_from_inventory bare_children_inventory
     = inl Inventory.AttributeError.
Proof.
  split; [|split; [|split; [|split]]].
  - apply (proj1 (extract_hosts_failure_modes [])). intros items. discriminate.
  - apply (proj1 (proj2 (extract_hosts_failure_modes []))). reflexivity.
  - apply (proj1 (proj2 (proj2
             (extract_hosts_failure_modes [("all"%string, Inventory.YMap [])]))) []);
      reflexivity.
  - apply (proj1 (proj2 (proj2 (proj2
             (extract_hosts_failure_modes [("all"%string, Inventory.YNull)]))))).
    reflexivity.
  - apply (proj2 (proj2 (proj2 (proj2
             (extract_hosts_failure_modes
                [("all"%string, Inventory.YMap [("children"%string, Inventory.YNull)])]))))
             [("children"%string, Inventory.YNull)]);
      reflexivity.
Defined.

(** ** Records beyond the range of process identifiers *)

Lemma os_kill_oversized pid sig w :
  ~ (INT_MIN <= pid <= INT_MAX) -> os_kill pid sig w = (Raised OverflowError, w).
Proof.
  intros Hout. unfold os_kill.
  destruct ((INT_MIN <=? pid) && (pid <=? INT_MAX)) eqn:Hr; [|reflexivity].
  apply andb_prop in Hr. destruct Hr as [Hlo Hhi]. apply Z.leb_le in Hlo, Hhi.
  destruct Hout. now split.
Qed.

Lemma os_probe_outcome pid w :
  os_kill pid 0 w = (Returned tt, w)
  \/ (exists e, os_kill pid 0 w = (Raised e, w) /\ pid_errors e = true)
  \/ os_kill pid 0 w = (Raised OverflowError, w).
Proof.
  unfold os_kill. destruct (negb _); [now right; right|].
  destruct (processes w !! pid) as [[]|]; [now left| |]; right; left; eexists; now split.
Qed.

(** One turn of the loop of the listing, whatever the records hold: it
    returns and leaves the records of the other contexts alone, or it
    raises [OverflowError]. *)
Lemma describe_context_step name w :
  match describe_context name w with
  | (Returned _, w1) => forall c, c <> name -> tunnel_record c w1 = tunnel_record c w
  | (Raised e, _) => e = OverflowError
  | (Blocked, _) => False
  end.
Proof.
  destruct (default_port name) as (port & Hport & _).
  assert (Hdead : forall w1,
            is_tunnel_running name w = (Returned false, w1) ->
            (forall c, c <> name -> tunnel_record c w1 = tunnel_record c w) ->
            match describe_context name w with
            | (Returned _, w2) => forall c, c <> name -> tunnel_record c w2 = tunnel_record c w
            | (Raised e, _) => e = OverflowError
            | (Blocked, _) => False
            end).
  { intros w1 Hrun Hother. unfold describe_context, bind at 1. rewrite Hrun.
    cbv beta iota. unfold bind, get_tunnel_port, lift, ret.
    rewrite Hport, get_network_metadata_spec. exact Hother. }
  destruct (tunnel_record name w) as [text|] eqn:Hrec.
  - pose proof (is_tunnel_running_record _ _ _ Hrec) as Hrun.
    pose proof (get_tunnel_pid_record _ _ _ Hrec) as Hpid.
    destruct (py_int 10 (strip text)) as [pid|].
    + destruct (os_probe_outcome pid w) as [Hk|[(e & Hk & He)|Hk]]; rewrite Hk in Hrun, Hpid.
      * unfold describe_context, bind at 1. rewrite Hrun. cbv beta iota.
        unfold bind, get_tunnel_port, lift, ret.
        rewrite Hpid, Hport, get_network_metadata_spec. reflexivity.
      * rewrite He in Hrun. apply (Hdead _ Hrun).
        intros c Hne. now apply without_record_other.
      * simpl in Hrun. unfold describe_context, bind at 1. rewrite Hrun. reflexivity.
    + apply (Hdead _ Hrun). intros c Hne. now apply without_record_other.
  - apply (Hdead _ (is_tunnel_running_absent _ _ Hrec)). reflexivity.
Qed.

Lemma is_tunnel_running_oversized c w :
  oversized c w -> is_tunnel_running c w = (Raised OverflowError, w).
Proof.
  intros (text & pid & Hrec & _ & Hint & Hout).
  rewrite (is_tunnel_running_record _ _ _ Hrec), Hint, (os_kill_oversized _ _ _ Hout).
  reflexivity.
Qed.

Lemma for_each_describe_oversized c names :
  forall w, c ∈ names -> oversized c w ->
    fst (for_each describe_context names w) = Raised OverflowError.
Proof.
  induction names as [|name rest IH]; intros w Hin Hover.
  - now apply elem_of_nil in Hin.
  - cbn [for_each]. unfold bind at 1.
    destruct (decide (name = c)) as [->|Hne].
    + unfold describe_context, bind at 1.
      now rewrite (is_tunnel_running_oversized c w Hover).
    + pose proof (describe_context_step name w) as Hstep.
      destruct (describe_context name w) as [[info|e|] w1]; [|now subst e|contradiction].
      apply elem_of_cons in Hin. destruct Hin as [->|Hin]; [contradiction|].
      assert (oversized c w1) as Hover1.
      { destruct Hover as (text & pid & Hrec & Hrest). exists text, pid.
        rewrite Hstep by congruence. now split. }
      specialize (IH w1 Hin Hover1). unfold bind.
      destruct (for_each describe_context rest w1) as [[l|e|] w2]; simpl in IH;
        try discriminate. simpl. exact IH.
Qed.

(** X29. A record whose number does not fit the C type of process
    identifiers (and is short enough for [int] to read it) is not healed
    and breaks the status. In a store whose records are under plain
    names, for such a record [is_tunnel_running] and [get_tunnel_pid]
    raise [OverflowError] and leave the record in place, and
    [list_all_contexts] raises [OverflowError] whatever the other records
    hold. [kill_tunnel] raises the same error but removes the record,
    after which [is_tunnel_running] answers false again. *)
Theorem oversized_record_breaks_status (context_name : string) (w : World) :
  plain_store w ->
  oversized context_name w ->
  is_tunnel_running context_name w = (Raised OverflowError, w)
  /\ get_tunnel_pid context_name w = (Raised OverflowError, w)
  /\ fst (list_all_contexts w) = Raised OverflowError
  /\ fst (kill_tunnel context_name w) = Raised OverflowError
  /\ is_tunnel_running context_name (snd (kill_tunnel context_name w))
     = (Returned false, snd (kill_tunnel context_name w)).
Proof.
  intros _ Hover. pose proof Hover as (text & pid & Hrec & _ & Hint & Hout).
  split; [now apply is_tunnel_running_oversized|]. split; [|split; [|split]].
  - rewrite (get_tunnel_pid_record _ _ _ Hrec), Hint, (os_kill_oversized _ _ _ Hout).
    reflexivity.
  - unfold list_all_contexts. destruct (state_dir w) as [d|] eqn:Hdir.
    + assert (context_name ∈ glob_pid d) as Hin.
      { apply glob_pid_lists. unfold tunnel_record, the_dir in Hrec.
        rewrite Hdir in Hrec. now exists text. }
      pose proof (for_each_describe_oversized context_name (glob_pid d) w Hin Hover) as Hf.
      unfold bind. destruct (for_each describe_context (glob_pid d) w) as [[l|e|] w1];
        simpl in Hf; try discriminate. exact Hf.
    + unfold tunnel_record, the_dir in Hrec. rewrite Hdir in Hrec. simpl in Hrec.
      rewrite lookup_empty in Hrec. discriminate.
  - rewrite (kill_tunnel_record _ _ _ Hrec), Hint. cbv zeta.
    rewrite (os_kill_oversized _ _ _ Hout). reflexivity.
  - destruct (kill_tunnel_files context_name w) as [Hgone _].
    rewrite (is_tunnel_running_absent _ _ Hgone). f_equal.
    apply dir_present, kill_tunnel_dir.
Qed.

Lemma oversized_neighbour : oversized "acme-prod1" oversized_neighbour_world.
Proof.
  exists "99999999999"%string, 99999999999. split; [vm_compute; reflexivity|].
  split; [vm_compute; lia|].
  split; [vm_compute; reflexivity|]. unfold INT_MIN, INT_MAX. lia.
Qed.

Lemma oversized_neighbour_plain : plain_store oversized_neighbour_world.
Proof.
  intros c [text Hrec]. unfold tunnel_record in Hrec. simpl in Hrec.
  apply lookup_insert_Some in Hrec. destruct Hrec as [[<- _]|[_ Hrec]].
  - vm_compute. reflexivity.
  - apply lookup_singleton_Some in Hrec. destruct Hrec as [<- _].
    vm_compute. reflexivity.
Qed.

Lemma oversized_record_breaks_status_witness :
  is_tunnel_running "acme-prod1" oversized_neighbour_world
    = (Raised OverflowError, oversized_neighbour_world)
  /\ get_tunnel_pid "acme-prod1" oversized_neighbour_world
    = (Raised OverflowError, oversized_neighbour_world)
  /\ fst (list_all_contexts oversized_neighbour_world) = Raised OverflowError
  /\ fst (kill_tunnel "acme-prod1" oversized_neighbour_world) = Raised OverflowError
  /\ is_tunnel_running "acme-prod1" (snd (kill_tunnel "acme-prod1" oversized_neighbour_world))
     = (Returned false, snd (kill_tunnel "acme-prod1" oversized_neighbour_world)).
Proof.
  apply (oversized_record_breaks_status "acme-prod1" oversized_neighbour_world).
  - exact oversized_neighbour_plain.
  - exact oversized_neighbour.
Defined.

(** X30. While the record of its context holds a number that does not fit
    the C type of process identifiers (and is short enough for [int] to
    read it) a cluster cannot be connected: [connect_cluster] reports
    failure with the [OverflowError], runs no external command and leaves
    the state directory and the processes as they are, so that every
    further attempt ends the same way. *)
Theorem oversized_record_blocks_reconnect (env : Collaborators) (cfg : Config)
    (c : cluster) (w : World) (ip : string) (cached : bool) :
  load_ssh_config env (host_alias c) = Returned tt ->
  kubeconfig_of env (company c) (host_alias c) = Returned (ip, cached) ->
  PORT_RANGE_SIZE cfg <> 0 ->
  plain_name (context_of c) = true ->
  oversized (context_of c) w ->
  exists result,
    connect_cluster env cfg c w = (Returned result, w)
    /\ success result = false
    /\ error result = Some OverflowError
    /\ tunnel_pid result = None
    /\ (connect_cluster env cfg c ;; connect_cluster env cfg c) w = (Returned result, w).
Proof.
  intros Hssh Hk Hsize _ Hover.
  destruct (port_defined (context_of c) (PORT_RANGE_START cfg) (PORT_RANGE_SIZE cfg) Hsize)
    as [port Hport].
  assert (Hc : connect_cluster env cfg c w
               = (Returned {| success := false; context_name := context_of c;
                              local_port := Some port; internal_ip := Some ip;
                              tunnel_pid := None; error := Some OverflowError |}, w)).
  { rewrite connect_cluster_unfold. unfold preparation. rewrite Hssh, Hk, Hport.
    cbv beta iota. simpl fst. unfold setup_tunnel, bind at 1.
    now rewrite (is_tunnel_running_oversized _ _ Hover). }
  eexists. split; [exact Hc|]. repeat split.
  unfold bind. now rewrite Hc.
Qed.

Lemma oversized_record_blocks_reconnect_witness :
  exists result,
    connect_cluster reachable default_config acme_prod1 oversized_neighbour_world
      = (Returned result, oversized_neighbour_world)
    /\ success result = false
    /\ error result = Some OverflowError
    /\ tunnel_pid result = None
    /\ (connect_cluster reachable default_config acme_prod1 ;;
        connect_cluster reachable default_config acme_prod1) oversized_neighbour_world
       = (Returned result, oversized_neighbour_world).
Proof.
  apply (oversized_record_blocks_reconnect reachable default_config acme_prod1
           oversized_neighbour_world "10.0.5.20" false).
  - reflexivity.
  - reflexivity.
  - discriminate.
  - vm_compute. reflexivity.
  - exact oversized_neighbour.
Defined.
